(** * lab_graber_bot: conversation state machines, persistence and the grading poll

    A shallow embedding of the bot's handlers (src/handlers), its two
    HTTP gateways (src/services/api.py, src/services/admin.py) and its two
    SQLite repositories (src/services/student.py, src/services/admin.py).

    Handlers are [async def]s that thread four pieces of mutable state: the
    aiogram FSM storage, the SQLite tables, the chat transport and the remote
    grading server.  They are embedded as computations of a state-and-exception
    monad [M] over a [World]; effects performed before an exception is raised
    stay performed, as in Python.  Everything the handlers do to the outside
    (Telegram calls, HTTP requests, sleeps) is appended to a trace. *)

From Stdlib Require Import ZArith Lia Ascii String.
From stdpp Require Import gmap strings list fin_maps pretty sorting.

Local Open Scope string_scope.
Local Open Scope list_scope.
Local Open Scope Z_scope.

(** ** Python values *)

(** A [str] is represented by its UTF-8 encoding.  Equality of encodings is
    equality of strings, which is all [==], dict keys and SQLite's BINARY
    collation need. *)

Definition nl : string := String (ascii_of_nat 10) EmptyString.

(** JSON documents as decoded by [resp.json()].  Only the top level of a
    response is ever a dict in this bot, so dicts are kept apart. *)
#[warnings="-register-all"]
Inductive JVal :=
| JNull
| JBool (b : bool)
| JNum (z : Z)
| JStr (s : string)
| JList (l : list JVal).

Abbreviation JDict := (gmap string JVal).

(** Builtins of the Python runtime and of aiogram that the handlers call but
    that are no code of this repository. *)
Class PyRuntime := {
  (** [str.strip()] *)
  str_strip : string → string;
  (** [str.title()] *)
  str_title : string → string;
  (** [html.escape] *)
  quote_html : string → string;
  (** [aiogram.utils.markdown.bold] *)
  bold : string → string;
  (** [format(v)] of a decoded JSON value that is not a [str], as an f-string
      renders it *)
  format_other : JVal → string;
  (** the characters of a [str], as iterating over it gives them *)
  str_chars : string → list string;
}.

(** [f"{v}"] *)
Definition fmt `{PyRuntime} (v : JVal) : string :=
  match v with
  | JStr s => s
  | _ => format_other v
  end.

(** ** Exceptions *)

Inductive Exn :=
| TelegramBadRequest
| TelegramNotFound
| TelegramForbiddenError
| TelegramNetworkError
| KeyError (k : string)
| AttributeError
| TypeError
| IndexError
| StopIteration
| ValueError (msg : string)
| RuntimeError
| IntegrityError
| OperationalError
| ClientError.

#[global] Instance Exn_eq_dec : EqDecision Exn.
Proof. solve_decision. Defined.

(** ** States (src/states) *)

Module Reg.
Inductive t := SURNAME | NAME | PATRONYMIC | GROUP | GITHUB | CONFIRM.
#[global] Instance eq_dec : EqDecision t.
Proof. solve_decision. Defined.
End Reg.

Module AdminLogin.
Inductive t := LOGIN | PASSWORD.
#[global] Instance eq_dec : EqDecision t.
Proof. solve_decision. Defined.
End AdminLogin.

Module AdminMenu.
Inductive t :=
    MAIN | GROUPS | STUDENTS | STUDENT_INFO | COURSES | COURSE_INFO | EDIT | CONFIRM.
#[global] Instance eq_dec : EqDecision t.
Proof. solve_decision. Defined.
End AdminMenu.

Inductive State :=
| SReg (s : Reg.t)
| SLogin (s : AdminLogin.t)
| SMenu (s : AdminMenu.t).

#[global] Instance State_eq_dec : EqDecision State.
Proof. solve_decision. Defined.

(** [State.state]: the string aiogram stores, [group:name]. *)
Definition state_name (s : State) : string :=
  match s with
  | SReg Reg.SURNAME => "Reg:SURNAME"
  | SReg Reg.NAME => "Reg:NAME"
  | SReg Reg.PATRONYMIC => "Reg:PATRONYMIC"
  | SReg Reg.GROUP => "Reg:GROUP"
  | SReg Reg.GITHUB => "Reg:GITHUB"
  | SReg Reg.CONFIRM => "Reg:CONFIRM"
  | SLogin AdminLogin.LOGIN => "AdminLogin:LOGIN"
  | SLogin AdminLogin.PASSWORD => "AdminLogin:PASSWORD"
  | SMenu AdminMenu.MAIN => "AdminMenu:MAIN"
  | SMenu AdminMenu.GROUPS => "AdminMenu:GROUPS"
  | SMenu AdminMenu.STUDENTS => "AdminMenu:STUDENTS"
  | SMenu AdminMenu.STUDENT_INFO => "AdminMenu:STUDENT_INFO"
  | SMenu AdminMenu.COURSES => "AdminMenu:COURSES"
  | SMenu AdminMenu.COURSE_INFO => "AdminMenu:COURSE_INFO"
  | SMenu AdminMenu.EDIT => "AdminMenu:EDIT"
  | SMenu AdminMenu.CONFIRM => "AdminMenu:CONFIRM"
  end.

(** ** Models (src/models/student.py, src/services/api.py) *)

Record CourseRef := { cr_name : string; cr_semester : string }.

#[global] Instance CourseRef_eq_dec : EqDecision CourseRef.
Proof. solve_decision. Defined.

Record CourseDTO := {
  dto_id : Z;
  dto_name : string;
  dto_semester : string;
  dto_logo : option string;
  dto_email : option string;
}.

(** Timestamps are microseconds since the epoch; [isoformat] and
    [fromisoformat] are inverse on them. *)
Record Student := {
  id : option Z;
  chat_id : Z;
  surname : string;
  name : string;
  patronymic : option string;
  group_code : string;
  github : string;
  courses : list CourseRef;
  created_at : option Z;
  updated_at : option Z;
}.

#[global] Instance Student_eq_dec : EqDecision Student.
Proof. solve_decision. Defined.

(** ** Chat transport *)

(** Inline keyboards (src/keyboards), by constructor. *)
Inductive Keyboard :=
| start_kb
| nav_kb (include_back : bool)
| confirm_kb
| main_menu_kb
| home_kb
| labs_kb (labs : list string) (course_id : string)
| login_back_kb
| admin_main_kb
| groups_kb (groups : list string)
| students_kb (students : list string) (group : string)
| admin_courses_kb (courses : list (string * string))
| upload_back_kb.

(** How [send_message] is called: bare, with [parse_mode="HTML"], or with
    [parse_mode="HTML", disable_web_page_preview=True]. *)
Inductive SendMode := Plain | Html | HtmlNoPreview.

Inductive TgCall :=
| DeleteMessage (chat : Z) (msg_id : Z)
| SendMessage (chat : Z) (text : string) (kb : option Keyboard) (mode : SendMode)
| EditText (chat : Z) (msg_id : Z) (text : string) (kb : option Keyboard)
| AnswerCallback (text : option string) (show_alert : bool)
| GetFile (file_id : string).

(** Incoming updates. *)
Record Document := { file_id : string; file_name : string; file_path : string }.

Record Message := {
  msg_chat : Z;
  message_id : Z;
  text : option string;
  document : option Document;
}.

Record CallbackQuery := {
  message : Message;
  data : string;
}.

Inductive TgObj :=
| OfMessage (m : Message)
| OfCallback (cb : CallbackQuery).

(** ** Values of a conversation's data bag *)

Inductive BagVal :=
| VStr (s : string)
| VInt (z : Z)
| VStrs (l : list string).

#[global] Instance BagVal_eq_dec : EqDecision BagVal.
Proof. solve_decision. Defined.

(** Python truthiness of a value of the data bag. *)
Definition truthy (v : BagVal) : bool :=
  match v with
  | VStr s => negb (String.eqb s "")
  | VInt z => negb (Z.eqb z 0)
  | VStrs l => match l with [] => false | _ => true end
  end.

(** ** Remote server *)

Inductive Request :=
| GetCourses
| GetGroups (course_id : string)
| GetLabs (course_id group : string)
| PostRegister (course_id group : string) (payload : JDict)
| PostGrade (course_id group lab_id github : string)
| GetCourseInfo (course_id : string)
| PostAdminLogin (login : BagVal) (password : string)
| PostAdminLogout (cookie : string)
| GetAdminCourses (cookie : option string)
| DeleteCourse (cookie course_id : string)
| GetTelegramFile (file_path : string)
| PostCourseUpload (cookie : string) (filename : string).

(** A decoded response body. *)
Inductive Body :=
| BEmpty
| BCourses (cs : list CourseDTO)
| BStrings (l : list string)
| BDict (d : JDict)
| BDicts (l : list JDict).

(** What one request comes to: a response with a status, its
    [admin_session] cookie if it sets one and its body; the server hanging
    up ([ServerDisconnectedError]); or any other failure of the client
    (timeout, refused connection, undecodable body). *)
Inductive HttpOutcome :=
| Response (status : Z) (cookie : option string) (body : Body) (raw : string)
| ServerDisconnected
| ClientFailure.

(** ** The world *)

(** One conversation of the FSM storage. *)
Record Session := {
  sess_state : option State;
  sess_data : gmap string BagVal;
}.

Definition empty_session : Session :=
  {| sess_state := None; sess_data := ∅ |}.

(** How a Telegram call ended: done, done with the id of the message it
    sent, or raised. *)
Inductive TgResult :=
| Done
| SentAs (msg_id : Z)
| Raised (e : Exn).

Inductive Event :=
| Tg (c : TgCall) (r : TgResult)
| Http (r : Request) (o : HttpOutcome)
| Sleep (seconds : Z).

(** A grading poll handed to [asyncio.create_task]: what the closure [poll]
    of [lab_selected] captures. *)
Record PollTask := {
  task_chat : Z;
  task_course_id : string;
  task_group : string;
  task_lab_id : string;
  task_github : string;
  (** [wait_msg.message_id] *)
  task_wait_msg : Z;
}.

Record World := {
  (** FSM storage, by chat id *)
  fsm : gmap Z Session;
  (** table [students], in rowid order, and its AUTOINCREMENT sequence *)
  students : list Student;
  students_seq : Z;
  (** table [admin_sessions]: rows (cookie, expires_at) in rowid order;
      [None] until the table is created *)
  admin_sessions : option (list (string * Z));
  (** what [datetime.utcnow()] reads, in microseconds; it stands still
      while a handler runs *)
  clock : Z;
  (** what the next HTTP requests come to; past the end requests fail *)
  http_script : list HttpOutcome;
  (** which of the next Telegram calls raise; past the end none does *)
  tg_faults : list (option Exn);
  (** id the next sent message gets *)
  next_msg_id : Z;
  (** tasks created and not yet run by the event loop *)
  tasks : list PollTask;
  (** everything done to the outside so far, oldest first *)
  trace : list Event;
}.

(** ** The monad *)

Inductive Result (A : Type) :=
| Ret (a : A)
| Raise (e : Exn).
Arguments Ret {A} a.
Arguments Raise {A} e.

Definition M (A : Type) : Type := World → Result A * World.

Definition ret {A} (a : A) : M A := λ w, (Ret a, w).

Definition bind {A B} (m : M A) (k : A → M B) : M B :=
  λ w, match m w with
       | (Ret a, w') => k a w'
       | (Raise e, w') => (Raise e, w')
       end.

Definition raise {A} (e : Exn) : M A := λ w, (Raise e, w).

(** [try: m  except <h matches> as e: h e]; an exception [h] does not match
    propagates. *)
Definition try_except {A} (m : M A) (h : Exn → option (M A)) : M A :=
  λ w, match m w with
       | (Ret a, w') => (Ret a, w')
       | (Raise e, w') =>
           match h e with
           | Some k => k w'
           | None => (Raise e, w')
           end
       end.

(** A computation that touches nothing. *)
Definition lift {A} (r : Exn + A) : M A :=
  match r with
  | inr a => ret a
  | inl e => raise e
  end.

Definition gets {A} (f : World → A) : M A := λ w, (Ret (f w), w).
Definition modify (f : World → World) : M unit := λ w, (Ret tt, f w).

#[global] Instance M_ret : MRet M := @ret.
#[global] Instance M_bind : MBind M := λ A B k m, bind m k.

(** ** Primitive effects *)

Definition with_fsm (f : gmap Z Session → gmap Z Session) (w : World) : World :=
  {| fsm := f (fsm w); students := students w; students_seq := students_seq w;
     admin_sessions := admin_sessions w; clock := clock w;
     http_script := http_script w; tg_faults := tg_faults w;
     next_msg_id := next_msg_id w; tasks := tasks w; trace := trace w |}.

Definition with_students (l : list Student) (seq : Z) (w : World) : World :=
  {| fsm := fsm w; students := l; students_seq := seq;
     admin_sessions := admin_sessions w; clock := clock w;
     http_script := http_script w; tg_faults := tg_faults w;
     next_msg_id := next_msg_id w; tasks := tasks w; trace := trace w |}.

Definition with_admin_sessions (t : option (list (string * Z))) (w : World) : World :=
  {| fsm := fsm w; students := students w; students_seq := students_seq w;
     admin_sessions := t; clock := clock w;
     http_script := http_script w; tg_faults := tg_faults w;
     next_msg_id := next_msg_id w; tasks := tasks w; trace := trace w |}.

Definition with_http (s : list HttpOutcome) (ev : Event) (w : World) : World :=
  {| fsm := fsm w; students := students w; students_seq := students_seq w;
     admin_sessions := admin_sessions w; clock := clock w;
     http_script := s; tg_faults := tg_faults w;
     next_msg_id := next_msg_id w; tasks := tasks w; trace := trace w ++ [ev] |}.

Definition with_tg (f : list (option Exn)) (next : Z) (ev : Event) (w : World) : World :=
  {| fsm := fsm w; students := students w; students_seq := students_seq w;
     admin_sessions := admin_sessions w; clock := clock w;
     http_script := http_script w; tg_faults := f;
     next_msg_id := next; tasks := tasks w; trace := trace w ++ [ev] |}.

Definition log_event (ev : Event) : M unit :=
  modify (λ w, with_tg (tg_faults w) (next_msg_id w) ev w).

Definition with_tasks (ts : list PollTask) (w : World) : World :=
  {| fsm := fsm w; students := students w; students_seq := students_seq w;
     admin_sessions := admin_sessions w; clock := clock w;
     http_script := http_script w; tg_faults := tg_faults w;
     next_msg_id := next_msg_id w; tasks := ts; trace := trace w |}.

(** [asyncio.create_task] *)
Definition create_task (t : PollTask) : M unit :=
  modify (λ w, with_tasks (tasks w ++ [t]) w).

(** *** aiogram's [FSMContext] of one chat *)

Definition session_of (w : World) (chat : Z) : Session :=
  default empty_session (fsm w !! chat).

Definition get_state (chat : Z) : M (option State) :=
  gets (λ w, sess_state (session_of w chat)).

Definition set_state (chat : Z) (s : option State) : M unit :=
  modify (λ w, with_fsm
    <[chat := {| sess_state := s; sess_data := sess_data (session_of w chat) |}]> w).

Definition get_data (chat : Z) : M (gmap string BagVal) :=
  gets (λ w, sess_data (session_of w chat)).

(** [update_data] merges into the stored bag: keys of [d] are overwritten,
    the others stay. *)
Definition update_data (chat : Z) (d : gmap string BagVal) : M unit :=
  modify (λ w, with_fsm
    <[chat := {| sess_state := sess_state (session_of w chat);
                 sess_data := d ∪ sess_data (session_of w chat) |}]> w).

(** [state.clear()]: no state, empty bag. *)
Definition clear (chat : Z) : M unit :=
  modify (with_fsm <[chat := empty_session]>).

(** [d[k]] *)
Definition getitem (d : gmap string BagVal) (k : string) : M BagVal :=
  match d !! k with
  | Some v => ret v
  | None => raise (KeyError k)
  end.

(** *** Telegram *)

(** One call of the Bot API that returns nothing: it raises if the fault
    script says so. *)
Definition tg (c : TgCall) : M unit :=
  λ w, match tg_faults w with
       | Some e :: rest =>
           (Raise e, with_tg rest (next_msg_id w) (Tg c (Raised e)) w)
       | None :: rest =>
           (Ret tt, with_tg rest (next_msg_id w) (Tg c Done) w)
       | [] =>
           (Ret tt, with_tg [] (next_msg_id w) (Tg c Done) w)
       end.

(** [bot.send_message]: the id of the message sent. *)
Definition send_message (chat : Z) (text : string) (kb : option Keyboard)
    (mode : SendMode) : M Z :=
  let c := SendMessage chat text kb mode in
  λ w, match tg_faults w with
       | Some e :: rest =>
           (Raise e, with_tg rest (next_msg_id w) (Tg c (Raised e)) w)
       | None :: rest =>
           (Ret (next_msg_id w),
            with_tg rest (next_msg_id w + 1) (Tg c (SentAs (next_msg_id w))) w)
       | [] =>
           (Ret (next_msg_id w),
            with_tg [] (next_msg_id w + 1) (Tg c (SentAs (next_msg_id w))) w)
       end.

Definition delete_message (chat msg_id : Z) : M unit :=
  tg (DeleteMessage chat msg_id).

(** [message.delete()] *)
Definition msg_delete (m : Message) : M unit :=
  delete_message (msg_chat m) (message_id m).

(** [message.answer(text, reply_markup=kb)] *)
Definition msg_answer (m : Message) (text : string) (kb : option Keyboard) : M Z :=
  send_message (msg_chat m) text kb Plain.

(** [cb.answer(text, show_alert=...)] *)
Definition cb_answer (text : option string) (show_alert : bool) : M unit :=
  tg (AnswerCallback text show_alert).

(** *** HTTP *)

Definition http (r : Request) : M HttpOutcome :=
  λ w, match http_script w with
       | o :: rest => (Ret o, with_http rest (Http r o) w)
       | [] => (Ret ClientFailure, with_http [] (Http r ClientFailure) w)
       end.

(** [datetime.utcnow()] *)
Definition utcnow : M Z := gets clock.

Definition microseconds (seconds : Z) : Z := seconds * 1000000.

(** ** utils/semester.py *)

Module Semester.

(** [current_semester], from the year and the month of the date in Moscow. *)
Definition current_semester (y m : Z) : string :=
  if (2 <=? m) && (m <=? 7) then "Spring " +:+ pretty y
  else if m =? 1 then "Fall " +:+ pretty (y - 1)
  else "Fall " +:+ pretty y.

End Semester.

(** ** services/student.py *)

Module StudentRepository.

(** Python truthiness of [student.id]. *)
Definition id_set (i : option Z) : bool :=
  match i with
  | Some z => negb (Z.eqb z 0)
  | None => false
  end.

(** The columns of [UNIQUE(surname, name, group_code, github)] agree. *)
Definition same_identity (a b : Student) : bool :=
  bool_decide (surname a = surname b) && bool_decide (name a = name b)
  && bool_decide (group_code a = group_code b) && bool_decide (github a = github b).

(** [SELECT * FROM students WHERE chat_id=?], [fetchone] *)
Definition get_by_chat (chat : Z) : M (option Student) :=
  gets (λ w, List.find (λ r, Z.eqb (chat_id r) chat) (students w)).

(** [SELECT ... WHERE surname=? AND name=? AND group_code=? AND github=?],
    [fetchone] *)
Definition _check_existing_student (student : Student) : M (option Student) :=
  gets (λ w, List.find (same_identity student) (students w)).

(** The rowid AUTOINCREMENT gives next: one more than the largest ever used. *)
Definition next_rowid (rows : list Student) (seq : Z) : Z :=
  1 + foldr (λ r acc, Z.max (default 0 (id r)) acc) seq rows.

(** [INSERT INTO students (chat_id, ..., created_at, updated_at)], under the
    table's two UNIQUE constraints. *)
Definition sql_insert (student : Student) (now : Z) : M unit :=
  λ w,
    if existsb (λ r, Z.eqb (chat_id r) (chat_id student) || same_identity student r)
         (students w)
    then (Raise IntegrityError, w)
    else
      let i := next_rowid (students w) (students_seq w) in
      let row := {| id := Some i; chat_id := chat_id student;
                    surname := surname student; name := name student;
                    patronymic := patronymic student;
                    group_code := group_code student; github := github student;
                    courses := courses student;
                    created_at := Some now; updated_at := Some now |} in
      (Ret tt, with_students (students w ++ [row]) i w).

(** [UPDATE students SET surname=?, ..., courses=?, updated_at=? WHERE id=?] *)
Definition sql_update (student : Student) (i : Z) (now : Z) : M unit :=
  λ w,
    let hit r := bool_decide (id r = Some i) in
    if existsb hit (students w)
       && existsb (λ r, negb (hit r) && same_identity student r) (students w)
    then (Raise IntegrityError, w)
    else
      let upd r :=
        if hit r then
          {| id := id r; chat_id := chat_id r;
             surname := surname student; name := name student;
             patronymic := patronymic student;
             group_code := group_code student; github := github student;
             courses := courses student;
             created_at := created_at r; updated_at := Some now |}
        else r in
      (Ret tt, with_students (upd <$> students w) (students_seq w) w).

Definition duplicate_message : string :=
  "Студент с такими же данными уже зарегистрирован в системе".

Definition save (student : Student) : M unit :=
  existing ← (if negb (id_set (id student))
              then _check_existing_student student
              else ret None);
  match existing with
  | Some _ => raise (ValueError duplicate_message)
  | None =>
      now ← utcnow;
      match id student with
      | Some i => if id_set (id student)
                  then sql_update student i now
                  else sql_insert student now
      | None => sql_insert student now
      end
  end.

(** [SELECT * FROM students] *)
Definition all : M (list Student) := gets students.

(** [SELECT * FROM students WHERE group_code=?] *)
Definition by_group (group : string) : M (list Student) :=
  gets (λ w, List.filter (λ r, bool_decide (group_code r = group)) (students w)).

(** [DELETE FROM students WHERE id=?] *)
Definition delete_student (student_id : option Z) : M unit :=
  modify (λ w, with_students
    (List.filter (λ r, negb (bool_decide (id r = student_id))) (students w))
    (students_seq w) w).

(** [DELETE FROM students WHERE group_code=?] *)
Definition delete_group (group : string) : M unit :=
  modify (λ w, with_students
    (List.filter (λ r, negb (bool_decide (group_code r = group))) (students w))
    (students_seq w) w).

End StudentRepository.

(** ** services/admin.py: [AdminSessionRepo] *)

Module AdminSessionRepo.

(** The three statements the repository sends. *)
Inductive Stmt :=
| CreateTableIfNotExists
| DeleteAll
| Insert (cookie : string) (expires_at : Z).

Definition exec (s : Stmt) (t : option (list (string * Z)))
    : Exn + option (list (string * Z)) :=
  match s, t with
  | CreateTableIfNotExists, None => inr (Some [])
  | CreateTableIfNotExists, Some rows => inr (Some rows)
  | DeleteAll, Some _ => inr (Some [])
  | Insert c e, Some rows => inr (Some (rows ++ [(c, e)]))
  | _, None => inl OperationalError
  end.

Definition execute (s : Stmt) : M unit :=
  λ w, match exec s (admin_sessions w) with
       | inr t => (Ret tt, with_admin_sessions t w)
       | inl e => (Raise e, w)
       end.

Definition ensure_table : M unit := execute CreateTableIfNotExists.

(** [SELECT cookie, expires_at FROM admin_sessions LIMIT 1] *)
Definition get_cookie : M (option (string * Z)) :=
  λ w, match admin_sessions w with
       | Some rows => (Ret (head rows), w)
       | None => (Raise OperationalError, w)
       end.

(** The statements of [save_cookie], in the order it sends them. *)
Definition save_cookie_stmts (cookie : string) (ttl_sec : Z) (now : Z) : list Stmt :=
  [DeleteAll; Insert cookie (now + microseconds ttl_sec)].

Fixpoint execute_all (ss : list Stmt) : M unit :=
  match ss with
  | [] => ret tt
  | s :: ss' => execute s;; execute_all ss'
  end.

Definition save_cookie_ttl (cookie : string) (ttl_sec : Z) : M unit :=
  now ← utcnow;
  execute_all (save_cookie_stmts cookie ttl_sec now).

(** [ttl_sec] defaults to 3600 and no caller passes it. *)
Definition save_cookie (cookie : string) : M unit := save_cookie_ttl cookie 3600.

Definition clear : M unit := execute DeleteAll.

(** *** The table over time *)

(** How many tokens a table holds. *)
Definition tokens (t : option (list (string * Z))) : nat :=
  match t with
  | Some rows => length rows
  | None => 0%nat
  end.

(** The calls that write to the table, each with the clock it runs at. *)
Inductive Call :=
| CallEnsureTable
| CallSaveCookie (cookie : string) (now : Z)
| CallClear.

Definition statements (c : Call) : list Stmt :=
  match c with
  | CallEnsureTable => [CreateTableIfNotExists]
  | CallSaveCookie cookie now => save_cookie_stmts cookie 3600 now
  | CallClear => [DeleteAll]
  end.

(** The tables a call goes through, one after each statement; the call ends
    at the first statement that raises. *)
Fixpoint steps (ss : list Stmt) (t : option (list (string * Z)))
    : list (option (list (string * Z))) :=
  match ss with
  | [] => []
  | s :: ss' =>
      match exec s t with
      | inr t' => t' :: steps ss' t'
      | inl _ => []
      end
  end.

(** The tables a sequence of calls goes through. *)
Fixpoint history (calls : list Call) (t : option (list (string * Z)))
    : list (option (list (string * Z))) :=
  match calls with
  | [] => []
  | c :: calls' =>
      let h := steps (statements c) t in
      h ++ history calls' (List.last h t)
  end.

End AdminSessionRepo.

(** ** services/api.py: [APIClient]

    Every method wraps its request in [try ... except Exception], so none
    raises.  A body of a shape other than the endpoint's contract is a body
    that does not decode. *)

Module APIClient.

(** [raise_for_status] passes below 400. *)
Definition courses_result (o : HttpOutcome) : list CourseDTO :=
  match o with
  | Response status _ (BCourses cs) _ => if status <? 400 then cs else []
  | _ => []
  end.

Definition get_courses : M (list CourseDTO) :=
  o ← http GetCourses;
  ret (courses_result o).

(** What [get_groups] and [get_labs] make of a response. *)
Definition strings_result (o : HttpOutcome) : list string :=
  match o with
  | Response status _ (BStrings l) _ => if status =? 200 then l else []
  | _ => []
  end.

Definition get_groups (course_id : string) : M (list string) :=
  o ← http (GetGroups course_id);
  ret (strings_result o).

Definition get_labs (course_id group : string) : M (list string) :=
  o ← http (GetLabs course_id group);
  ret (strings_result o).

(** [{"status": "error", "code": resp.status, "message": await resp.text()}] *)
Definition error_result (status : Z) (raw : string) : JDict :=
  {[ "status" := JStr "error"; "code" := JNum status; "message" := JStr raw ]}.

Definition register_result (o : HttpOutcome) : option JDict :=
  match o with
  | Response status _ body raw =>
      if status =? 200 then
        match body with
        | BDict result => Some result
        | _ => None
        end
      else Some (error_result status raw)
  | ServerDisconnected => None
  | ClientFailure => None
  end.

Definition register_student (course_id group : string) (payload : JDict)
    : M (option JDict) :=
  o ← http (PostRegister course_id group payload);
  ret (register_result o).

Definition pending_message : string := "Нет ответа, проверка запущена ⏳".

(** What [grade_lab] returns for each way its request can end. *)
Definition grade_result (o : HttpOutcome) : option JDict :=
  match o with
  | Response status _ body raw =>
      if status =? 200 then
        match body with
        | BDict result => Some result
        | _ => None
        end
      else Some (error_result status raw)
  | ServerDisconnected =>
      Some {[ "status" := JStr "pending"; "message" := JStr pending_message ]}
  | ClientFailure => None
  end.

Definition grade_lab (course_id group lab_id github : string) : M (option JDict) :=
  o ← http (PostGrade course_id group lab_id github);
  ret (grade_result o).

Definition course_info_result (o : HttpOutcome) : option JDict :=
  match o with
  | Response status _ (BDict info) _ => if status =? 200 then Some info else None
  | _ => None
  end.

Definition get_course_info (course_id : string) : M (option JDict) :=
  o ← http (GetCourseInfo course_id);
  ret (course_info_result o).

End APIClient.

(** ** services/admin.py: [AdminAPI]

    No method catches anything: a request that fails raises into the
    handler. *)

Module AdminAPI.

(** The cookie [login] returns: the response's [admin_session] cookie if
    the status is 200. *)
Definition login_result (o : HttpOutcome) : Exn + option string :=
  match o with
  | Response status cookie _ _ => inr (if status =? 200 then cookie else None)
  | _ => inl ClientError
  end.

(** [login] goes into the request's JSON as the bag holds it. *)
Definition login (login : BagVal) (password : string) : M (option string) :=
  o ← http (PostAdminLogin login password);
  lift (login_result o).

(** [r.status == 200] *)
Definition status_ok (o : HttpOutcome) : Exn + bool :=
  match o with
  | Response status _ _ _ => inr (status =? 200)
  | _ => inl ClientError
  end.

Definition logout (cookie : string) : M bool :=
  o ← http (PostAdminLogout cookie);
  lift (status_ok o).

(** [cookies = {"admin_session": cookie} if cookie else {}] *)
Definition cookie_jar (cookie : string) : option string :=
  if String.eqb cookie "" then None else Some cookie.

Definition list_courses (cookie : string) : M (list JDict) :=
  o ← http (GetAdminCourses (cookie_jar cookie));
  match o with
  | Response _ _ (BDicts courses) _ => ret courses
  | _ => raise ClientError
  end.

Definition delete_course (cookie course_id : string) : M bool :=
  o ← http (DeleteCourse cookie course_id);
  lift (status_ok o).

Definition upload_course (cookie file_url filename : string) : M bool :=
  file_resp ← http (GetTelegramFile file_url);
  match file_resp with
  | Response status _ _ _ =>
      if status =? 200 then
        o ← http (PostCourseUpload cookie filename);
        lift (status_ok o)
      else ret false
  | _ => raise ClientError
  end.

(** A request on a [ClientSession] whose [async with] block has ended:
    aiohttp raises before anything is sent. *)
Definition on_closed_session {A} : M A := raise RuntimeError.

End AdminAPI.

(** ** handlers/student.py: the registration wizard *)

Module StudentHandlers.
Section handlers.
Context `{PyRuntime}.

Definition PROMPTS (s : Reg.t) : option string :=
  match s with
  | Reg.SURNAME => Some "Введи фамилию"
  | Reg.NAME => Some "Введи имя"
  | Reg.PATRONYMIC => Some ("Введи отчество" +:+ nl +:+ "(если нет — напиши «-»)")
  | Reg.GROUP => Some "Введи группу"
  | Reg.GITHUB => Some "Введи GitHub"
  | Reg.CONFIRM => None
  end.

Definition ORDER : list Reg.t :=
  [Reg.SURNAME; Reg.NAME; Reg.PATRONYMIC; Reg.GROUP; Reg.GITHUB].

(** [{ORDER[i + 1]: ORDER[i] for i in range(len(ORDER) - 1)}] *)
Definition PREV : list (Reg.t * Reg.t) := zip (tail ORDER) ORDER.

(** [PREV.get(s)] *)
Definition PREV_get (s : Reg.t) : option Reg.t :=
  snd <$> List.find (λ p, bool_decide (fst p = s)) PREV.

Definition BOT_MSG_KEY : string := "__bot_msg_id".

Definition normalize_fio (text : string) : string := str_title (str_strip text).

(** [PROMPTS[s]] *)
Definition prompt (s : Reg.t) : M string :=
  match PROMPTS s with
  | Some p => ret p
  | None => raise (KeyError (state_name (SReg s)))
  end.

(** The message id the bag holds, if it holds a truthy one. *)
Definition stored_msg_id (data : gmap string BagVal) : option BagVal :=
  match data !! BOT_MSG_KEY with
  | Some v => if truthy v then Some v else None
  | None => None
  end.

Definition _cleanup_prev (chat : Z) : M unit :=
  data ← get_data chat;
  match stored_msg_id data with
  | Some (VInt msg_id) =>
      try_except (delete_message chat msg_id)
        (λ e, match e with
              | TelegramNotFound | TelegramBadRequest | TelegramForbiddenError =>
                  Some (ret tt)
              | _ => None
              end)
  | Some _ => raise TypeError
  | None => ret tt
  end.

Definition chat_of (obj : TgObj) : Z :=
  match obj with
  | OfCallback cb => msg_chat (message cb)
  | OfMessage m => msg_chat m
  end.

Definition _send (obj : TgObj) (text : string) (kb : Keyboard) : M unit :=
  let chat := chat_of obj in
  try_except
    (_cleanup_prev chat;;
     sent ← send_message chat text (Some kb) Plain;
     update_data chat {[ BOT_MSG_KEY := VInt sent ]})
    (λ _, Some
       (try_except
          (send_message chat text (Some kb) Plain;; ret tt)
          (λ _, Some (ret tt)))).

(** [message.text.strip()] *)
Definition stripped_text (m : Message) : M string :=
  match text m with
  | Some t => ret (str_strip t)
  | None => raise AttributeError
  end.

(** [next(s for s in ORDER if s.state == cur_state)]; a [StopIteration]
    leaving a coroutine surfaces as [RuntimeError]. *)
Definition current_step (cur_state : State) : M Reg.t :=
  match List.find (λ s, bool_decide (state_name (SReg s) = state_name cur_state)) ORDER with
  | Some s => ret s
  | None => raise RuntimeError
  end.

(** [ORDER[ORDER.index(cur) + 1]] *)
Fixpoint index_of (cur : Reg.t) (l : list Reg.t) : option nat :=
  match l with
  | [] => None
  | s :: l' => if bool_decide (s = cur) then Some 0%nat else S <$> index_of cur l'
  end.

Definition next_step (cur : Reg.t) : M Reg.t :=
  match index_of cur ORDER with
  | Some i =>
      match ORDER !! S i with
      | Some nxt => ret nxt
      | None => raise IndexError
      end
  | None => raise (ValueError "is not in list")
  end.

(** [f"{v}"] of a value of the bag; a list has no use in this module and is
    rendered by its items. *)
Definition fmt_bag (v : BagVal) : string :=
  match v with
  | VStr s => s
  | VInt z => pretty z
  | VStrs l => fmt (JList (JStr <$> l))
  end.

Definition summary_text (surname name patronymic group github : string) : string :=
  "<b>" +:+ surname +:+ " " +:+ name +:+ " " +:+ patronymic +:+ "</b>" +:+ nl
  +:+ "Группа: " +:+ group +:+ nl +:+ "GitHub: " +:+ github.

Definition field_key (s : Reg.t) : string := state_name (SReg s).

(** The five routes of [reg_steps]: a text message in one of the states of
    [ORDER].  Without a state the router does not dispatch here; the model
    raises there what the search of [ORDER] raises. *)
Definition reg_steps (message : Message) : M unit :=
  let chat := msg_chat message in
  msg_delete message;;
  cur_state ← get_state chat;
  text ← stripped_text message;
  match cur_state with
  | None => raise RuntimeError
  | Some cur_state =>
      let text :=
        if bool_decide (state_name cur_state ∈
             [field_key Reg.SURNAME; field_key Reg.NAME; field_key Reg.PATRONYMIC])
        then normalize_fio text else text in
      data ← get_data chat;
      let data := <[ state_name cur_state := VStr text ]> data in
      update_data chat data;;
      cur ← current_step cur_state;
      if bool_decide (cur ≠ Reg.GITHUB) then
        nxt ← next_step cur;
        set_state chat (Some (SReg nxt));;
        p ← prompt nxt;
        _send (OfMessage message) p (nav_kb true)
      else
        set_state chat (Some (SReg Reg.CONFIRM));;
        s1 ← getitem data (field_key Reg.SURNAME);
        s2 ← getitem data (field_key Reg.NAME);
        s3 ← getitem data (field_key Reg.PATRONYMIC);
        s4 ← getitem data (field_key Reg.GROUP);
        s5 ← getitem data (field_key Reg.GITHUB);
        _send (OfMessage message)
          (summary_text (fmt_bag s1) (fmt_bag s2) (fmt_bag s3) (fmt_bag s4) (fmt_bag s5))
          confirm_kb
  end.

Definition reg_back (cb : CallbackQuery) : M unit :=
  let chat := msg_chat (message cb) in
  cur_state ← get_state chat;
  cur ← match cur_state with
        | Some s => current_step s
        | None => raise RuntimeError
        end;
  match PREV_get cur with
  | None => cb_answer None false
  | Some prev =>
      msg_delete (message cb);;
      data ← get_data chat;
      let data := delete BOT_MSG_KEY data in
      update_data chat data;;
      set_state chat (Some (SReg prev));;
      p ← prompt prev;
      _send (OfCallback cb) p (nav_kb (bool_decide (prev ≠ Reg.SURNAME)));;
      cb_answer None false
  end.

(** Pydantic takes a [str] field from a [str] only. *)
Definition as_str (v : BagVal) : M string :=
  match v with
  | VStr s => ret s
  | _ => raise (ValueError "validation error for Student")
  end.

Definition registered_text : string :=
  "✅ Регистрация завершена" +:+ nl +:+ nl +:+ "🏠 Главное меню".

Definition duplicate_text : string :=
  "❌ Студент с такими же данными уже зарегистрирован в системе." +:+ nl +:+ nl
  +:+ "Если это ваши данные, но вы используете другой Telegram аккаунт, "
  +:+ "пожалуйста, обратитесь к администратору.".

Definition failure_text : string :=
  "❌ Произошла ошибка при регистрации. Попробуйте позже.".

(** The [Student] that [reg_confirm] builds from the bag. *)
Definition build_student (chat : Z) (data : gmap string BagVal) : M Student :=
  v1 ← getitem data (field_key Reg.SURNAME);
  v2 ← getitem data (field_key Reg.NAME);
  v3 ← getitem data (field_key Reg.PATRONYMIC);
  v4 ← getitem data (field_key Reg.GROUP);
  v5 ← getitem data (field_key Reg.GITHUB);
  s1 ← as_str v1;
  s2 ← as_str v2;
  s3 ← (if bool_decide (v3 = VStr "-") then ret None
        else s ← as_str v3; ret (Some s));
  s4 ← as_str v4;
  s5 ← as_str v5;
  ret {| id := None; chat_id := chat; surname := s1; name := s2;
         patronymic := s3; group_code := s4; github := s5;
         courses := []; created_at := None; updated_at := None |}.

Definition reg_confirm (cb : CallbackQuery) : M unit :=
  let chat := msg_chat (message cb) in
  data ← get_data chat;
  clear chat;;
  student ← build_student chat data;
  try_except
    (StudentRepository.save student;;
     msg_delete (message cb);;
     msg_answer (message cb) registered_text (Some main_menu_kb);;
     ret tt)
    (λ e, match e with
          | ValueError _ =>
              Some (msg_delete (message cb);;
                    msg_answer (message cb) duplicate_text (Some start_kb);;
                    ret tt)
          | _ =>
              Some (msg_delete (message cb);;
                    msg_answer (message cb) failure_text (Some start_kb);;
                    ret tt)
          end);;
  cb_answer None false.

Definition reg_start (cb : CallbackQuery) : M unit :=
  let chat := msg_chat (message cb) in
  clear chat;;
  set_state chat (Some (SReg Reg.SURNAME));;
  msg_delete (message cb);;
  p ← prompt Reg.SURNAME;
  _send (OfCallback cb) p (nav_kb false);;
  cb_answer None false.

Definition restart_text : string := "Начнём заново. Жми «Зарегистрироваться»".

Definition reg_restart (cb : CallbackQuery) : M unit :=
  let chat := msg_chat (message cb) in
  clear chat;;
  msg_delete (message cb);;
  _cleanup_prev chat;;
  sent ← msg_answer (message cb) restart_text (Some start_kb);
  update_data chat {[ BOT_MSG_KEY := VInt sent ]};;
  cb_answer None false.

End handlers.
End StudentHandlers.

(** ** handlers/common.py: course selection and the grading poll *)

Inductive PollStatus :=
| Finished
(** the loop was still going round when the fuel ran out *)
| Polling.

Module CommonHandlers.
Section handlers.
Context `{PyRuntime}.

(** [s.split("_", 1)] when it has two parts. *)
Fixpoint split_once (s : string) : option (string * string) :=
  match s with
  | EmptyString => None
  | String c s' =>
      if Ascii.eqb c "_"%char then Some (EmptyString, s')
      else match split_once s' with
           | Some (a, b) => Some (String c a, b)
           | None => None
           end
  end.

(** [d.get(k, default)] *)
Definition get_or (d : JDict) (k : string) (default : JVal) : JVal :=
  match d !! k with
  | Some v => v
  | None => default
  end.

Definition is_str (v : option JVal) (s : string) : bool :=
  match v with
  | Some (JStr s') => String.eqb s' s
  | _ => false
  end.

(** [cb.answer(v, show_alert=True)] for a decoded JSON value [v]: the text
    of an answer is a [str] or [None]. *)
Definition answer_json (v : JVal) : M unit :=
  match v with
  | JStr s => cb_answer (Some s) true
  | JNull => cb_answer None true
  | _ => raise (ValueError "validation error for AnswerCallbackQuery")
  end.

Definition unknown : string := "Неизвестно".
Definition unset : string := "Не указан".

(** [v != 'Не указан'] *)
Definition is_set (v : JVal) : bool :=
  match v with
  | JStr s => negb (String.eqb s unset)
  | _ => true
  end.

Definition labs_header (group : string) : string :=
  "<b>🧪 Группа " +:+ group +:+ " лабораторные</b>".

Definition course_text (course_info : option JDict) (group : string) : string :=
  match course_info with
  | Some info =>
      if bool_decide (info = ∅) then labs_header group
      else
        let name := get_or info "name" (JStr unknown) in
        let semester := get_or info "semester" (JStr unknown) in
        let github_org := get_or info "github-organization" (JStr unset) in
        let spreadsheet_id := get_or info "google-spreadsheet" (JStr unset) in
        let github_link :=
          if is_set github_org then "https://github.com/" +:+ fmt github_org
          else unset in
        let spreadsheet_link :=
          if is_set spreadsheet_id
          then "https://docs.google.com/spreadsheets/d/" +:+ fmt spreadsheet_id
          else unset in
        "<b>📚 " +:+ fmt name +:+ " (" +:+ fmt semester +:+ ")</b>" +:+ nl
        +:+ "🔗 GitHub: <a href=" +:+ String (ascii_of_nat 34) github_link
        +:+ String (ascii_of_nat 34) ">" +:+ fmt github_org +:+ "</a>" +:+ nl
        +:+ "📊 Таблица: <a href=" +:+ String (ascii_of_nat 34) spreadsheet_link
        +:+ String (ascii_of_nat 34) ">" +:+ fmt spreadsheet_id +:+ "</a>" +:+ nl +:+ nl
        +:+ labs_header group
  | None => labs_header group
  end.

(** The tail of [course_selected], under [if registered:]. *)
Definition show_labs (cb : CallbackQuery) (course_id : string) (student : Student)
    : M unit :=
  groups ← APIClient.get_groups course_id;
  if negb (bool_decide (group_code student ∈ groups)) then
    cb_answer (Some "⚠️ Этот курс не для твоей группы") true
  else
    labs ← APIClient.get_labs course_id (group_code student);
    match labs with
    | [] => cb_answer (Some "📭 Для твоей группы лабораторных нет") true
    | _ =>
        course_info ← APIClient.get_course_info course_id;
        msg_delete (message cb);;
        send_message (msg_chat (message cb))
          (course_text course_info (group_code student))
          (Some (labs_kb labs course_id)) HtmlNoPreview;;
        cb_answer None false
    end.

Definition json_of_option (o : option string) : JVal :=
  match o with
  | Some s => JStr s
  | None => JNull
  end.

Definition register_payload (student : Student) : JDict :=
  {[ "name" := JStr (name student);
     "surname" := JStr (surname student);
     "patronymic" := json_of_option (patronymic student);
     "github" := JStr (github student) ]}.

(** [student.courses.append(ref)] *)
Definition append_course (student : Student) (ref : CourseRef) : Student :=
  {| id := id student; chat_id := chat_id student; surname := surname student;
     name := name student; patronymic := patronymic student;
     group_code := group_code student; github := github student;
     courses := courses student ++ [ref];
     created_at := created_at student; updated_at := updated_at student |}.

Definition has_course (student : Student) (course : CourseDTO) : bool :=
  existsb (λ cr, bool_decide (cr_name cr = dto_name course)
                 && bool_decide (cr_semester cr = dto_semester course))
    (courses student).

Definition course_selected (cb : CallbackQuery) : M unit :=
  let chat := msg_chat (message cb) in
  course_id ← match split_once (data cb) with
              | Some (_, rest) => ret rest
              | None => raise IndexError
              end;
  courses_all ← APIClient.get_courses;
  match List.find (λ c, bool_decide (pretty (dto_id c) = course_id)) courses_all with
  | None => cb_answer (Some "❌ Курс не найден") true
  | Some course =>
      student ← StudentRepository.get_by_chat chat;
      match student with
      | None => cb_answer (Some "⚠️ Необходимо зарегистрироваться") true
      | Some student =>
          if has_course student course then show_labs cb course_id student
          else
            result ← APIClient.register_student course_id (group_code student)
                       (register_payload student);
            match result with
            | None => cb_answer (Some "❌ Ошибка сервера") true
            | Some result =>
                if bool_decide (result = ∅) then
                  cb_answer (Some "❌ Ошибка сервера") true
                else
                  let status := result !! "status" in
                  if negb (is_str status "registered" || is_str status "already_registered")
                  then answer_json (get_or result "message" (JStr "❌ Не удалось привязать курс"))
                  else
                    let student :=
                      append_course student
                        {| cr_name := dto_name course;
                           cr_semester := dto_semester course |} in
                    StudentRepository.save student;;
                    show_labs cb course_id student
            end
      end
  end.

(** [html.escape(v)] for a decoded JSON value: it takes a [str]. *)
Definition escape_json (v : JVal) : Exn + string :=
  match v with
  | JStr s => inr (quote_html s)
  | _ => inl AttributeError
  end.

Fixpoint all_str (l : list JVal) : option (list string) :=
  match l with
  | [] => Some []
  | JStr s :: l' => match all_str l' with
                    | Some r => Some (s :: r)
                    | None => None
                    end
  | _ :: _ => None
  end.

(** ["\n".join(v)] for a decoded JSON value *)
Definition join_lines (v : JVal) : Exn + string :=
  match v with
  | JList l =>
      match all_str l with
      | Some ss => inr (String.concat nl ss)
      | None => inl TypeError
      end
  | JStr s => inr (String.concat nl (str_chars s))
  | _ => inl TypeError
  end.

Definition result_text (symbol msg passed checks : string) : string :=
  bold "Результат" +:+ ": " +:+ symbol +:+ nl
  +:+ msg +:+ nl +:+ nl
  +:+ bold "Тесты" +:+ ": " +:+ passed +:+ nl +:+ nl
  +:+ checks.

(** The text of a terminal "updated" result. *)
Definition format_result (res : JDict) : Exn + string :=
  let symbol := get_or res "result" (JStr "✗") in
  let msg := get_or res "message" (JStr "") in
  let passed := get_or res "passed" (JStr "") in
  match join_lines (get_or res "checks" (JList [])) with
  | inl e => inl e
  | inr checks =>
      match escape_json msg with
      | inl e => inl e
      | inr msg => inr (result_text (fmt symbol) msg (fmt passed) checks)
      end
  end.

Definition wait_text : string := "⏳ Проверка запущена…".
Definition server_error_text : string := "❌ Ошибка сервера".

(** [wait_msg.edit_text(text, reply_markup=home_kb())] *)
Definition edit_wait_msg (t : PollTask) (text : string) : M unit :=
  tg (EditText (task_chat t) (task_wait_msg t) text (Some home_kb)).

(** [asyncio.sleep] *)
Definition sleep (seconds : Z) : M unit := log_event (Sleep seconds).

(** The closure [poll] of [lab_selected]; [fuel] bounds the rounds of its
    [while True]. *)
Fixpoint poll (fuel : nat) (t : PollTask) : M PollStatus :=
  match fuel with
  | O => ret Polling
  | S fuel' =>
      res ← APIClient.grade_lab (task_course_id t) (task_group t) (task_lab_id t)
              (task_github t);
      match res with
      | None => edit_wait_msg t server_error_text;; ret Finished
      | Some res =>
          if bool_decide (res = ∅) then
            edit_wait_msg t server_error_text;; ret Finished
          else if is_str (res !! "status") "pending" then
            sleep 15;; poll fuel' t
          else if is_str (res !! "status") "updated" then
            text ← lift (format_result res);
            edit_wait_msg t text;;
            ret Finished
          else
            err ← lift (escape_json
                          (get_or res "message" (JStr "❌ Не удалось запустить проверку")));
            edit_wait_msg t err;;
            ret Finished
      end
  end.

Definition lab_selected (cb : CallbackQuery) : M unit :=
  let chat := msg_chat (message cb) in
  ids ← match split_once (data cb) with
        | Some (_, rest) =>
            match split_once rest with
            | Some ids => ret ids
            | None => raise (ValueError "not enough values to unpack")
            end
        | None => raise (ValueError "not enough values to unpack")
        end;
  student ← StudentRepository.get_by_chat chat;
  match student with
  | None => cb_answer (Some "⚠️ Сначала зарегистрируйся") true
  | Some student =>
      msg_delete (message cb);;
      wait_msg ← msg_answer (message cb) wait_text None;
      create_task {| task_chat := chat; task_course_id := fst ids;
                     task_group := group_code student; task_lab_id := snd ids;
                     task_github := github student; task_wait_msg := wait_msg |};;
      cb_answer None false
  end.

(** The event loop after a handler has returned or raised: the tasks it
    created run, each for at most [fuel] rounds; what a task raises goes
    nowhere.  A task may in fact send its first request while the handler
    still awaits its last call; the trace keeps the handler's events
    first. *)
Fixpoint run_tasks (fuel : nat) (ts : list PollTask) (w : World)
    : list (Result PollStatus) * World :=
  match ts with
  | [] => ([], w)
  | t :: ts' =>
      let '(r, w') := poll fuel t w in
      let '(rs, w'') := run_tasks fuel ts' w' in
      (r :: rs, w'')
  end.


Definition menu_text : string := "🏠 Главное меню".

Definition welcome_text : string :=
  "👋 Добро пожаловать! Для работы необходимо зарегистрироваться".

(** A row of the table is a [Student], which is truthy. *)
Definition cmd_start (message : Message) : M unit :=
  try_except (msg_delete message)
    (λ e, match e with
          | TelegramBadRequest | TelegramNotFound => Some (ret tt)
          | _ => None
          end);;
  student ← StudentRepository.get_by_chat (msg_chat message);
  match student with
  | Some _ => msg_answer message menu_text (Some main_menu_kb);; ret tt
  | None => msg_answer message welcome_text (Some start_kb);; ret tt
  end.

End handlers.
End CommonHandlers.

(** ** handlers/admin.py: login, the auth guard and the admin menu *)

Module AdminHandlers.
Section handlers.
Context `{PyRuntime}.

Definition BOT_MSG_KEY : string := "__bot_msg_id".

(** [contextlib.suppress(Exception)] around the delete. *)
Definition _cleanup_prev (chat : Z) : M unit :=
  data ← get_data chat;
  match StudentHandlers.stored_msg_id data with
  | Some (VInt msg_id) =>
      try_except (delete_message chat msg_id) (λ _, Some (ret tt))
  | Some _ => ret tt
  | None => ret tt
  end.

Definition chat_of (obj : TgObj) : Z :=
  match obj with
  | OfCallback cb => msg_chat (message cb)
  | OfMessage m => msg_chat m
  end.

Definition _send (obj : TgObj) (text : string) (kb : Keyboard) : M unit :=
  let chat := chat_of obj in
  try_except
    (_cleanup_prev chat;;
     m ← send_message chat text (Some kb) HtmlNoPreview;
     update_data chat {[ BOT_MSG_KEY := VInt m ]})
    (λ _, Some
       (try_except
          (send_message chat text (Some kb) Html;; ret tt)
          (λ _, Some (ret tt)))).

(** [msg.text.strip()] *)
Definition stripped_text (m : Message) : M string :=
  match text m with
  | Some t => ret (str_strip t)
  | None => raise AttributeError
  end.

Definition admin_login_step (msg : Message) : M unit :=
  let chat := msg_chat msg in
  msg_delete msg;;
  login ← stripped_text msg;
  update_data chat {[ "login" := VStr login ]};;
  set_state chat (Some (SLogin AdminLogin.PASSWORD));;
  _send (OfMessage msg) "Введите пароль" login_back_kb.

(** A bag value passed where the gateway builds a request from a [str]. *)
Definition bag_str (v : BagVal) : M string :=
  match v with
  | VStr s => ret s
  | _ => raise TypeError
  end.

Definition bad_credentials_text : string := "❌ Неверные данные. Попробуйте ещё раз".
Definition panel_text : string := "🔧 Админ-панель".
Definition courses_text : string := "📚 Курсы:".
Definition groups_text : string := "👥 Группы:".
Definition relogin_text : string := "⚠️ Нужно войти заново".
Definition expired_text : string := "⏰ Сессия истекла".

Definition admin_password_step (msg : Message) : M unit :=
  let chat := msg_chat msg in
  msg_delete msg;;
  data ← get_data chat;
  login ← getitem data "login";
  pwd ← stripped_text msg;
  cookie ← AdminAPI.login login pwd;
  match cookie with
  | Some cookie =>
      if String.eqb cookie "" then
        _send (OfMessage msg) bad_credentials_text login_back_kb
      else
        AdminSessionRepo.ensure_table;;
        AdminSessionRepo.save_cookie cookie;;
        set_state chat (Some (SMenu AdminMenu.MAIN));;
        _send (OfMessage msg) panel_text admin_main_kb
  | None => _send (OfMessage msg) bad_credentials_text login_back_kb
  end.

(** [cb.message.chat.id], as the guard's log lines evaluate it: a [Message]
    has no attribute [message]. *)
Definition cb_message_chat_id (obj : TgObj) : M Z :=
  match obj with
  | OfCallback cb => ret (msg_chat (message cb))
  | OfMessage _ => raise AttributeError
  end.

Definition _ensure_admin (cb : TgObj) : M bool :=
  cookie_data ← AdminSessionRepo.get_cookie;
  match cookie_data with
  | None =>
      cb_message_chat_id cb;;
      cb_answer (Some relogin_text) true;;
      ret false
  | Some (cookie, expires) =>
      now ← utcnow;
      if expires <=? now then
        cb_message_chat_id cb;;
        AdminSessionRepo.clear;;
        cb_answer (Some expired_text) true;;
        ret false
      else ret true
  end.

Definition str_le (a b : string) : Prop := Is_true (String.leb a b).

(** [sorted(l)] for a list of [str] *)
Definition sorted (l : list string) : list string := merge_sort str_le l.

(** [f"{s.surname} {s.name} {s.patronymic or ''}".strip()] *)
Definition fio (s : Student) : string :=
  str_strip (surname s +:+ " " +:+ name s +:+ " " +:+ default "" (patronymic s)).

(** [sorted({st.group_code for st in await repo.all()})] *)
Definition group_codes (rows : list Student) : list string :=
  sorted (remove_dups (group_code <$> rows)).

(** [courses_kb(courses)] of keyboards/admin.py: label and id of every
    course; a course without one of the three keys is a [KeyError]. *)
Fixpoint courses_kb_rows (courses : list (gmap string JVal))
    : Exn + list (string * string) :=
  match courses with
  | [] => inr []
  | c :: rest =>
      match (c !! "name" : option JVal), (c !! "semester" : option JVal),
            (c !! "id" : option JVal) with
      | Some n, Some s, Some i =>
          match courses_kb_rows rest with
          | inr rows => inr ((fmt n +:+ " (" +:+ fmt s +:+ ")", "adm_course_" +:+ fmt i) :: rows)
          | inl e => inl e
          end
      | None, _, _ => inl (KeyError "name")
      | _, None, _ => inl (KeyError "semester")
      | _, _, None => inl (KeyError "id")
      end
  end.

Definition courses_kb (courses : list JDict) : M Keyboard :=
  match courses_kb_rows courses with
  | inr rows => ret (admin_courses_kb rows)
  | inl e => raise e
  end.

Definition admin_groups (cb : CallbackQuery) : M unit :=
  let chat := msg_chat (message cb) in
  ok ← _ensure_admin (OfCallback cb);
  if negb ok then ret tt
  else
    rows ← StudentRepository.all;
    set_state chat (Some (SMenu AdminMenu.GROUPS));;
    _send (OfCallback cb) groups_text (groups_kb (group_codes rows));;
    cb_answer None false.

(** The body [admin_courses] and [back_courses] share word for word. *)
Definition show_courses (cb : CallbackQuery) : M unit :=
  let chat := msg_chat (message cb) in
  ok ← _ensure_admin (OfCallback cb);
  if negb ok then ret tt
  else
    cookie_data ← AdminSessionRepo.get_cookie;
    match cookie_data with
    | None => cb_answer (Some relogin_text) true
    | Some (cookie, _) =>
        courses ← AdminAPI.list_courses cookie;
        set_state chat (Some (SMenu AdminMenu.COURSES));;
        kb ← courses_kb courses;
        _send (OfCallback cb) courses_text kb;;
        cb_answer None false
    end.

Definition admin_courses (cb : CallbackQuery) : M unit := show_courses cb.

Definition back_courses (cb : CallbackQuery) : M unit := show_courses cb.

Definition add_course_start (cb : CallbackQuery) : M unit :=
  let chat := msg_chat (message cb) in
  ok ← _ensure_admin (OfCallback cb);
  if negb ok then ret tt
  else
    set_state chat (Some (SMenu AdminMenu.EDIT));;
    _send (OfCallback cb) "📤 Отправьте файл курса" upload_back_kb;;
    cb_answer None false.

(** [s.replace(prefix, "")] for a callback the router matched on
    [startswith(prefix)] and an id without the prefix inside: what follows
    the prefix. *)
Definition after_prefix (prefix s : string) : string :=
  String.substring (String.length prefix) (String.length s - String.length prefix) s.

(** Routed on [adm_course_del_yes_<id>]; it reads the token and never calls
    the guard. *)
Definition do_course_del (cb : CallbackQuery) : M unit :=
  let chat := msg_chat (message cb) in
  let course_id := after_prefix "adm_course_del_yes_" (data cb) in
  cookie_data ← AdminSessionRepo.get_cookie;
  match cookie_data with
  | None => cb_answer (Some relogin_text) true
  | Some (cookie, _) =>
      success ← AdminAPI.delete_course cookie course_id;
      (if (success : bool) then
         courses ← @AdminAPI.on_closed_session (list JDict);
         set_state chat (Some (SMenu AdminMenu.COURSES));;
         kb ← courses_kb courses;
         _send (OfCallback cb) courses_text kb
       else cb_answer (Some "❌ Ошибка удаления курса") true);;
      cb_answer None false
  end.

(** Routed on a document sent in [AdminMenu.EDIT]; the guard is handed the
    message. *)
Definition upload_new_course (msg : Message) : M unit :=
  let chat := msg_chat msg in
  ok ← _ensure_admin (OfMessage msg);
  if negb ok then ret tt
  else
    cookie_data ← AdminSessionRepo.get_cookie;
    match cookie_data with
    | None => msg_answer msg relogin_text None;; ret tt
    | Some (cookie, _) =>
        match document msg with
        | None => raise AttributeError
        | Some doc =>
            tg (GetFile (file_id doc));;
            success ← AdminAPI.upload_course cookie (file_path doc) (file_name doc);
            (if (success : bool) then
               courses ← @AdminAPI.on_closed_session (list JDict);
               set_state chat (Some (SMenu AdminMenu.COURSES));;
               kb ← courses_kb courses;
               _send (OfMessage msg) courses_text kb
             else msg_answer msg "❌ Ошибка загрузки курса" None;; ret tt);;
            msg_delete msg
        end
    end.

Definition admin_logout (cb : CallbackQuery) : M unit :=
  cookie_data ← AdminSessionRepo.get_cookie;
  match cookie_data with
  | Some (cookie, _) => AdminAPI.logout cookie;; ret tt
  | None => ret tt
  end;;
  AdminSessionRepo.clear;;
  msg_delete (message cb);;
  cb_answer (Some "✅ Сессия завершена") false.

Definition show_main (cb : CallbackQuery) : M unit :=
  set_state (msg_chat (message cb)) (Some (SMenu AdminMenu.MAIN));;
  _send (OfCallback cb) panel_text admin_main_kb.

Definition admin_cancel (cb : CallbackQuery) : M unit :=
  let chat := msg_chat (message cb) in
  current_state ← get_state chat;
  (if bool_decide (current_state = Some (SMenu AdminMenu.CONFIRM)) then
     data ← get_data chat;
     match data !! "cur_group" with
     | Some group =>
         group ← bag_str group;
         rows ← StudentRepository.by_group group;
         let students := sorted (fio <$> rows) in
         update_data chat {[ "cur_group" := VStr group; "students" := VStrs students ]};;
         set_state chat (Some (SMenu AdminMenu.STUDENTS));;
         _send (OfCallback cb) ("👥 " +:+ group +:+ ": студенты") (students_kb students group)
     | None =>
         match data !! "cur_course_id" with
         | Some _ =>
             ok ← _ensure_admin (OfCallback cb);
             if (ok : bool) then
               cookie_data ← AdminSessionRepo.get_cookie;
               match cookie_data with
               | Some (cookie, _) =>
                   courses ← AdminAPI.list_courses cookie;
                   set_state chat (Some (SMenu AdminMenu.COURSES));;
                   kb ← courses_kb courses;
                   _send (OfCallback cb) courses_text kb
               | None => show_main cb
               end
             else show_main cb
         | None => show_main cb
         end
     end
   else
     clear chat;;
     msg_delete (message cb));;
  cb_answer None false.

Definition admin_entry (msg : Message) : M unit :=
  let chat := msg_chat msg in
  try_except (msg_delete msg)
    (λ e, match e with
          | TelegramBadRequest | TelegramNotFound => Some (ret tt)
          | _ => None
          end);;
  clear chat;;
  set_state chat (Some (SLogin AdminLogin.LOGIN));;
  _send (OfMessage msg) "Введите логин" login_back_kb.

Definition back_to_main (cb : CallbackQuery) : M unit :=
  show_main cb;;
  cb_answer None false.

Definition back_groups (cb : CallbackQuery) : M unit :=
  let chat := msg_chat (message cb) in
  rows ← StudentRepository.all;
  set_state chat (Some (SMenu AdminMenu.GROUPS));;
  _send (OfCallback cb) groups_text (groups_kb (group_codes rows));;
  cb_answer None false.

(** ["_".join(s.split("_")[n:])]: what follows the [n]-th underscore, and
    nothing if there are fewer. *)
Fixpoint drop_fields (n : nat) (s : string) : string :=
  match n with
  | O => s
  | S n' =>
      match CommonHandlers.split_once s with
      | Some (_, rest) => drop_fields n' rest
      | None => ""
      end
  end.

(** The body [admin_group_open], [back_students] and the tail of
    [del_student] share word for word. *)
Definition show_students (cb : CallbackQuery) (group : string) : M unit :=
  let chat := msg_chat (message cb) in
  rows ← StudentRepository.by_group group;
  let students := sorted (fio <$> rows) in
  update_data chat {[ "cur_group" := VStr group; "students" := VStrs students ]};;
  set_state chat (Some (SMenu AdminMenu.STUDENTS));;
  _send (OfCallback cb) ("👥 " +:+ group +:+ ": студенты") (students_kb students group).

Definition admin_group_open (cb : CallbackQuery) : M unit :=
  show_students cb (drop_fields 2 (data cb));;
  cb_answer None false.

Definition back_students (cb : CallbackQuery) : M unit :=
  show_students cb (drop_fields 3 (data cb));;
  cb_answer None false.

(** [s.replace(old, "")] for a non-empty [old]: every occurrence goes, found
    from the left; [skip] characters of an occurrence are still to go. *)
Fixpoint remove_from (skip : nat) (old s : string) : string :=
  match s with
  | EmptyString => EmptyString
  | String c s' =>
      match skip with
      | S k => remove_from k old s'
      | O =>
          if String.prefix old s then remove_from (String.length old - 1) old s'
          else String c (remove_from 0 old s')
      end
  end.

Definition str_remove (old s : string) : string := remove_from 0 old s.

Definition del_group (cb : CallbackQuery) : M unit :=
  let chat := msg_chat (message cb) in
  let group := str_remove "adm_del_group_yes_" (data cb) in
  StudentRepository.delete_group group;;
  set_state chat (Some (SMenu AdminMenu.GROUPS));;
  rows ← StudentRepository.all;
  _send (OfCallback cb) groups_text (groups_kb (group_codes rows));;
  cb_answer None false.

(** [idx < len(students)] for a value of the bag: an [int] compares. *)
Definition bag_int (v : BagVal) : M Z :=
  match v with
  | VInt z => ret z
  | _ => raise TypeError
  end.

(** [l[i]]: a negative index counts from the end. *)
Definition py_index {A} (l : list A) (i : Z) : M A :=
  let n := Z.of_nat (length l) in
  let j := if i <? 0 then n + i else i in
  if (j <? 0) || (n <=? j) then raise IndexError
  else match l !! Z.to_nat j with
       | Some x => ret x
       | None => raise IndexError
       end.

Definition del_student (cb : CallbackQuery) : M unit :=
  let chat := msg_chat (message cb) in
  data ← get_data chat;
  match data !! "cur_group", data !! "del_student_idx" with
  | Some group, Some idx =>
      group ← bag_str group;
      students ← StudentRepository.by_group group;
      idx ← bag_int idx;
      (if idx <? Z.of_nat (length students) then
         target ← py_index students idx;
         StudentRepository.delete_student (id target);;
         show_students cb group
       else cb_answer (Some "❌ Ошибка: студент не найден") false);;
      cb_answer None false
  | _, _ => cb_answer (Some "❌ Ошибка: данные не найдены") false
  end.

Definition cancel_course_upload (msg : Message) : M unit :=
  let chat := msg_chat msg in
  msg_delete msg;;
  set_state chat (Some (SMenu AdminMenu.COURSES));;
  cookie_data ← AdminSessionRepo.get_cookie;
  match cookie_data with
  | Some (cookie, _) =>
      courses ← AdminAPI.list_courses cookie;
      kb ← courses_kb courses;
      _send (OfMessage msg) courses_text kb
  | None => _send (OfMessage msg) panel_text admin_main_kb
  end.

End handlers.
End AdminHandlers.

(** ** A runtime for ASCII text

    The builtins of [PyRuntime] as CPython computes them on strings of
    printable ASCII; the closed examples below run on it. *)

Module AsciiRuntime.

Definition is_space (c : ascii) : bool :=
  let n := nat_of_ascii c in
  ((9 <=? n) && (n <=? 13) || (28 <=? n) && (n <=? 32))%nat.

Fixpoint lstrip (s : string) : string :=
  match s with
  | EmptyString => EmptyString
  | String c s' => if is_space c then lstrip s' else s
  end.

Fixpoint rstrip (s : string) : string :=
  match s with
  | EmptyString => EmptyString
  | String c s' =>
      match rstrip s' with
      | EmptyString => if is_space c then EmptyString else String c EmptyString
      | r => String c r
      end
  end.

Definition strip (s : string) : string := rstrip (lstrip s).

Definition is_upper (c : ascii) : bool :=
  let n := nat_of_ascii c in ((65 <=? n) && (n <=? 90))%nat.

Definition is_lower (c : ascii) : bool :=
  let n := nat_of_ascii c in ((97 <=? n) && (n <=? 122))%nat.

Definition to_upper (c : ascii) : ascii :=
  if is_lower c then ascii_of_nat (nat_of_ascii c - 32) else c.

Definition to_lower (c : ascii) : ascii :=
  if is_upper c then ascii_of_nat (nat_of_ascii c + 32) else c.

Fixpoint title_from (previous_is_cased : bool) (s : string) : string :=
  match s with
  | EmptyString => EmptyString
  | String c s' =>
      String (if previous_is_cased then to_lower c else to_upper c)
        (title_from (is_upper c || is_lower c) s')
  end.

Definition title (s : string) : string := title_from false s.

Definition escape_char (c : ascii) : string :=
  match nat_of_ascii c with
  | 38%nat => "&amp;"
  | 60%nat => "&lt;"
  | 62%nat => "&gt;"
  | 34%nat => "&quot;"
  | 39%nat => "&#x27;"
  | _ => String c EmptyString
  end.

Fixpoint escape (s : string) : string :=
  match s with
  | EmptyString => EmptyString
  | String c s' => escape_char c +:+ escape s'
  end.

Fixpoint format (v : JVal) : string :=
  match v with
  | JNull => "None"
  | JBool true => "True"
  | JBool false => "False"
  | JNum z => pretty z
  | JStr s => "'" +:+ s +:+ "'"
  | JList l => "[" +:+ String.concat ", " (List.map format l) +:+ "]"
  end.

Definition chars (s : string) : list string :=
  (λ c, String c EmptyString) <$> list_ascii_of_string s.

Definition runtime : PyRuntime :=
  {| str_strip := strip;
     str_title := title;
     quote_html := escape;
     bold := λ s, "*" +:+ s +:+ "*";
     format_other := format;
     str_chars := chars |}.

End AsciiRuntime.


(** * Vocabulary of the statements *)

(** ** The grading poll *)

Section grading_poll_terms.
Context `{PyRuntime}.
Import CommonHandlers.

(** The request a poll task sends each round. *)
Definition grade_request (t : PollTask) : Request :=
  PostGrade (task_course_id t) (task_group t) (task_lab_id t) (task_github t).

(** A response the gateway turns into a result with status "pending". *)
Definition pending (o : HttpOutcome) : Prop :=
  ∃ d, APIClient.grade_result o = Some d ∧ d !! "status" = Some (JStr "pending").

(** The world after one round that ended in a wait: the request and the
    sleep are in the trace, the response is consumed, nothing else moved. *)
Definition waited (t : PollTask) (o : HttpOutcome) (rest : list HttpOutcome)
    (w : World) : World :=
  {| fsm := fsm w; students := students w; students_seq := students_seq w;
     admin_sessions := admin_sessions w; clock := clock w;
     http_script := rest; tg_faults := tg_faults w;
     next_msg_id := next_msg_id w; tasks := tasks w;
     trace := trace w ++ [Http (grade_request t) o; Sleep 15] |}.

(** The rounds of waiting, one per pending response. *)
Definition rounds (t : PollTask) (os : list HttpOutcome) : list Event :=
  flat_map (λ o, [Http (grade_request t) o; Sleep 15]) os.

(** [w] with [evs] added to the trace and [script] left of the responses. *)
Definition add_trace (evs : list Event) (script : list HttpOutcome) (w : World)
    : World :=
  {| fsm := fsm w; students := students w; students_seq := students_seq w;
     admin_sessions := admin_sessions w; clock := clock w;
     http_script := script; tg_faults := tg_faults w;
     next_msg_id := next_msg_id w; tasks := tasks w;
     trace := trace w ++ evs |}.

(** Events by kind: a message sent, a message edited, a sleep. *)
Definition is_send (e : Event) : bool :=
  match e with Tg (SendMessage _ _ _ _) _ => true | _ => false end.

Definition is_edit (e : Event) : bool :=
  match e with Tg (EditText _ _ _ _) _ => true | _ => false end.

Definition is_sleep (e : Event) : bool :=
  match e with Sleep _ => true | _ => false end.

End grading_poll_terms.

(** ** Admin login and the auth guard *)

Section admin_terms.
Context `{PyRuntime}.
Import AdminHandlers.

(** The delete of the previous bot message that [_send] starts with, when
    the bag holds the id of one. *)
Definition prev_deleted (chat : Z) (w : World) : list Event :=
  match StudentHandlers.stored_msg_id (sess_data (session_of w chat)) with
  | Some (VInt m) => [Tg (DeleteMessage chat m) Done]
  | _ => []
  end.

(** The world after [_send] went through: the old message deleted, the new
    one sent and its id in the bag. *)
Definition rendered (mode : SendMode) (chat : Z) (text : string) (kb : Keyboard)
    (w : World) : World :=
  {| fsm := <[chat := {| sess_state := sess_state (session_of w chat);
                         sess_data := {[ BOT_MSG_KEY := VInt (next_msg_id w) ]}
                                      ∪ sess_data (session_of w chat) |}]> (fsm w);
     students := students w; students_seq := students_seq w;
     admin_sessions := admin_sessions w; clock := clock w;
     http_script := http_script w; tg_faults := [];
     next_msg_id := next_msg_id w + 1; tasks := tasks w;
     trace := trace w ++ prev_deleted chat w
              ++ [Tg (SendMessage chat text (Some kb) mode) (SentAs (next_msg_id w))] |}.

(** A failed login as the handler leaves it. *)
Definition login_rejected (msg : Message) (w w' : World) : Prop :=
  sess_state (session_of w' (msg_chat msg)) = Some (SLogin AdminLogin.PASSWORD)
  ∧ admin_sessions w' = admin_sessions w
  ∧ last (trace w')
    = Some (Tg (SendMessage (msg_chat msg) bad_credentials_text (Some login_back_kb)
                  HtmlNoPreview) (SentAs (next_msg_id w))).

(** A successful one. *)
Definition login_accepted (msg : Message) (cookie : string) (w w' : World) : Prop :=
  sess_state (session_of w' (msg_chat msg)) = Some (SMenu AdminMenu.MAIN)
  ∧ admin_sessions w' = Some [(cookie, clock w + 3600 * 1000000)]
  ∧ last (trace w')
    = Some (Tg (SendMessage (msg_chat msg) panel_text (Some admin_main_kb)
                  HtmlNoPreview) (SentAs (next_msg_id w))).

(** The handlers that call the guard first thing, on a button press. *)
Definition guarded : list (CallbackQuery → M unit) :=
  [admin_groups; admin_courses; back_courses; add_course_start].

End admin_terms.

(** ** The registration wizard *)

Section registration_terms.
Context `{PyRuntime}.
Import StudentHandlers.

(** Two worlds that differ, for [chat], in nothing but what rendering
    touches: the stored message id, the transport and the trace. *)
Definition same_but_rendering (chat : Z) (w w' : World) : Prop :=
  sess_state (session_of w' chat) = sess_state (session_of w chat)
  ∧ (∀ k, k ≠ BOT_MSG_KEY →
       sess_data (session_of w' chat) !! k = sess_data (session_of w chat) !! k)
  ∧ students w' = students w
  ∧ students_seq w' = students_seq w
  ∧ admin_sessions w' = admin_sessions w
  ∧ http_script w' = http_script w
  ∧ clock w' = clock w.

(** The next Telegram call goes through. *)
Definition next_call_passes (w : World) : Prop :=
  tg_faults w = [] ∨ ∃ f, tg_faults w = None :: f.

(** What [reg_steps] stores for a text entered in state [s]. *)
Definition normalized (s : Reg.t) (t : string) : string :=
  match s with
  | Reg.SURNAME | Reg.NAME | Reg.PATRONYMIC => normalize_fio (str_strip t)
  | _ => str_strip t
  end.

(** One step of the form: the text is stored under the state's key and the
    wizard moves on. *)
Definition stepped (chat : Z) (cur : Reg.t) (t : string) (next : Reg.t)
    (w w' : World) : Prop :=
  sess_state (session_of w' chat) = Some (SReg next)
  ∧ sess_data (session_of w' chat) !! field_key cur = Some (VStr (normalized cur t))
  ∧ (∀ k, k ≠ BOT_MSG_KEY → k ≠ field_key cur →
       sess_data (session_of w' chat) !! k = sess_data (session_of w chat) !! k)
  ∧ tg_faults w' = []
  ∧ students w' = students w
  ∧ students_seq w' = students_seq w
  ∧ clock w' = clock w.

(** The bag of [chat] holds the five fields of the form. *)
Definition form_filled (chat : Z) (sur nam pat grp gh : string) (w : World) : Prop :=
  sess_data (session_of w chat) !! field_key Reg.SURNAME = Some (VStr sur)
  ∧ sess_data (session_of w chat) !! field_key Reg.NAME = Some (VStr nam)
  ∧ sess_data (session_of w chat) !! field_key Reg.PATRONYMIC = Some (VStr pat)
  ∧ sess_data (session_of w chat) !! field_key Reg.GROUP = Some (VStr grp)
  ∧ sess_data (session_of w chat) !! field_key Reg.GITHUB = Some (VStr gh).

(** The student a filled form stands for: a patronymic of "-" is none. *)
Definition new_student (chat : Z) (sur nam pat grp gh : string) : Student :=
  {| id := None; chat_id := chat; surname := sur; name := nam;
     patronymic := if bool_decide (pat = "-") then None else Some pat;
     group_code := grp; github := gh; courses := [];
     created_at := None; updated_at := None |}.

(** The row an INSERT of [st] adds in world [w]. *)
Definition stored (st : Student) (w : World) : Student :=
  {| id := Some (StudentRepository.next_rowid (students w) (students_seq w));
     chat_id := chat_id st; surname := surname st; name := name st;
     patronymic := patronymic st; group_code := group_code st;
     github := github st; courses := courses st;
     created_at := Some (clock w); updated_at := Some (clock w) |}.

(** A row of the table clashes with [st] on one of the two UNIQUE
    constraints. *)
Definition conflicts (st : Student) (rows : list Student) : bool :=
  existsb (λ r, Z.eqb (chat_id r) (chat_id st) || StudentRepository.same_identity st r)
    rows.

(** The three Telegram calls [reg_confirm] ends with. *)
Definition confirm_events (cb : CallbackQuery) (text : string) (kb : Keyboard)
    (w : World) : list Event :=
  [Tg (DeleteMessage (msg_chat (message cb)) (message_id (message cb))) Done;
   Tg (SendMessage (msg_chat (message cb)) text (Some kb) Plain)
     (SentAs (next_msg_id w));
   Tg (AnswerCallback None false) Done].

Definition confirmed (cb : CallbackQuery) (rows : list Student) (seq : Z)
    (text : string) (kb : Keyboard) (w : World) : World :=
  {| fsm := <[msg_chat (message cb) := empty_session]> (fsm w);
     students := rows; students_seq := seq;
     admin_sessions := admin_sessions w; clock := clock w;
     http_script := http_script w; tg_faults := [];
     next_msg_id := next_msg_id w + 1; tasks := tasks w;
     trace := trace w ++ confirm_events cb text kb w |}.

End registration_terms.

(** ** Course selection *)

Section course_selection_terms.
Context `{PyRuntime}.
Import CommonHandlers.

(** What the [n]-th request from now comes to. *)
Definition outcome_at (n : nat) (w : World) : HttpOutcome :=
  nth n (http_script w) ClientFailure.

(** A request to the register endpoint. *)
Definition is_register (ev : Event) : bool :=
  match ev with
  | Http (PostRegister _ _ _) _ => true
  | _ => false
  end.

(** [w'] comes from [w] without a write to the students table and without
    a request to the register endpoint. *)
Definition quiet (w w' : World) : Prop :=
  students w' = students w
  ∧ students_seq w' = students_seq w
  ∧ ∃ evs, trace w' = trace w ++ evs ∧ Forall (λ ev, is_register ev = false) evs.

(** A computation that is quiet from every world. *)
Definition Quiet {A} (m : M A) : Prop := ∀ w, quiet w (snd (m w)).

(** The course that [course_selected] resolves the button to. *)
Definition selected (course_id : string) (o : HttpOutcome) : option CourseDTO :=
  List.find (λ c, bool_decide (pretty (dto_id c) = course_id)) (APIClient.courses_result o).

(** The UNIQUE constraint on (surname, name, group_code, github): two rows
    that agree on the four columns are one row. *)
Definition table_unique (rows : list Student) : Prop :=
  ∀ r r', r ∈ rows → r' ∈ rows →
          StudentRepository.same_identity r r' = true → id r = id r'.

(** The row of [student] once [ref] is appended and saved at [now]. *)
Definition with_course (student : Student) (ref : CourseRef) (now : Z) : Student :=
  {| id := id student; chat_id := chat_id student; surname := surname student;
     name := name student; patronymic := patronymic student;
     group_code := group_code student; github := github student;
     courses := courses student ++ [ref];
     created_at := created_at student; updated_at := Some now |}.

End course_selection_terms.

(** ** What a computation leaves alone *)

Section frames_terms.
Context `{PyRuntime}.


(** [m] leaves the part [f] of the world as it finds it, whether it returns
    or raises. *)
Definition leaves {X A} (f : World → X) (m : M A) : Prop :=
  ∀ w, f (snd (m w)) = f w.

(** Parts of the world that a Telegram call, or a write to the students
    table, does not reach. *)
Definition past_tg {X} (f : World → X) : Prop :=
  ∀ fs n ev w, f (with_tg fs n ev w) = f w.

Definition past_students {X} (f : World → X) : Prop :=
  ∀ l s w, f (with_students l s w) = f w.

End frames_terms.

(** ** The registration wizard, off the main path *)

Section registration_paths_terms.
Context `{PyRuntime}.
Import StudentHandlers.

(** The message a delete is about, if the event is a delete. *)
Definition deleted (ev : Event) : option (Z * Z) :=
  match ev with
  | Tg (DeleteMessage chat m) _ => Some (chat, m)
  | _ => None
  end.

End registration_paths_terms.

(** ** The student menu and the ends of the poll *)

Section student_menu_terms.
Context `{PyRuntime}.
Import CommonHandlers.

(** The row of the chat, as [get_by_chat] finds it. *)
Definition row_of (chat : Z) (w : World) : option Student :=
  List.find (λ r, Z.eqb (chat_id r) chat) (students w).

(** What [cmd_start] sends: the menu to a registered chat, the invitation
    to register to any other. *)
Definition start_reply (chat : Z) (w : World) : TgCall :=
  match row_of chat w with
  | Some _ => SendMessage chat menu_text (Some main_menu_kb) Plain
  | None => SendMessage chat welcome_text (Some start_kb) Plain
  end.

(** The placeholder of task [t] edited to [text]. *)
Definition edited (t : PollTask) (text : string) : Event :=
  Tg (EditText (task_chat t) (task_wait_msg t) text (Some home_kb)) Done.

(** The server did not register the student: no result, an empty one, or a
    status other than the two that mean registered. *)
Definition refused (result : option JDict) : Prop :=
  match result with
  | None => True
  | Some r =>
      r = ∅
      ∨ (is_str (r !! "status") "registered"
         || is_str (r !! "status") "already_registered") = false
  end.

(** An alert: an answer to the button that the client shows in a dialog. *)
Definition is_alert (ev : Event) : Prop :=
  ∃ text r, ev = Tg (AnswerCallback text true) r.

End student_menu_terms.

(** ** The admin menu *)

Section admin_menu_terms.
Context `{PyRuntime}.
Import AdminHandlers.

(** [m] does not look at the session table: under any other table it
    returns the same and does the same to the rest of the world. *)
Definition blind {A} (m : M A) : Prop :=
  ∀ t w, m (with_admin_sessions t w)
         = (fst (m w), with_admin_sessions t (snd (m w))).

(** The handlers of the admin menu that read or write the students table on
    a button press without calling the guard. *)
Definition unguarded : list (CallbackQuery → M unit) :=
  [back_groups; admin_group_open; back_students; del_student; del_group;
   back_to_main].

(** A cookie the password step takes for a login. *)
Definition accepted (cookie : option string) : bool :=
  match cookie with
  | Some c => negb (String.eqb c "")
  | None => false
  end.

End admin_menu_terms.

(** ** Concrete conversations *)

Module Examples.

Definition message_in (chat msg_id : Z) (t : option string) : Message :=
  {| msg_chat := chat; message_id := msg_id; text := t; document := None |}.

Definition button (chat msg_id : Z) (d : string) : CallbackQuery :=
  {| message := message_in chat msg_id None; data := d |}.

Definition in_state (s : State) (bag : gmap string BagVal) : Session :=
  {| sess_state := Some s; sess_data := bag |}.

(** A fresh installation: nobody registered, nobody talking, a server that
    does not answer. *)
Definition fresh : World :=
  {| fsm := ∅; students := []; students_seq := 0; admin_sessions := None;
     clock := 0; http_script := []; tg_faults := []; next_msg_id := 1;
     tasks := []; trace := [] |}.

Definition with_sessions (f : gmap Z Session) (w : World) : World :=
  with_fsm (λ _, f) w.

Definition with_script (s : list HttpOutcome) (w : World) : World :=
  {| fsm := fsm w; students := students w; students_seq := students_seq w;
     admin_sessions := admin_sessions w; clock := clock w;
     http_script := s; tg_faults := tg_faults w;
     next_msg_id := next_msg_id w; tasks := tasks w; trace := trace w |}.

Definition at_time (now : Z) (w : World) : World :=
  {| fsm := fsm w; students := students w; students_seq := students_seq w;
     admin_sessions := admin_sessions w; clock := now;
     http_script := http_script w; tg_faults := tg_faults w;
     next_msg_id := next_msg_id w; tasks := tasks w; trace := trace w |}.

(** Chat 7 has given the login "admin" and is asked for the password; the
    server will answer 401. *)
Definition unauthorized : HttpOutcome := Response 401 None BEmpty "Unauthorized".

Definition world_password : World :=
  with_script [unauthorized]
    (with_sessions
       {[ 7 := in_state (SLogin AdminLogin.PASSWORD) {[ "login" := VStr "admin" ]} ]}
       fresh).

Definition msg_guess : Message := message_in 7 40 (Some "guess").

(** The admin of chat 7 is asked to confirm a delete, with a token that ran
    out at 100; it is 200 now; the server will refuse. *)
Definition forbidden : HttpOutcome := Response 403 None BEmpty "Forbidden".

Definition world_expired : World :=
  with_script [forbidden]
    (at_time 200
       (with_admin_sessions (Some [("tok", 100)])
          (with_sessions {[ 7 := in_state (SMenu AdminMenu.CONFIRM) ∅ ]} fresh))).

Definition cb_groups : CallbackQuery := button 7 41 "admin_groups".
Definition cb_course_del : CallbackQuery := button 7 41 "adm_course_del_yes_7".

(** One registered student, talking in chat 7. *)
Definition algo : CourseRef := {| cr_name := "Algo"; cr_semester := "Fall 2025" |}.

Definition algo_dto : CourseDTO :=
  {| dto_id := 5; dto_name := "Algo"; dto_semester := "Fall 2025";
     dto_logo := None; dto_email := None |}.

Definition ivanov (cs : list CourseRef) : Student :=
  {| id := Some 1; chat_id := 7; surname := "Ivanov"; name := "Ivan";
     patronymic := None; group_code := "4231"; github := "ivanov";
     courses := cs; created_at := Some 0; updated_at := Some 0 |}.

Definition world_student (cs : list CourseRef) (script : list HttpOutcome) : World :=
  with_script script (with_students [ivanov cs] 1 fresh).

Definition ok (b : Body) : HttpOutcome := Response 200 None b "".

Definition pending_result : JDict := {[ "status" := JStr "pending" ]}.


Definition task7 : PollTask :=
  {| task_chat := 7; task_course_id := "5"; task_group := "4231";
     task_lab_id := "lab1"; task_github := "ivanov"; task_wait_msg := 1 |}.

Definition cb_lab : CallbackQuery := button 7 41 "lab_5_lab1".
Definition cb_course : CallbackQuery := button 7 41 "course_5".


Definition registered_result : JDict := {[ "status" := JStr "registered" ]}.

(** The student is not on the course yet; the server registers him and
    then lists other groups for the course. *)
Definition world_unenrolled : World :=
  world_student [] [ok (BCourses [algo_dto]); ok (BDict registered_result);
                    ok (BStrings ["4232"])].

Definition world_enrolled : World :=
  world_student [algo] [ok (BCourses [algo_dto])].



Definition cb_confirm (chat : Z) : CallbackQuery := button chat 41 "reg_confirm".

(** Chat 7 is in the wizard, in state [s], with the surname given. *)
Definition world_wizard (s : Reg.t) : World :=
  with_sessions
    {[ 7 := in_state (SReg s) {[ "Reg:SURNAME" := VStr "Ivanov";
                                 "__bot_msg_id" := VInt 3 ]} ]}
    fresh.

Definition cb_back : CallbackQuery := button 7 41 "reg_back".

(** The student of chat 7 has filled the form again, under another name. *)
Definition form_petrov : gmap string BagVal :=
  {[ "Reg:SURNAME" := VStr "Petrov"; "Reg:NAME" := VStr "Petr";
     "Reg:PATRONYMIC" := VStr "-"; "Reg:GROUP" := VStr "4231";
     "Reg:GITHUB" := VStr "petrov" ]}.

Definition world_registered_again : World :=
  with_sessions {[ 7 := in_state (SReg Reg.CONFIRM) form_petrov ]}
    (world_student [] []).

Definition msg_start : Message := message_in 7 60 (Some "/start").


Definition verdict_without_message : JDict :=
  {[ "status" := JStr "updated"; "message" := JNull ]}.

Definition verdict_without_checks : JDict :=
  {[ "status" := JStr "updated"; "checks" := JNull ]}.

Definition no_such_group : JDict :=
  {[ "status" := JStr "error"; "message" := JStr "no such group" ]}.

(** The admin of chat 7 holds the token "tok", good until 1000; it is 200. *)
Definition world_admin (s : AdminMenu.t) (bag : gmap string BagVal)
    (script : list HttpOutcome) : World :=
  with_script script
    (at_time 200
       (with_admin_sessions (Some [("tok", 1000)])
          (with_sessions {[ 7 := in_state (SMenu s) bag ]} fresh))).

Definition cb_cancel : CallbackQuery := button 7 41 "admin_cancel".
Definition cb_logout : CallbackQuery := button 7 41 "admin_logout".
Definition cb_del_group : CallbackQuery := button 7 41 "adm_del_group_yes_4231".
Definition cb_del_student : CallbackQuery := button 7 41 "adm_del_st_yes_confirm".

Definition course_file : Document :=
  {| file_id := "f1"; file_name := "algo.yaml"; file_path := "documents/algo.yaml" |}.

Definition msg_file : Message :=
  {| msg_chat := 7; message_id := 61; text := None; document := Some course_file |}.

(** Two students of group 4231: Petrov registered first, Abramov second, so
    the table has them in this order and the sorted list of names in the
    other. *)
Definition petrov : Student :=
  {| id := Some 1; chat_id := 11; surname := "Petrov"; name := "Petr";
     patronymic := None; group_code := "4231"; github := "petrov";
     courses := []; created_at := Some 0; updated_at := Some 0 |}.

Definition abramov : Student :=
  {| id := Some 2; chat_id := 12; surname := "Abramov"; name := "Abram";
     patronymic := None; group_code := "4231"; github := "abramov";
     courses := []; created_at := Some 0; updated_at := Some 0 |}.

(** The admin has been asked to confirm the delete of the first name of the
    sorted list. *)
Definition world_two_students : World :=
  with_students [petrov; abramov] 2
    (world_admin AdminMenu.CONFIRM
       {[ "cur_group" := VStr "4231";
          "students" := VStrs ["Abramov Abram"; "Petrov Petr"];
          "del_student_idx" := VInt 0 ]}
       []).

Definition login_ok : HttpOutcome := Response 200 (Some "tok") BEmpty "".

End Examples.

(** * Proofs *)

(** ** Running the monad *)

Lemma session_of_with_tg f n e w c : session_of (with_tg f n e w) c = session_of w c.
Proof. reflexivity. Qed.

Lemma session_of_with_http s e w c : session_of (with_http s e w) c = session_of w c.
Proof. reflexivity. Qed.

Lemma session_of_with_students l s w c :
  session_of (with_students l s w) c = session_of w c.
Proof. reflexivity. Qed.

Lemma session_of_with_admin_sessions t w c :
  session_of (with_admin_sessions t w) c = session_of w c.
Proof. reflexivity. Qed.

Lemma session_of_with_tasks t w c : session_of (with_tasks t w) c = session_of w c.
Proof. reflexivity. Qed.

Lemma session_of_insert s w c : session_of (with_fsm <[c := s]> w) c = s.
Proof. unfold session_of. cbn. by rewrite lookup_insert_eq. Qed.

Lemma session_of_insert_ne s w c c' :
  c ≠ c' → session_of (with_fsm <[c := s]> w) c' = session_of w c'.
Proof. intros. unfold session_of. cbn. by rewrite lookup_insert_ne. Qed.

Create Rewrite HintDb world.

#[local] Hint Rewrite session_of_with_tg session_of_with_http session_of_with_students
  session_of_with_admin_sessions session_of_with_tasks session_of_insert : world.

Ltac munfold :=
  unfold mbind, M_bind, bind, mret, M_ret, ret, gets, modify, raise, try_except, lift.

Ltac mrun :=
  repeat first
    [ progress munfold
    | progress cbn
    | progress autorewrite with world ].

Lemma tg_run c w :
  tg_faults w = [] →
  tg c w = (Ret tt, with_tg [] (next_msg_id w) (Tg c Done) w).
Proof. intros E. unfold tg. by rewrite E. Qed.

Lemma send_message_run chat text kb mode w :
  tg_faults w = [] →
  send_message chat text kb mode w
  = (Ret (next_msg_id w),
     with_tg [] (next_msg_id w + 1)
       (Tg (SendMessage chat text kb mode) (SentAs (next_msg_id w))) w).
Proof. intros E. unfold send_message. by rewrite E. Qed.

Lemma http_run r w o rest :
  http_script w = o :: rest →
  http r w = (Ret o, with_http rest (Http r o) w).
Proof. intros E. unfold http. by rewrite E. Qed.

(** ** The admin-session store *)

Section admin_session_store.
Import AdminSessionRepo.

Lemma steps_statements_tokens c t :
  (tokens t ≤ 1)%nat →
  Forall (λ t', (tokens t' ≤ 1)%nat) (steps (statements c) t)
  ∧ (tokens (List.last (steps (statements c) t) t) ≤ 1)%nat.
Proof.
  intros Ht. destruct c as [|cookie now|]; destruct t as [rows|]; cbn in *;
    repeat first [split | apply Forall_cons | apply Forall_nil]; cbn; lia.
Qed.

Lemma history_tokens calls : ∀ t,
  (tokens t ≤ 1)%nat →
  Forall (λ t', (tokens t' ≤ 1)%nat) (history calls t).
Proof.
  induction calls as [|c calls IH]; intros t Ht; cbn; [constructor|].
  destruct (steps_statements_tokens c t Ht) as [Hs Hl].
  apply Forall_app. split; [exact Hs|]. by apply IH.
Qed.

(** C9. The admin-session table never holds two tokens.  A table with at
    most one row goes through tables with at most one row under any sequence
    of [ensure_table], [save_cookie] and [clear], statement by statement:
    [save_cookie] first deletes every row and then inserts the new token,
    which expires 3600 seconds after the clock reading of the call, and
    [clear], which logout and the expiry purge call, leaves no row. *)
Theorem admin_sessions_at_most_one_token (calls : list Call)
    (t : option (list (string * Z))) (rows : list (string * Z))
    (cookie : string) (now : Z) :
  (tokens t ≤ 1)%nat →
  Forall (λ t', (tokens t' ≤ 1)%nat) (history calls t)
  ∧ steps (statements (CallSaveCookie cookie now)) (Some rows)
    = [Some []; Some [(cookie, now + 3600 * 1000000)]]
  ∧ steps (statements CallClear) (Some rows) = [Some []]
  ∧ (∀ w, admin_sessions w = Some rows →
       save_cookie cookie w
       = (Ret tt, with_admin_sessions (Some [(cookie, clock w + 3600 * 1000000)]) w)
       ∧ clear w = (Ret tt, with_admin_sessions (Some []) w)).
Proof.
  intros Ht. split; [by apply history_tokens|]. do 2 (split; [reflexivity|]).
  intros w Hw. unfold save_cookie, save_cookie_ttl, clear, utcnow.
  mrun. unfold execute. rewrite Hw. cbn. split; reflexivity.
Qed.

End admin_session_store.

(** ** The grading poll *)

Section grading_poll.
Context `{PyRuntime}.
Import CommonHandlers.

Lemma lookup_nonempty (d : JDict) k v : d !! k = Some v → d ≠ ∅.
Proof. intros E ->. by rewrite lookup_empty in E. Qed.

Lemma poll_pending fuel t w o rest :
  http_script w = o :: rest →
  pending o →
  poll (S fuel) t w = poll fuel t (waited t o rest w).
Proof.
  intros Hs (d & Hd & Hst).
  cbn [poll]. unfold APIClient.grade_lab. munfold.
  rewrite (http_run _ _ _ _ Hs), Hd.
  rewrite bool_decide_eq_false_2 by eauto using lookup_nonempty.
  rewrite Hst. cbn. unfold sleep, log_event. munfold.
  f_equal. unfold waited, with_tg, with_http. cbn. f_equal.
  by rewrite <- app_assoc.
Qed.

Lemma disconnected_pending : pending ServerDisconnected.
Proof. eexists. split; [reflexivity|]. by rewrite lookup_insert_eq. Qed.

(** C3. A dropped connection is a pending answer.  When the server hangs up
    on a grading request, [grade_lab] does not raise but returns a result
    with status "pending"; the poll then sleeps 15 and goes round again, with
    nothing sent or edited in the chat, exactly as it does for a 200
    response whose body has status "pending". *)
Theorem disconnect_polls_again (fuel : nat) (t : PollTask) (w w2 : World)
    (rest : list HttpOutcome) (cookie : option string) (d : JDict) (raw : string) :
  http_script w = ServerDisconnected :: rest →
  d !! "status" = Some (JStr "pending") →
  http_script w2 = Response 200 cookie (BDict d) raw :: rest →
  APIClient.grade_lab (task_course_id t) (task_group t) (task_lab_id t) (task_github t) w
  = (Ret (Some {[ "status" := JStr "pending";
                  "message" := JStr APIClient.pending_message ]}),
     with_http rest (Http (grade_request t) ServerDisconnected) w)
  ∧ poll (S fuel) t w = poll fuel t (waited t ServerDisconnected rest w)
  ∧ poll (S fuel) t w2
    = poll fuel t (waited t (Response 200 cookie (BDict d) raw) rest w2).
Proof.
  intros Hs Hd Hs2. split; [|split].
  - unfold APIClient.grade_lab. munfold. by rewrite (http_run _ _ _ _ Hs).
  - by apply poll_pending, disconnected_pending.
  - apply poll_pending; [done|]. by exists d.
Qed.

Lemma poll_pendings t ps : ∀ fuel w rest,
  http_script w = ps ++ rest →
  Forall pending ps →
  poll (length ps + fuel) t w = poll fuel t (add_trace (rounds t ps) rest w).
Proof.
  induction ps as [|o ps IH]; intros fuel w rest Hs Hp.
  - cbn in *. f_equal. unfold add_trace. destruct w; cbn in *.
    by rewrite app_nil_r, Hs.
  - inversion Hp as [|? ? Ho Hps]; subst.
    cbn [length Nat.add]. rewrite (poll_pending _ _ _ o (ps ++ rest)) by done.
    rewrite (IH fuel _ rest) by done.
    f_equal. unfold add_trace, waited. cbn. f_equal.
    by rewrite <- app_assoc.
Qed.


Lemma rounds_counts t ps :
  List.filter is_send (rounds t ps) = []
  ∧ List.filter is_edit (rounds t ps) = []
  ∧ List.filter is_sleep (rounds t ps) = repeat (Sleep 15) (length ps).
Proof.
  unfold rounds.
  induction ps as [|o ps (IH1 & IH2 & IH3)]; [done|].
  cbn. by rewrite IH1, IH2, IH3.
Qed.

(** A result whose message is a string, if it has one, and whose checks are
    a list of strings, if it has any, formats. *)
Lemma format_result_well_typed (u : JDict) :
  (u !! "message" = None ∨ ∃ s, u !! "message" = Some (JStr s)) →
  (u !! "checks" = None ∨ ∃ l, u !! "checks" = Some (JList (JStr <$> l))) →
  ∃ txt, format_result u = inr txt.
Proof.
  intros Hm Hc. unfold format_result, get_or.
  assert (∀ l, all_str (JStr <$> l) = Some l) as Hall.
  { induction l as [|x l IH]; cbn; [done|]. by rewrite IH. }
  destruct Hc as [-> | [l ->]]; cbn; rewrite ?Hall;
    destruct Hm as [-> | [s ->]]; cbn; eauto.
Qed.

Lemma all_str_strings (l : list string) : all_str (JStr <$> l) = Some l.
Proof. induction l as [|x l IH]; cbn; [done|]. by rewrite IH. Qed.

Lemma get_or_default (d : JDict) k v : get_or d k v = default v (d !! k).
Proof. unfold get_or. by destruct (d !! k). Qed.


End grading_poll.

(** ** Admin login and the auth guard *)

Section admin.
Context `{PyRuntime}.
Import AdminHandlers.

Lemma admin_send_run obj text kb w :
  tg_faults w = [] →
  _send obj text kb w = (Ret tt, rendered HtmlNoPreview (chat_of obj) text kb w).
Proof.
  intros Hf. unfold _send, _cleanup_prev, get_data, update_data. munfold.
  unfold rendered, prev_deleted.
  destruct (StudentHandlers.stored_msg_id _) as [[s|m|l]|] eqn:E; munfold.
  - rewrite send_message_run by done. reflexivity.
  - unfold delete_message. rewrite tg_run by done.
    rewrite send_message_run by done. cbn.
    unfold with_fsm, with_tg. cbn. by rewrite <- app_assoc.
  - rewrite send_message_run by done. reflexivity.
  - rewrite send_message_run by done. reflexivity.
Qed.

Lemma last_rendered mode chat text kb w :
  last (trace (rendered mode chat text kb w))
  = Some (Tg (SendMessage chat text (Some kb) mode) (SentAs (next_msg_id w))).
Proof. unfold rendered. cbn. by rewrite app_assoc, last_snoc. Qed.

Lemma state_rendered mode chat text kb w :
  sess_state (session_of (rendered mode chat text kb w) chat)
  = sess_state (session_of w chat).
Proof. unfold rendered, session_of at 1. cbn. by rewrite lookup_insert_eq. Qed.

Lemma data_rendered mode chat text kb w k :
  k ≠ BOT_MSG_KEY →
  sess_data (session_of (rendered mode chat text kb w) chat) !! k
  = sess_data (session_of w chat) !! k.
Proof.
  intros Hk. unfold rendered, session_of at 1. cbn. rewrite lookup_insert_eq. cbn.
  rewrite lookup_union_r; [done|].
  rewrite lookup_insert_ne; [apply lookup_empty|done].
Qed.

(** The login step, with a transport that works: the stripped login is in
    the bag and the conversation waits for the password. *)
Lemma admin_login_step_to_PASSWORD msg w t :
  text msg = Some t →
  tg_faults w = [] →
  ∃ w', admin_login_step msg w = (Ret tt, w')
        ∧ sess_state (session_of w' (msg_chat msg)) = Some (SLogin AdminLogin.PASSWORD)
        ∧ sess_data (session_of w' (msg_chat msg)) !! "login" = Some (VStr (str_strip t)).
Proof.
  intros Ht Hf. unfold admin_login_step, msg_delete, delete_message, stripped_text,
    update_data, set_state.
  munfold. rewrite tg_run by done. rewrite Ht. mrun.
  rewrite admin_send_run by done. eexists. split; [reflexivity|].
  rewrite state_rendered, data_rendered by done. autorewrite with world. cbn.
  split; [done|]. apply lookup_union_Some_l, lookup_insert_eq.
Qed.

(** C1, amended. In state PASSWORD, with the login in the bag and a
    transport that works, a password whose login request brings no cookie
    (a status other than 200, no [admin_session] cookie or an empty one)
    leaves the conversation in PASSWORD, stores no token and ends on the
    error prompt; a login that brings a cookie moves the conversation to
    MAIN, leaves that cookie as the only row of the session table, expiring
    3600 seconds later, and ends on the admin panel. *)
Theorem admin_password_step_outcome (msg : Message) (w : World) (login : BagVal)
    (pwd : string) (o : HttpOutcome) (rest : list HttpOutcome)
    (cookie : option string) :
  sess_state (session_of w (msg_chat msg)) = Some (SLogin AdminLogin.PASSWORD) →
  sess_data (session_of w (msg_chat msg)) !! "login" = Some login →
  text msg = Some pwd →
  tg_faults w = [] →
  http_script w = o :: rest →
  AdminAPI.login_result o = inr cookie →
  ∃ w', admin_password_step msg w = (Ret tt, w')
        ∧ match cookie with
          | Some c => if String.eqb c "" then login_rejected msg w w'
                      else login_accepted msg c w w'
          | None => login_rejected msg w w'
          end.
Proof.
  intros Hst Hl Ht Hf Hs Ho.
  unfold admin_password_step, msg_delete, delete_message, get_data, getitem,
    stripped_text, AdminAPI.login.
  munfold. rewrite tg_run by done. mrun. rewrite Hl, Ht. mrun.
  erewrite http_run by (cbn; exact Hs). rewrite Ho. mrun.
  assert (Hrej : ∀ w1, tg_faults w1 = [] →
            session_of w1 (msg_chat msg) = session_of w (msg_chat msg) →
            admin_sessions w1 = admin_sessions w →
            next_msg_id w1 = next_msg_id w →
            ∃ w', _send (OfMessage msg) bad_credentials_text login_back_kb w1 = (Ret tt, w')
                  ∧ login_rejected msg w w').
  { intros w1 Hf1 Hs1 Ha1 Hn1. rewrite admin_send_run by done.
    eexists. split; [reflexivity|]. unfold login_rejected.
    rewrite last_rendered, Hn1. split; [|split; [done|reflexivity]].
    rewrite state_rendered. cbn. by rewrite Hs1. }
  destruct cookie as [c|]; [destruct (String.eqb c "") eqn:Ec|].
  - by apply Hrej.
  - unfold AdminSessionRepo.ensure_table, AdminSessionRepo.save_cookie,
      AdminSessionRepo.save_cookie_ttl, AdminSessionRepo.execute, utcnow, set_state.
    mrun.
    destruct (admin_sessions w) as [rows|] eqn:Ea; mrun;
      (rewrite admin_send_run by done; eexists; split; [reflexivity|];
       unfold login_accepted; rewrite last_rendered, state_rendered; cbn;
       autorewrite with world; done).
  - by apply Hrej.
Qed.

Lemma ensure_admin_expired cb w cookie expires rows :
  admin_sessions w = Some ((cookie, expires) :: rows) →
  expires ≤ clock w →
  _ensure_admin (OfCallback cb) w
  = match tg (AnswerCallback (Some expired_text) true)
            (with_admin_sessions (Some []) w) with
    | (Ret _, w') => (Ret false, w')
    | (Raise e, w') => (Raise e, w')
    end.
Proof.
  intros Ha He. unfold _ensure_admin, AdminSessionRepo.get_cookie, utcnow.
  munfold. rewrite Ha. cbn.
  rewrite (proj2 (Z.leb_le _ _) He). cbn.
  unfold AdminSessionRepo.clear, AdminSessionRepo.execute. rewrite Ha. cbn.
  unfold cb_answer. by destruct (tg _ _) as [[[]|e] w'].
Qed.

(** What is left of a guarded handler under an expired token: the alert. *)
Lemma guarded_expired h cb w cookie expires rows :
  h ∈ guarded →
  admin_sessions w = Some ((cookie, expires) :: rows) →
  expires ≤ clock w →
  snd (h cb w)
  = snd (tg (AnswerCallback (Some expired_text) true)
           (with_admin_sessions (Some []) w)).
Proof.
  intros Hh Ha He. unfold guarded in Hh.
  repeat (apply elem_of_cons in Hh as [->|Hh]); [..|by apply elem_of_nil in Hh];
    unfold admin_groups, admin_courses, back_courses, show_courses, add_course_start;
    munfold; rewrite (ensure_admin_expired _ _ _ _ _ Ha He);
    by destruct (tg _ _) as [[[]|e] w'].
Qed.

(** C2, amended. For the four handlers that call the guard on a button
    press ([admin_groups], [admin_courses], [back_courses],
    [add_course_start]): when the first stored token has expired (its expiry
    is at or before the clock), the guard does not return [True], the
    session table is left empty, the only thing done to the outside is the
    "session expired" alert (no request to the server), and the FSM storage
    and the students table are as before. *)
Theorem expired_token_aborts (h : CallbackQuery → M unit) (cb : CallbackQuery)
    (w : World) (cookie : string) (expires : Z) (rows : list (string * Z)) :
  h ∈ guarded →
  admin_sessions w = Some ((cookie, expires) :: rows) →
  expires ≤ clock w →
  let w' := snd (h cb w) in
  admin_sessions w' = Some []
  ∧ (∃ r, trace w' = trace w ++ [Tg (AnswerCallback (Some expired_text) true) r])
  ∧ fsm w' = fsm w
  ∧ students w' = students w
  ∧ http_script w' = http_script w
  ∧ fst (_ensure_admin (OfCallback cb) w) ≠ Ret true.
Proof.
  intros Hh Ha He w'. subst w'.
  rewrite (guarded_expired _ _ _ _ _ _ Hh Ha He).
  rewrite (ensure_admin_expired _ _ _ _ _ Ha He).
  unfold tg. cbn.
  destruct (tg_faults w) as [|[e|] faults]; cbn; eauto 10.
Qed.

(** The upload handler hands the guard the message itself: under an expired
    token the guard's log line raises, and nothing is purged or sent. *)
Lemma upload_new_course_guard_raises msg w cookie expires rows :
  admin_sessions w = Some ((cookie, expires) :: rows) →
  expires ≤ clock w →
  upload_new_course msg w = (Raise AttributeError, w).
Proof.
  intros Ha He. unfold upload_new_course, _ensure_admin, AdminSessionRepo.get_cookie,
    utcnow. munfold. rewrite Ha. cbn.
  by rewrite (proj2 (Z.leb_le _ _) He).
Qed.

(** Cancelling the delete of a course under an expired token: the guard
    purges and alerts, and the conversation goes to MAIN. *)
Lemma admin_cancel_expired_to_MAIN cb w course_id cookie expires rows :
  sess_state (session_of w (msg_chat (message cb))) = Some (SMenu AdminMenu.CONFIRM) →
  sess_data (session_of w (msg_chat (message cb))) !! "cur_group" = None →
  sess_data (session_of w (msg_chat (message cb))) !! "cur_course_id" = Some course_id →
  admin_sessions w = Some ((cookie, expires) :: rows) →
  expires ≤ clock w →
  tg_faults w = [] →
  ∃ w', admin_cancel cb w = (Ret tt, w')
        ∧ sess_state (session_of w' (msg_chat (message cb))) = Some (SMenu AdminMenu.MAIN)
        ∧ admin_sessions w' = Some [].
Proof.
  intros Hst Hg Hc Ha He Hf. unfold admin_cancel, get_state, get_data. munfold.
  rewrite Hst, bool_decide_eq_true_2 by done. rewrite Hg, Hc.
  rewrite (ensure_admin_expired _ _ _ _ _ Ha He).
  rewrite tg_run by done. unfold show_main, set_state. munfold.
  rewrite admin_send_run by done. unfold cb_answer. rewrite tg_run by done.
  eexists. split; [reflexivity|]. autorewrite with world.
  rewrite state_rendered. by autorewrite with world.
Qed.

(** Logout: once the server has answered the logout request, with whatever
    status, the table is empty. *)
Lemma admin_logout_purges cb w cookie expires rows status c body raw rest :
  admin_sessions w = Some ((cookie, expires) :: rows) →
  http_script w = Response status c body raw :: rest →
  admin_sessions (snd (admin_logout cb w)) = Some [].
Proof.
  intros Ha Hs. unfold admin_logout, AdminSessionRepo.get_cookie, AdminAPI.logout.
  munfold. rewrite Ha. cbn. rewrite (http_run _ _ _ _ Hs). cbn.
  unfold AdminSessionRepo.clear, AdminSessionRepo.execute. cbn. rewrite Ha. cbn.
  unfold msg_delete, delete_message.
  destruct (tg _ _) as [[[]|e] w1] eqn:E1; unfold tg in E1; cbn in E1;
    destruct (tg_faults w) as [|[e'|] f]; simplify_eq; cbn; try done;
    unfold cb_answer, tg; cbn; by destruct f as [|[e''|] f].
Qed.

End admin.

(** ** The registration wizard *)

Section registration.
Context `{PyRuntime}.
Import StudentHandlers.

(** What a Telegram call can do to the world: consume a fault, hand out a
    message id, add to the trace. *)
Lemma tg_shape c w :
  ∃ r f ev, tg c w = (r, with_tg f (next_msg_id w) ev w).
Proof. unfold tg. destruct (tg_faults w) as [|[e|] f]; eauto. Qed.

Lemma send_message_shape chat text kb mode w :
  ∃ r f n ev, send_message chat text kb mode w = (r, with_tg f n ev w).
Proof. unfold send_message. destruct (tg_faults w) as [|[e|] f]; eauto. Qed.

Lemma same_but_rendering_refl chat w : same_but_rendering chat w w.
Proof. by repeat split. Qed.

Lemma same_but_rendering_with_tg chat f n ev w w' :
  same_but_rendering chat w w' → same_but_rendering chat w (with_tg f n ev w').
Proof. intros (?&?&?&?&?&?&?). by repeat split. Qed.

Lemma same_but_rendering_stored chat v w w' :
  same_but_rendering chat w w' →
  same_but_rendering chat w
    (with_fsm <[chat := {| sess_state := sess_state (session_of w' chat);
                           sess_data := {[ BOT_MSG_KEY := v ]}
                                        ∪ sess_data (session_of w' chat) |}]> w').
Proof.
  intros (?&Hd&?&?&?&?&?). repeat split; autorewrite with world; cbn; try done.
  intros k Hk. rewrite lookup_union_r; [by apply Hd|].
  rewrite lookup_insert_ne; [apply lookup_empty|done].
Qed.

(** [_send] never raises, whatever the transport does. *)
Lemma send_frame obj text kb w :
  ∃ w', _send obj text kb w = (Ret tt, w')
        ∧ same_but_rendering (chat_of obj) w w'.
Proof.
  assert (Hfallback : ∀ w1, same_but_rendering (chat_of obj) w w1 →
    ∃ w', try_except
            (send_message (chat_of obj) text (Some kb) Plain;; ret tt)
            (λ _, Some (ret tt)) w1 = (Ret tt, w')
          ∧ same_but_rendering (chat_of obj) w w').
  { intros w1 Hw1. munfold.
    destruct (send_message_shape (chat_of obj) text (Some kb) Plain w1)
      as (r & f & n & ev & ->).
    destruct r; eauto using same_but_rendering_with_tg. }
  assert (Hsend : ∀ w1, same_but_rendering (chat_of obj) w w1 →
    ∃ w', try_except
            (sent ← send_message (chat_of obj) text (Some kb) Plain;
             update_data (chat_of obj) {[ BOT_MSG_KEY := VInt sent ]})
            (λ _, Some
               (try_except
                  (send_message (chat_of obj) text (Some kb) Plain;; ret tt)
                  (λ _, Some (ret tt)))) w1 = (Ret tt, w')
          ∧ same_but_rendering (chat_of obj) w w').
  { intros w1 Hw1. unfold try_except at 1. unfold update_data. munfold.
    destruct (send_message_shape (chat_of obj) text (Some kb) Plain w1)
      as (r & f & n & ev & ->).
    destruct r as [m|e].
    - eexists. split; [reflexivity|].
      by apply same_but_rendering_stored, same_but_rendering_with_tg.
    - apply Hfallback. by apply same_but_rendering_with_tg. }
  unfold _send, _cleanup_prev, get_data.
  destruct (stored_msg_id (sess_data (session_of w (chat_of obj))))
    as [[s|m|l]|] eqn:E.
  - unfold try_except at 1. munfold. rewrite E. cbn.
    apply Hfallback, same_but_rendering_refl.
  - unfold delete_message.
    destruct (tg_shape (DeleteMessage (chat_of obj) m) w) as (r & f & ev & Etg).
    destruct r as [[]|e].
    + specialize (Hsend _ (same_but_rendering_with_tg _ f (next_msg_id w) ev _ _
                             (same_but_rendering_refl (chat_of obj) w))).
      destruct Hsend as (w' & Hw' & Hfr). exists w'. split; [|done].
      rewrite <- Hw'. unfold try_except. munfold. rewrite E. cbn. by rewrite Etg.
    + pose proof (same_but_rendering_with_tg _ f (next_msg_id w) ev _ _
                    (same_but_rendering_refl (chat_of obj) w)) as Hfr.
      destruct (Hsend _ Hfr) as (w1 & Hw1 & Hfr1).
      destruct (Hfallback _ Hfr) as (w2 & Hw2 & Hfr2).
      destruct e;
        try (exists w2; split; [|done]; rewrite <- Hw2;
             unfold try_except; munfold; rewrite E; cbn; by rewrite Etg);
        (exists w1; split; [|done]; rewrite <- Hw1;
         unfold try_except; munfold; rewrite E; cbn; by rewrite Etg).
  - unfold try_except at 1. munfold. rewrite E. cbn.
    apply Hfallback, same_but_rendering_refl.
  - destruct (Hsend _ (same_but_rendering_refl (chat_of obj) w)) as (w' & Hw' & Hfr).
    exists w'. split; [|done]. rewrite <- Hw'.
    unfold try_except. munfold. by rewrite E.
Qed.

(** With a transport that works, [_send] ends on the message sent. *)
Lemma send_healthy obj text kb w :
  tg_faults w = [] →
  ∃ w', _send obj text kb w = (Ret tt, w')
        ∧ same_but_rendering (chat_of obj) w w'
        ∧ tg_faults w' = []
        ∧ last (trace w')
          = Some (Tg (SendMessage (chat_of obj) text (Some kb) Plain)
                    (SentAs (next_msg_id w))).
Proof.
  intros Hf. destruct (send_frame obj text kb w) as (w' & Hrun & Hfr).
  exists w'. split; [done|]. split; [done|].
  revert Hrun. unfold _send, _cleanup_prev, get_data, update_data, delete_message.
  unfold try_except, send_message, tg. munfold.
  destruct (stored_msg_id _) as [[s|m|l]|]; cbn;
    rewrite ?Hf; cbn; rewrite ?Hf; cbn; intros [= <-]; cbn;
    by rewrite last_snoc.
Qed.

Lemma tg_passes c w :
  next_call_passes w →
  ∃ f, tg c w = (Ret tt, with_tg f (next_msg_id w) (Tg c Done) w).
Proof. unfold tg. intros [->|[f ->]]; eauto. Qed.

Lemma pop_then_merge (d : gmap string BagVal) k : delete k d ∪ d = d.
Proof. apply map_subseteq_union, delete_subseteq. Qed.

Lemma current_step_reg cur w :
  cur ≠ Reg.CONFIRM → current_step (SReg cur) w = (Ret cur, w).
Proof. by destruct cur. Qed.

Lemma PREV_get_predecessor cur i :
  ORDER !! S i = Some cur → ORDER !! i = PREV_get cur.
Proof.
  do 5 (destruct i as [|i]; [intros [= <-]; reflexivity|]). discriminate.
Qed.

(** C7. [reg_back] goes one state back.  [PREV_get] is the predecessor in
    [ORDER] and SURNAME has none.  From a state with a predecessor, if the
    delete of the pressed message goes through, the conversation ends in the
    predecessor and every key of the bag other than the stored message id
    keeps its value, so no field is lost; from a state without one, the FSM
    storage (state and bag) is unchanged. *)
Theorem reg_back_lands_on_predecessor (cb : CallbackQuery) (w : World)
    (cur : Reg.t) :
  let chat := msg_chat (message cb) in
  let w' := snd (reg_back cb w) in
  sess_state (session_of w chat) = Some (SReg cur) →
  (∀ i, ORDER !! S i = Some cur → ORDER !! i = PREV_get cur)
  ∧ PREV_get Reg.SURNAME = None
  ∧ match PREV_get cur with
    | Some prev =>
        next_call_passes w →
        sess_state (session_of w' chat) = Some (SReg prev)
        ∧ ∀ k, k ≠ BOT_MSG_KEY →
               sess_data (session_of w' chat) !! k
               = sess_data (session_of w chat) !! k
    | None => fsm w' = fsm w
    end.
Proof.
  intros chat w' Hst. split; [apply PREV_get_predecessor|]. split; [reflexivity|].
  subst w'. unfold reg_back, get_state. munfold. fold chat. rewrite Hst.
  destruct (PREV_get cur) as [prev|] eqn:Eprev.
  - intros Hok.
    assert (cur ≠ Reg.CONFIRM) as Hc by (by intros ->).
    rewrite (current_step_reg _ _ Hc), Eprev.
    unfold msg_delete, delete_message.
    destruct (tg_passes (DeleteMessage (msg_chat (message cb)) (message_id (message cb)))
                w Hok) as (f & ->).
    unfold get_data, update_data, set_state, prompt. munfold.
    rewrite pop_then_merge.
    assert (∃ p, PROMPTS prev = Some p) as [p ->].
    { destruct cur; inversion Eprev; subst; eauto. }
    cbn.
    match goal with
    | |- context [_send ?o ?t ?k ?w0] =>
        destruct (send_frame o t k w0) as (w1 & -> & Hs & Hd & _)
    end.
    unfold cb_answer.
    destruct (tg_shape (AnswerCallback None false) w1) as (r & f' & ev & ->).
    assert (sess_state (session_of w1 chat) = Some (SReg prev)
            ∧ ∀ k, k ≠ BOT_MSG_KEY →
                   sess_data (session_of w1 chat) !! k
                   = sess_data (session_of w chat) !! k) as [Hs1 Hd1].
    { cbn in Hs, Hd. fold chat in Hs, Hd. split.
      - rewrite Hs. by autorewrite with world.
      - intros k Hk. rewrite (Hd k Hk). by autorewrite with world. }
    destruct r; cbn; autorewrite with world; done.
  - destruct cur; try discriminate.
    + rewrite current_step_reg, Eprev by done. unfold cb_answer.
      destruct (tg_shape (AnswerCallback None false) w) as (r & f' & ev & ->).
      by destruct r.
    + reflexivity.
Qed.

Lemma insert_then_merge (d : gmap string BagVal) k v : <[k := v]> d ∪ d = <[k := v]> d.
Proof. by rewrite <- insert_union_l, (idemp (∪) d). Qed.

Lemma reg_steps_advance m w i cur nxt t :
  sess_state (session_of w (msg_chat m)) = Some (SReg cur) →
  ORDER !! i = Some cur →
  ORDER !! S i = Some nxt →
  text m = Some t →
  tg_faults w = [] →
  ∃ w', reg_steps m w = (Ret tt, w') ∧ stepped (msg_chat m) cur t nxt w w'.
Proof.
  intros Hst Hi Hn Ht Hf.
  unfold reg_steps, msg_delete, delete_message, get_state, stripped_text,
    get_data, update_data, set_state.
  munfold. rewrite tg_run by done. cbn. autorewrite with world.
  rewrite Hst, Ht. cbn. rewrite insert_then_merge.
  assert (cur ≠ Reg.CONFIRM) as Hc.
  { intros ->. do 5 (destruct i as [|i]; [discriminate|]). discriminate. }
  rewrite current_step_reg by done.
  assert (cur ≠ Reg.GITHUB) as Hg.
  { intros ->. do 4 (destruct i as [|i]; [discriminate|]).
    destruct i; discriminate. }
  rewrite bool_decide_eq_true_2 by done.
  assert (next_step cur = ret nxt) as ->.
  { do 4 (destruct i as [|i]; [cbn in Hi, Hn; by simplify_eq|]).
    destruct i; discriminate. }
  munfold.
  assert (∃ p, PROMPTS nxt = Some p) as [p Hp].
  { do 4 (destruct i as [|i]; [cbn in Hn; simplify_eq; eauto|]).
    destruct i; discriminate. }
  unfold prompt. rewrite Hp. munfold.
  match goal with
  | |- context [_send ?o ?tx ?k ?w0] =>
      destruct (send_healthy o tx k w0) as (w1 & -> & (Hs & Hd & ? & ? & ? & ? & ?) & Hf1 & _);
        [done|]
  end.
  exists w1. split; [done|]. cbn in Hs, Hd.
  unfold stepped. rewrite Hs. autorewrite with world. cbn.
  split; [done|]. split.
  { rewrite Hd; [|by destruct cur]. autorewrite with world. cbn.
    rewrite lookup_insert_eq. by destruct cur. }
  split; [|done].
  intros k Hk Hk'. rewrite Hd by done. autorewrite with world. cbn.
  rewrite lookup_insert_ne; [done|]. by destruct cur.
Qed.

Lemma reg_steps_summary m w t v1 v2 v3 v4 :
  sess_state (session_of w (msg_chat m)) = Some (SReg Reg.GITHUB) →
  sess_data (session_of w (msg_chat m)) !! field_key Reg.SURNAME = Some v1 →
  sess_data (session_of w (msg_chat m)) !! field_key Reg.NAME = Some v2 →
  sess_data (session_of w (msg_chat m)) !! field_key Reg.PATRONYMIC = Some v3 →
  sess_data (session_of w (msg_chat m)) !! field_key Reg.GROUP = Some v4 →
  text m = Some t →
  tg_faults w = [] →
  ∃ w', reg_steps m w = (Ret tt, w')
        ∧ stepped (msg_chat m) Reg.GITHUB t Reg.CONFIRM w w'
        ∧ ∃ sent,
            last (trace w')
            = Some (Tg (SendMessage (msg_chat m)
                          (summary_text (fmt_bag v1) (fmt_bag v2) (fmt_bag v3)
                             (fmt_bag v4) (str_strip t))
                          (Some confirm_kb) Plain) (SentAs sent)).
Proof.
  intros Hst H1 H2 H3 H4 Ht Hf.
  unfold reg_steps, msg_delete, delete_message, get_state, stripped_text,
    get_data, update_data, set_state.
  munfold. rewrite tg_run by done. cbn. autorewrite with world.
  rewrite Hst, Ht. cbn. rewrite insert_then_merge.
  rewrite current_step_reg by done.
  rewrite bool_decide_eq_false_2 by (by intros ?).
  rewrite bool_decide_eq_false_2
    by (rewrite !elem_of_cons, elem_of_nil; intros [?|[?|[?|[]]]]; discriminate).
  unfold getitem, field_key in *. cbn in H1, H2, H3, H4. munfold.
  autorewrite with world.
  rewrite !lookup_insert_ne by done. rewrite lookup_insert_eq.
  rewrite H1, H2, H3, H4. munfold.
  match goal with
  | |- context [_send ?o ?tx ?k ?w0] =>
      destruct (send_healthy o tx k w0)
        as (w1 & -> & (Hs & Hd & ? & ? & ? & ? & ?) & Hf1 & Hl); [done|]
  end.
  exists w1. split; [done|]. cbn in Hs, Hd. split; [|eauto].
  unfold stepped. rewrite Hs. autorewrite with world. cbn.
  split; [done|]. split.
  { rewrite Hd by done. autorewrite with world. cbn. by rewrite lookup_insert_eq. }
  split; [|done].
  intros k Hk Hk'. rewrite Hd by done. autorewrite with world. cbn.
  by rewrite lookup_insert_ne.
Qed.

Lemma build_student_run chat sur nam pat grp gh w w0 :
  form_filled chat sur nam pat grp gh w →
  build_student chat (sess_data (session_of w chat)) w0
  = (Ret (new_student chat sur nam pat grp gh), w0).
Proof.
  intros (H1 & H2 & H3 & H4 & H5). unfold build_student, getitem.
  rewrite H1, H2, H3, H4, H5. munfold. unfold new_student.
  repeat case_bool_decide; simplify_eq; done.
Qed.

Lemma find_none_of_existsb {A} (f g : A → bool) l :
  (∀ x, g x = true → f x = true) → existsb f l = false → List.find g l = None.
Proof.
  intros Hfg. induction l as [|x l IH]; cbn; [done|].
  intros [Hx Hl]%orb_false_iff. destruct (g x) eqn:E; [|by apply IH].
  apply Hfg in E. congruence.
Qed.

Lemma reg_confirm_inserted cb w sur nam pat grp gh :
  let st := new_student (msg_chat (message cb)) sur nam pat grp gh in
  form_filled (msg_chat (message cb)) sur nam pat grp gh w →
  conflicts st (students w) = false →
  tg_faults w = [] →
  reg_confirm cb w
  = (Ret tt,
     confirmed cb (students w ++ [stored st w])
       (StudentRepository.next_rowid (students w) (students_seq w))
       registered_text main_menu_kb w).
Proof.
  intros st Hform Hc Hf.
  unfold reg_confirm, get_data, clear. munfold.
  erewrite build_student_run by exact Hform. fold st.
  unfold try_except, StudentRepository.save,
    StudentRepository._check_existing_student, utcnow. munfold.
  change (StudentRepository.id_set (id st)) with false. cbn [negb].
  cbn [students with_fsm].
  rewrite (find_none_of_existsb _ _ _ (λ x Hx, orb_true_intro _ _ (or_intror Hx)) Hc).
  cbn [id st new_student]. unfold StudentRepository.sql_insert.
  cbn [students with_fsm]. fold (conflicts st (students w)). rewrite Hc.
  unfold msg_delete, delete_message, msg_answer, cb_answer.
  rewrite tg_run by done. rewrite send_message_run by done. munfold.
  rewrite tg_run by done.
  f_equal. unfold confirmed, confirm_events, with_tg, with_students, with_fsm. cbn.
  f_equal. by rewrite <- !app_assoc.
Qed.

Lemma reg_confirm_duplicate cb w sur nam pat grp gh r :
  let st := new_student (msg_chat (message cb)) sur nam pat grp gh in
  form_filled (msg_chat (message cb)) sur nam pat grp gh w →
  List.find (StudentRepository.same_identity st) (students w) = Some r →
  tg_faults w = [] →
  StudentRepository.save st (with_fsm <[msg_chat (message cb) := empty_session]> w)
  = (Raise (ValueError StudentRepository.duplicate_message),
     with_fsm <[msg_chat (message cb) := empty_session]> w)
  ∧ reg_confirm cb w
    = (Ret tt,
       confirmed cb (students w) (students_seq w) duplicate_text start_kb w).
Proof.
  intros st Hform Hr Hf.
  assert (Hsave :
    StudentRepository.save st (with_fsm <[msg_chat (message cb) := empty_session]> w)
    = (Raise (ValueError StudentRepository.duplicate_message),
       with_fsm <[msg_chat (message cb) := empty_session]> w)).
  { unfold StudentRepository.save, StudentRepository._check_existing_student.
    munfold. change (StudentRepository.id_set (id st)) with false. cbn [negb].
    cbn [students with_fsm]. by rewrite Hr. }
  split; [done|].
  unfold reg_confirm, get_data, clear. munfold.
  erewrite build_student_run by exact Hform. fold st.
  rewrite Hsave.
  unfold msg_delete, delete_message, msg_answer, cb_answer. munfold.
  rewrite tg_run by done. rewrite send_message_run by done. munfold.
  rewrite tg_run by done.
  f_equal. unfold confirmed, confirm_events, with_tg, with_students, with_fsm. cbn.
  f_equal. by rewrite <- !app_assoc.
Qed.




Lemma reg_steps_advance_in chat m w i cur nxt t :
  msg_chat m = chat →
  sess_state (session_of w chat) = Some (SReg cur) →
  ORDER !! i = Some cur →
  ORDER !! S i = Some nxt →
  text m = Some t →
  tg_faults w = [] →
  ∃ w', reg_steps m w = (Ret tt, w') ∧ stepped chat cur t nxt w w'.
Proof. intros <-. apply reg_steps_advance. Qed.

Lemma reg_steps_summary_in chat m w t v1 v2 v3 v4 :
  msg_chat m = chat →
  sess_state (session_of w chat) = Some (SReg Reg.GITHUB) →
  sess_data (session_of w chat) !! field_key Reg.SURNAME = Some v1 →
  sess_data (session_of w chat) !! field_key Reg.NAME = Some v2 →
  sess_data (session_of w chat) !! field_key Reg.PATRONYMIC = Some v3 →
  sess_data (session_of w chat) !! field_key Reg.GROUP = Some v4 →
  text m = Some t →
  tg_faults w = [] →
  ∃ w', reg_steps m w = (Ret tt, w')
        ∧ stepped chat Reg.GITHUB t Reg.CONFIRM w w'
        ∧ ∃ sent,
            last (trace w')
            = Some (Tg (SendMessage chat
                          (summary_text (fmt_bag v1) (fmt_bag v2) (fmt_bag v3)
                             (fmt_bag v4) (str_strip t))
                          (Some confirm_kb) Plain) (SentAs sent)).
Proof. intros <-. apply reg_steps_summary. Qed.

(** C8. The summary and the patronymic.  Five texts entered from SURNAME
    with a transport that works bring the conversation to CONFIRM, ending on
    a summary that reads, in bold, surname, name and patronymic separated by
    single spaces, then a line with the group and a line with the GitHub
    handle, each value as stored: stripped, and for surname, name and
    patronymic stripped again and title-cased.  Confirming then appends one
    row with these values, if no row of the table clashes with them.  On
    confirm, for any filled form, the row's patronymic is absent if the bag
    holds exactly "-" and is the bag's string otherwise. *)
Theorem form_summary_and_patronymic (m1 m2 m3 m4 m5 : Message)
    (cb : CallbackQuery) (w : World) (t1 t2 t3 t4 t5 : string) :
  let chat := msg_chat (message cb) in
  let sur := normalize_fio (str_strip t1) in
  let nam := normalize_fio (str_strip t2) in
  let pat := normalize_fio (str_strip t3) in
  let grp := str_strip t4 in
  let gh := str_strip t5 in
  let st := new_student chat sur nam pat grp gh in
  msg_chat m1 = chat → msg_chat m2 = chat → msg_chat m3 = chat →
  msg_chat m4 = chat → msg_chat m5 = chat →
  text m1 = Some t1 → text m2 = Some t2 → text m3 = Some t3 →
  text m4 = Some t4 → text m5 = Some t5 →
  sess_state (session_of w chat) = Some (SReg Reg.SURNAME) →
  tg_faults w = [] →
  (∃ w5 sent,
     (reg_steps m1;; reg_steps m2;; reg_steps m3;; reg_steps m4;; reg_steps m5) w
     = (Ret tt, w5)
     ∧ sess_state (session_of w5 chat) = Some (SReg Reg.CONFIRM)
     ∧ last (trace w5)
       = Some (Tg (SendMessage chat
                     ("<b>" +:+ sur +:+ " " +:+ nam +:+ " " +:+ pat +:+ "</b>" +:+ nl
                      +:+ "Группа: " +:+ grp +:+ nl +:+ "GitHub: " +:+ gh)
                     (Some confirm_kb) Plain) (SentAs sent))
     ∧ (conflicts st (students w) = false →
        students (snd (reg_confirm cb w5)) = students w ++ [stored st w])
     ∧ patronymic (stored st w) = (if bool_decide (pat = "-") then None else Some pat)
     ∧ (surname (stored st w), name (stored st w), group_code (stored st w),
        github (stored st w)) = (sur, nam, grp, gh))
  ∧ (∀ w0 s1 s2 s3 s4 s5,
       form_filled chat s1 s2 s3 s4 s5 w0 →
       conflicts (new_student chat s1 s2 s3 s4 s5) (students w0) = false →
       tg_faults w0 = [] →
       students (snd (reg_confirm cb w0))
       = students w0 ++ [stored (new_student chat s1 s2 s3 s4 s5) w0]
       ∧ patronymic (stored (new_student chat s1 s2 s3 s4 s5) w0)
         = if bool_decide (s3 = "-") then None else Some s3).
Proof.
  intros chat sur nam pat grp gh st E1 E2 E3 E4 E5 T1 T2 T3 T4 T5 Hst Hf.
  split; [|intros w0 s1 s2 s3 s4 s5 Hform0 Hc0 Hf0;
           by rewrite (reg_confirm_inserted cb w0 s1 s2 s3 s4 s5)].
  destruct (reg_steps_advance_in chat m1 w 0 Reg.SURNAME Reg.NAME t1
              E1 Hst eq_refl eq_refl T1 Hf)
    as (w1 & R1 & S1 & D1 & K1 & F1 & A1 & B1 & C1).
  destruct (reg_steps_advance_in chat m2 w1 1 Reg.NAME Reg.PATRONYMIC t2
              E2 S1 eq_refl eq_refl T2 F1)
    as (w2 & R2 & S2 & D2 & K2 & F2 & A2 & B2 & C2).
  destruct (reg_steps_advance_in chat m3 w2 2 Reg.PATRONYMIC Reg.GROUP t3
              E3 S2 eq_refl eq_refl T3 F2)
    as (w3 & R3 & S3 & D3 & K3 & F3 & A3 & B3 & C3).
  destruct (reg_steps_advance_in chat m4 w3 3 Reg.GROUP Reg.GITHUB t4
              E4 S3 eq_refl eq_refl T4 F3)
    as (w4 & R4 & S4 & D4 & K4 & F4 & A4 & B4 & C4).
  assert (sess_data (session_of w4 chat) !! field_key Reg.SURNAME = Some (VStr sur)) as G1.
  { rewrite K4, K3, K2 by done. exact D1. }
  assert (sess_data (session_of w4 chat) !! field_key Reg.NAME = Some (VStr nam)) as G2.
  { rewrite K4, K3 by done. exact D2. }
  assert (sess_data (session_of w4 chat) !! field_key Reg.PATRONYMIC = Some (VStr pat)) as G3.
  { rewrite K4 by done. exact D3. }
  destruct (reg_steps_summary_in chat m5 w4 t5 _ _ _ _ E5 S4 G1 G2 G3 D4 T5 F4)
    as (w5 & R5 & (S5 & D5 & K5 & F5 & A5 & B5 & C5) & sent & L5).
  exists w5, sent. split.
  { munfold. by rewrite R1, R2, R3, R4, R5. }
  split; [done|]. split; [exact L5|].
  assert (form_filled chat sur nam pat grp gh w5) as Hform.
  { unfold form_filled. rewrite !K5 by done. done. }
  assert (students w5 = students w) as Hs5 by congruence.
  assert (students_seq w5 = students_seq w) as Hq5 by congruence.
  assert (clock w5 = clock w) as Hc5 by congruence.
  split; [|done]. intros Hc.
  rewrite (reg_confirm_inserted cb w5 sur nam pat grp gh Hform) by (by rewrite ?Hs5).
  cbn [snd confirmed students]. unfold stored. by rewrite Hs5, Hq5, Hc5.
Qed.

End registration.

(** ** Course selection *)

Section course_selection.
Context `{PyRuntime}.
Import CommonHandlers.

Lemma http_at r w :
  http r w
  = (Ret (outcome_at 0 w),
     with_http (tail (http_script w)) (Http r (outcome_at 0 w)) w).
Proof. unfold http, outcome_at. by destruct (http_script w). Qed.

Lemma outcome_at_with_http n r o w :
  outcome_at n (with_http (tail (http_script w)) (Http r o) w) = outcome_at (S n) w.
Proof. unfold outcome_at. cbn. by destruct (http_script w); destruct n. Qed.

Lemma quiet_refl w : quiet w w.
Proof. do 2 (split; [done|]). exists []. by rewrite app_nil_r. Qed.

Lemma quiet_trans w1 w2 w3 : quiet w1 w2 → quiet w2 w3 → quiet w1 w3.
Proof.
  intros (S1 & Q1 & e1 & T1 & F1) (S2 & Q2 & e2 & T2 & F2).
  split; [congruence|]. split; [congruence|].
  exists (e1 ++ e2). split; [by rewrite T2, T1, app_assoc|]. by apply Forall_app.
Qed.

Lemma Quiet_ret {A} (a : A) : Quiet (mret a).
Proof. intros w. apply quiet_refl. Qed.

Lemma Quiet_bind {A B} (m : M A) (k : A → M B) :
  Quiet m → (∀ a, Quiet (k a)) → Quiet (m ≫= k).
Proof.
  intros Hm Hk w. munfold. specialize (Hm w).
  destruct (m w) as [[a|e] w1]; cbn in *; [|done].
  eapply quiet_trans; [exact Hm|apply Hk].
Qed.

Lemma quiet_event f n ev w :
  is_register ev = false → quiet w (with_tg f n ev w).
Proof.
  intros Hev. unfold quiet. split; [reflexivity|]. split; [reflexivity|].
  exists [ev]. split; [reflexivity|]. by constructor.
Qed.

Lemma Quiet_tg c : Quiet (tg c).
Proof.
  intros w. unfold tg.
  destruct (tg_faults w) as [|[e|] f']; cbn; by apply quiet_event.
Qed.

Lemma Quiet_send_message chat text kb mode : Quiet (send_message chat text kb mode).
Proof.
  intros w. unfold send_message.
  destruct (tg_faults w) as [|[e|] f']; cbn; by apply quiet_event.
Qed.

Lemma Quiet_http r : is_register (Http r ClientFailure) = false → Quiet (http r).
Proof.
  intros Hr w. rewrite http_at. cbn. do 2 (split; [done|]).
  eexists [_]. split; [done|]. constructor; [|done]. by destruct r.
Qed.

Lemma Quiet_show_labs cb course_id student : Quiet (show_labs cb course_id student).
Proof.
  unfold show_labs, APIClient.get_groups, APIClient.get_labs,
    APIClient.get_course_info, msg_delete, delete_message, cb_answer.
  apply Quiet_bind; [apply Quiet_bind; [by apply Quiet_http|intros; apply Quiet_ret]|].
  intros groups. destruct (negb _); [apply Quiet_tg|].
  apply Quiet_bind; [apply Quiet_bind; [by apply Quiet_http|intros; apply Quiet_ret]|].
  intros [|lab labs]; [apply Quiet_tg|].
  apply Quiet_bind; [apply Quiet_bind; [by apply Quiet_http|intros; apply Quiet_ret]|].
  intros info. apply Quiet_bind; [apply Quiet_tg|]. intros _.
  apply Quiet_bind; [apply Quiet_send_message|]. intros _. apply Quiet_tg.
Qed.

(** C6. Selecting a course twice.  If the student of the chat already has a
    reference with the name and semester of the selected course, the
    students table after [course_selected] is the table before, and none of
    the new events is a request to the register endpoint. *)
Theorem course_selection_idempotent (cb : CallbackQuery) (w : World)
    (prefix course_id : string) (course : CourseDTO) (student : Student) :
  let w' := snd (course_selected cb w) in
  split_once (data cb) = Some (prefix, course_id) →
  selected course_id (outcome_at 0 w) = Some course →
  List.find (λ r, Z.eqb (chat_id r) (msg_chat (message cb))) (students w) = Some student →
  has_course student course = true →
  students w' = students w
  ∧ ∃ evs, trace w' = trace w ++ evs ∧ Forall (λ ev, is_register ev = false) evs.
Proof.
  intros w' Hd Hc Hs Hh. subst w'.
  unfold course_selected. rewrite Hd. munfold.
  unfold APIClient.get_courses. munfold. rewrite http_at.
  fold (selected course_id (outcome_at 0 w)). rewrite Hc.
  unfold StudentRepository.get_by_chat. munfold. cbn [students with_http].
  rewrite Hs, Hh.
  match goal with
  | |- context [show_labs ?c ?i ?s ?w0] =>
      destruct (Quiet_show_labs c i s w0) as (E1 & _ & evs & E2 & E3)
  end.
  split; [exact E1|]. rewrite E2. cbn.
  eexists (_ :: evs). rewrite <- app_assoc. split; [reflexivity|].
  by constructor.
Qed.

Lemma find_elem_of {A} (p : A → bool) l x : List.find p l = Some x → x ∈ l ∧ p x = true.
Proof.
  intros Hf. apply List.find_some in Hf as [Hin Hp]. split; [|done].
  by apply list_elem_of_In.
Qed.

Lemma find_fmap {A} (p : A → bool) (f : A → A) l :
  (∀ x, p (f x) = p x) → List.find p (f <$> l) = f <$> List.find p l.
Proof.
  intros Hp. induction l as [|x l IH]; cbn; [done|].
  rewrite Hp. by destruct (p x).
Qed.

Lemma save_appended student ref w :
  student ∈ students w →
  StudentRepository.id_set (id student) = true →
  table_unique (students w) →
  ∃ rows,
    StudentRepository.save (append_course student ref) w
    = (Ret tt, with_students rows (students_seq w) w)
    ∧ ∀ chat, List.find (λ r, Z.eqb (chat_id r) chat) (students w) = Some student →
              List.find (λ r, Z.eqb (chat_id r) chat) rows
              = Some (with_course student ref (clock w)).
Proof.
  intros Hin Hid Huniq.
  unfold StudentRepository.save. cbn [id append_course]. rewrite Hid. cbn [negb].
  munfold. unfold utcnow. munfold.
  destruct (id student) as [i|] eqn:Ei; [|discriminate].
  unfold StudentRepository.sql_update.
  assert (existsb (λ r, negb (bool_decide (id r = Some i))
                        && StudentRepository.same_identity (append_course student ref) r)
            (students w) = false) as Hno.
  { apply not_true_is_false. intros (r & Hr & Hb)%existsb_exists.
    apply andb_true_iff in Hb as [Hn Hs]. apply list_elem_of_In in Hr.
    change (StudentRepository.same_identity student r = true) in Hs.
    specialize (Huniq _ _ Hin Hr Hs). rewrite Ei in Huniq.
    by rewrite bool_decide_eq_true_2 in Hn. }
  rewrite Hno, andb_false_r.
  eexists. split; [reflexivity|].
  intros chat Hf. rewrite find_fmap.
  - rewrite Hf. cbn. rewrite Ei, bool_decide_eq_true_2 by done.
    unfold with_course. by rewrite Ei.
  - intros x. by destruct (bool_decide _).
Qed.

Lemma show_labs_wrong_group cb course_id student w :
  group_code student ∉ APIClient.strings_result (outcome_at 0 w) →
  ∃ r, last (trace (snd (show_labs cb course_id student w)))
       = Some (Tg (AnswerCallback (Some "⚠️ Этот курс не для твоей группы") true) r).
Proof.
  intros Hg. unfold show_labs, APIClient.get_groups. munfold. rewrite http_at.
  rewrite bool_decide_eq_false_2 by done. cbn [negb].
  unfold cb_answer, tg. cbn [tg_faults with_http].
  destruct (tg_faults w) as [|[e|] f']; cbn; rewrite last_snoc; eauto.
Qed.

Lemma show_labs_no_labs cb course_id student w :
  group_code student ∈ APIClient.strings_result (outcome_at 0 w) →
  APIClient.strings_result (outcome_at 1 w) = [] →
  ∃ r, last (trace (snd (show_labs cb course_id student w)))
       = Some (Tg (AnswerCallback (Some "📭 Для твоей группы лабораторных нет") true) r).
Proof.
  intros Hg Hl. unfold show_labs, APIClient.get_groups, APIClient.get_labs.
  munfold. rewrite http_at.
  rewrite bool_decide_eq_true_2 by done. cbn [negb]. rewrite http_at.
  rewrite outcome_at_with_http, Hl. unfold cb_answer, tg. cbn [tg_faults with_http].
  destruct (tg_faults w) as [|[e|] f']; cbn; rewrite last_snoc; eauto.
Qed.

(** C10. The course reference outlives the abort.  The student of the chat
    has no reference to the selected course and the server registers him
    ("registered" or "already_registered").  Then, whatever comes next, the
    student's row after [course_selected] has the reference appended; and if
    the student's group is not among the course's groups, or it is but there
    are no labs, the last thing the handler does is the alert. *)
Theorem course_reference_kept_on_abort (cb : CallbackQuery) (w : World)
    (prefix course_id : string) (course : CourseDTO) (student : Student)
    (result : JDict) :
  let chat := msg_chat (message cb) in
  let w' := snd (course_selected cb w) in
  let ref := {| cr_name := dto_name course; cr_semester := dto_semester course |} in
  split_once (data cb) = Some (prefix, course_id) →
  selected course_id (outcome_at 0 w) = Some course →
  List.find (λ r, Z.eqb (chat_id r) chat) (students w) = Some student →
  StudentRepository.id_set (id student) = true →
  table_unique (students w) →
  has_course student course = false →
  APIClient.register_result (outcome_at 1 w) = Some result →
  result !! "status" = Some (JStr "registered")
  ∨ result !! "status" = Some (JStr "already_registered") →
  List.find (λ r, Z.eqb (chat_id r) chat) (students w')
  = Some (with_course student ref (clock w))
  ∧ (group_code student ∉ APIClient.strings_result (outcome_at 2 w) →
     ∃ r, last (trace w')
          = Some (Tg (AnswerCallback (Some "⚠️ Этот курс не для твоей группы") true) r))
  ∧ (group_code student ∈ APIClient.strings_result (outcome_at 2 w) →
     APIClient.strings_result (outcome_at 3 w) = [] →
     ∃ r, last (trace w')
          = Some (Tg (AnswerCallback (Some "📭 Для твоей группы лабораторных нет") true) r)).
Proof.
  intros chat w' ref Hd Hc Hs Hid Hu Hh Hr Hst. subst w'.
  unfold course_selected. rewrite Hd. munfold.
  unfold APIClient.get_courses, APIClient.register_student. munfold.
  rewrite http_at. fold (selected course_id (outcome_at 0 w)). rewrite Hc.
  unfold StudentRepository.get_by_chat. munfold. cbn [students with_http].
  fold chat. rewrite Hs, Hh. rewrite http_at, outcome_at_with_http, Hr.
  assert (result ≠ ∅) as Hne by (destruct Hst; eauto using lookup_nonempty).
  rewrite bool_decide_eq_false_2 by done.
  assert (is_str (result !! "status") "registered"
          || is_str (result !! "status") "already_registered" = true) as ->.
  { by destruct Hst as [-> | ->]. }
  cbn [negb]. fold ref.
  apply find_elem_of in Hs as Hin. destruct Hin as [Hin _].
  match goal with
  | |- context [StudentRepository.save ?s ?w0] =>
      destruct (save_appended student ref w0) as (rows & -> & Hrows); [done..|]
  end.
  cbn [students with_http] in Hrows. specialize (Hrows chat Hs).
  match goal with
  | |- context [show_labs ?c ?i ?s ?w0] =>
      pose proof (Quiet_show_labs c i s w0) as (E1 & _);
      pose proof (show_labs_wrong_group c i s w0) as Hwrong;
      pose proof (show_labs_no_labs c i s w0) as Hnone
  end.
  split; [|split].
  - rewrite E1. exact Hrows.
  - intros Hg. apply Hwrong.
    change (outcome_at 0 (with_students rows _ ?w0)) with (outcome_at 0 w0).
    by rewrite !outcome_at_with_http.
  - intros Hg Hl. apply Hnone.
    + change (outcome_at 0 (with_students rows _ ?w0)) with (outcome_at 0 w0).
      by rewrite !outcome_at_with_http.
    + change (outcome_at 1 (with_students rows _ ?w0)) with (outcome_at 1 w0).
      by rewrite !outcome_at_with_http.
Qed.

End course_selection.

(** ** What a computation leaves alone *)

Section frames.
Context `{PyRuntime}.


Lemma leaves_ret {X A} (f : World → X) (a : A) : leaves f (ret a).
Proof. by intros w. Qed.

Lemma leaves_mret {X A} (f : World → X) (a : A) : leaves f (mret a).
Proof. by intros w. Qed.

Lemma leaves_raise {X A} (f : World → X) e : leaves f (@raise A e).
Proof. by intros w. Qed.

Lemma leaves_gets {X A} (f : World → X) (g : World → A) : leaves f (gets g).
Proof. by intros w. Qed.

Lemma leaves_bind {X A B} (f : World → X) (m : M A) (k : A → M B) :
  leaves f m → (∀ a, leaves f (k a)) → leaves f (m ≫= k).
Proof.
  intros Hm Hk w. munfold. specialize (Hm w).
  destruct (m w) as [[a|e] w1]; cbn in *; [|done].
  by rewrite Hk.
Qed.

Lemma leaves_try_except {X A} (f : World → X) (m : M A) h :
  leaves f m →
  (∀ e, match h e with Some k => leaves f k | None => True end) →
  leaves f (try_except m h).
Proof.
  intros Hm Hh w. unfold try_except. specialize (Hm w).
  destruct (m w) as [[a|e] w1]; cbn in *; [done|].
  specialize (Hh e). destruct (h e) as [k|]; [|done].
  by rewrite Hh.
Qed.

Lemma leaves_tg {X} (f : World → X) c : past_tg f → leaves f (tg c).
Proof. intros Hf w. unfold tg. by destruct (tg_faults w) as [|[e|] fs]; cbn. Qed.

Lemma leaves_send_message {X} (f : World → X) chat text kb mode :
  past_tg f → leaves f (send_message chat text kb mode).
Proof.
  intros Hf w. unfold send_message. by destruct (tg_faults w) as [|[e|] fs]; cbn.
Qed.

Lemma leaves_getitem {X} (f : World → X) d k : leaves f (getitem d k).
Proof. unfold getitem. by destruct (d !! k). Qed.

Lemma leaves_save {X} (f : World → X) student :
  past_students f → leaves f (StudentRepository.save student).
Proof.
  intros Hf. unfold StudentRepository.save, StudentRepository._check_existing_student,
    utcnow.
  apply leaves_bind; [destruct (negb _); by intros w|].
  intros [r|]; [by intros w|].
  apply leaves_bind; [by intros w|]. intros now.
  assert (leaves f (StudentRepository.sql_insert student now)) as Hins.
  { intros w. unfold StudentRepository.sql_insert. by destruct (existsb _ _); cbn. }
  destruct (id student) as [i|]; [|done].
  destruct (StudentRepository.id_set _); [|done].
  intros w. unfold StudentRepository.sql_update. by destruct (_ && _); cbn.
Qed.

End frames.

(** ** The registration wizard, off the main path *)

Section registration_paths.
Context `{PyRuntime}.
Import StudentHandlers.

(** X1. [reg_restart] forgets the form and deletes one message.  In every
    world and whatever the transport does, after [reg_restart] the
    conversation has no state, its bag holds no key but the id of the
    message just sent, and the only message a delete was asked for is the
    pressed one: the handler clears the bag before [_cleanup_prev] looks for
    the id of the previous bot message, so that message is never deleted
    here. *)
Theorem reg_restart_forgets_the_form (cb : CallbackQuery) (w : World) :
  let chat := msg_chat (message cb) in
  let w' := snd (reg_restart cb w) in
  sess_state (session_of w' chat) = None
  ∧ (∀ k, k ≠ BOT_MSG_KEY → sess_data (session_of w' chat) !! k = None)
  ∧ ∃ evs, trace w' = trace w ++ evs
           ∧ Forall (λ ev, deleted ev = None
                           ∨ deleted ev = Some (chat, message_id (message cb))) evs.
Proof.
  intros chat w'. subst w'.
  unfold reg_restart, clear, msg_delete, delete_message, _cleanup_prev, get_data,
    msg_answer, update_data, cb_answer, tg, send_message, session_of.
  fold chat. destruct w as [fsm0 st sq ad ck hs fs nx ts tr].
  destruct fs as [|[e1|] [|[e2|] [|[e3|] fs]]];
    repeat (progress (munfold; cbn; unfold stored_msg_id;
                      rewrite ?lookup_insert_eq, ?lookup_empty));
    (split; [done|]); (split; [intros k Hk; rewrite ?lookup_union_r, ?lookup_empty;
                                 try done; by rewrite lookup_insert_ne|]);
    rewrite <- ?app_assoc; cbn [app]; (eexists; split; [reflexivity|]);
    repeat (constructor; [first [by left | by right]|]); constructor.
Qed.

(** X2. [reg_start] starts from nothing.  In every world and whatever the
    transport does, after [reg_start] the conversation is in SURNAME and its
    bag holds no key but the id of the prompt: answers of an earlier pass
    through the form are gone. *)
Theorem reg_start_resets (cb : CallbackQuery) (w : World) :
  let chat := msg_chat (message cb) in
  let w' := snd (reg_start cb w) in
  sess_state (session_of w' chat) = Some (SReg Reg.SURNAME)
  ∧ ∀ k, k ≠ BOT_MSG_KEY → sess_data (session_of w' chat) !! k = None.
Proof.
  intros chat w'. subst w'.
  unfold reg_start, clear, set_state, msg_delete, delete_message, prompt. munfold.
  fold chat. cbn [PROMPTS].
  match goal with
  | |- context [tg ?c ?w0] => destruct (tg_shape c w0) as (r & fs & ev & ->)
  end.
  destruct r as [[]|e]; [|by mrun].
  match goal with
  | |- context [_send ?o ?t ?k ?w0] =>
      destruct (send_frame o t k w0) as (w1 & -> & Hs & Hd & _)
  end.
  cbn in Hs, Hd. fold chat in Hs, Hd. autorewrite with world in Hs, Hd. cbn in Hs, Hd.
  unfold cb_answer.
  destruct (tg_shape (AnswerCallback None false) w1) as (r & fs' & ev' & ->).
  assert (∀ k, k ≠ BOT_MSG_KEY → sess_data (session_of w1 chat) !! k = None) as Hd'.
  { intros k Hk. by rewrite Hd. }
  destruct r; cbn; autorewrite with world; done.
Qed.

(** X3. [reg_confirm] always ends the conversation.  In every world,
    whatever the bag holds and whatever the table and the transport do, the
    session of the chat is empty after [reg_confirm]: no state and no data,
    also when the form is incomplete and building the student raises. *)
Theorem reg_confirm_always_clears (cb : CallbackQuery) (w : World) :
  session_of (snd (reg_confirm cb w)) (msg_chat (message cb)) = empty_session.
Proof.
  set (chat := msg_chat (message cb)).
  pose (rest := λ d : gmap string BagVal,
          (student ← build_student chat d;
           try_except
             (StudentRepository.save student;;
              msg_delete (message cb);;
              msg_answer (message cb) registered_text (Some main_menu_kb);;
              ret tt)
             (λ e, match e with
                   | ValueError _ =>
                       Some (msg_delete (message cb);;
                             msg_answer (message cb) duplicate_text (Some start_kb);;
                             ret tt)
                   | _ =>
                       Some (msg_delete (message cb);;
                             msg_answer (message cb) failure_text (Some start_kb);;
                             ret tt)
                   end);;
           cb_answer None false) : M unit).
  assert (∀ d, leaves fsm (rest d)) as Hrest.
  { intros d. unfold rest, msg_delete, delete_message, msg_answer, cb_answer.
    assert (∀ text kb, leaves fsm
              (tg (DeleteMessage (msg_chat (message cb)) (message_id (message cb)));;
               send_message (msg_chat (message cb)) text kb Plain;; ret tt)) as Hsay.
    { intros text kb. apply leaves_bind; [by apply leaves_tg|]. intros _.
      apply leaves_bind; [by apply leaves_send_message|]. intros _. apply leaves_ret. }
    apply leaves_bind.
    { unfold build_student, as_str.
      repeat (apply leaves_bind; [apply leaves_getitem|intros ?]).
      repeat (apply leaves_bind;
              [repeat first [apply leaves_ret | apply leaves_raise | apply leaves_mret
                            | apply leaves_bind; [|intros ?]
                            | match goal with
                              | |- leaves _ (match ?x with _ => _ end) => destruct x
                              | |- leaves _ (if ?x then _ else _) => destruct x
                              end]
              |intros ?]).
      apply leaves_ret. }
    intros student. apply leaves_bind; [|intros _; by apply leaves_tg].
    apply leaves_try_except.
    - apply leaves_bind; [by apply leaves_save|]. intros _. apply Hsay.
    - intros []; apply Hsay. }
  change (reg_confirm cb w)
    with (rest (sess_data (session_of w chat)) (with_fsm <[chat := empty_session]> w)).
  unfold session_of at 1. rewrite Hrest. cbn. by rewrite lookup_insert_eq.
Qed.

Lemma find_existsb_or {A} (p q : A → bool) l x :
  List.find p l = Some x → existsb (λ r, p r || q r) l = true.
Proof.
  intros [Hin Hp]%List.find_some. apply existsb_exists. exists x.
  split; [done|]. by rewrite Hp.
Qed.

(** [save] of a new student refuses when the chat has a row. *)
Lemma save_refused st w row :
  id st = None →
  List.find (λ r, Z.eqb (chat_id r) (chat_id st)) (students w) = Some row →
  ∃ e, StudentRepository.save st w = (Raise e, w)
       ∧ (List.find (StudentRepository.same_identity st) (students w) = None →
          e = IntegrityError).
Proof.
  intros Hid Hrow. unfold StudentRepository.save,
    StudentRepository._check_existing_student, utcnow.
  rewrite Hid. munfold. cbn.
  destruct (List.find (StudentRepository.same_identity st) (students w)) as [r|] eqn:E.
  - eexists. split; [reflexivity|done].
  - unfold StudentRepository.sql_insert.
    rewrite (find_existsb_or _ _ _ _ Hrow). eauto.
Qed.

Lemma build_student_shape chat d w :
  match build_student chat d w with
  | (Ret st, w') => w' = w ∧ id st = None ∧ chat_id st = chat
  | (Raise _, w') => w' = w
  end.
Proof.
  unfold build_student, getitem, as_str. munfold.
  repeat (case_match; simplify_eq; cbn in *; try done).
Qed.

(** X4. A chat that has a row cannot register again.  If the students
    table holds a row for the chat, [reg_confirm] leaves the table as it is,
    whatever the bag holds and whatever the transport does: [save] raises
    before it writes.  With a filled form and a transport that works, the
    chat is told of a duplicate when a row has the form's surname, name,
    group and GitHub handle, and of a failure otherwise. *)
Theorem registered_chat_cannot_register_again (cb : CallbackQuery) (w : World)
    (row : Student) :
  let chat := msg_chat (message cb) in
  List.find (λ r, Z.eqb (chat_id r) chat) (students w) = Some row →
  students (snd (reg_confirm cb w)) = students w
  ∧ ∀ sur nam pat grp gh,
      form_filled chat sur nam pat grp gh w →
      tg_faults w = [] →
      reg_confirm cb w
      = (Ret tt,
         confirmed cb (students w) (students_seq w)
           (if existsb (StudentRepository.same_identity
                          (new_student chat sur nam pat grp gh)) (students w)
            then duplicate_text else failure_text)
           start_kb w).
Proof.
  intros chat Hrow. split.
  - assert (∀ text kb, leaves students
              (msg_delete (message cb);;
               msg_answer (message cb) text kb;; ret tt)) as Hsay.
    { intros text kb. unfold msg_delete, delete_message, msg_answer.
      apply leaves_bind; [by apply leaves_tg|]. intros _.
      apply leaves_bind; [by apply leaves_send_message|]. intros _. apply leaves_ret. }
    unfold reg_confirm, get_data, clear. fold chat. munfold.
    pose proof (build_student_shape chat (sess_data (session_of w chat))
                  (with_fsm <[chat := empty_session]> w)) as Hb.
    destruct (build_student _ _ _) as [[st|e] w0]; [|by subst].
    destruct Hb as (-> & Hid & Hchat).
    destruct (save_refused st (with_fsm <[chat := empty_session]> w) row Hid)
      as (e & He & _); [by rewrite Hchat|].
    rewrite He.
    assert (∀ text kb w1,
              students
                (snd (let (r, w2) := (msg_delete (message cb);;
                                      msg_answer (message cb) text kb;; ret tt) w1 in
                      match r with
                      | Ret _ => cb_answer None false w2
                      | Raise e0 => (Raise e0, w2)
                      end)) = students w1) as Hend.
    { intros text kb w1. specialize (Hsay text kb w1).
      destruct ((msg_delete (message cb);; msg_answer (message cb) text kb;; ret tt) w1)
        as [[[]|e0] w2]; cbn in *; [|done].
      unfold cb_answer. by rewrite (leaves_tg students). }
    unfold mbind, M_bind, bind, ret in Hend.
    destruct e; (etrans; [apply Hend|reflexivity]).
  - intros sur nam pat grp gh Hform Hf.
    set (st := new_student chat sur nam pat grp gh).
    destruct (List.find (StudentRepository.same_identity st) (students w))
      as [r|] eqn:E.
    + destruct (reg_confirm_duplicate cb w sur nam pat grp gh r Hform E Hf) as [_ ->].
      apply List.find_some in E as [Hin Hp].
      replace (existsb _ (students w)) with true; [done|].
      symmetry. apply existsb_exists. eauto.
    + replace (existsb (StudentRepository.same_identity st) (students w)) with false.
      2:{ symmetry. apply not_true_is_false. intros (x & Hin & Hx)%existsb_exists.
          pose proof (List.find_none _ _ E x Hin). congruence. }
      unfold reg_confirm, get_data, clear. munfold.
      erewrite build_student_run by exact Hform. fold chat st.
      destruct (save_refused st (with_fsm <[chat := empty_session]> w) row eq_refl Hrow)
        as (e & He & Hint).
      rewrite He, (Hint E).
      unfold msg_delete, delete_message, msg_answer, cb_answer.
      rewrite tg_run by done. rewrite send_message_run by done. munfold.
      rewrite tg_run by done.
      f_equal. unfold confirmed, confirm_events, with_tg, with_students, with_fsm. cbn.
      f_equal. by rewrite <- !app_assoc.
Qed.

(** X5. A stale Back button raises.  Outside the five states of the form
    (no state, CONFIRM, any admin state) the search for the current step
    finds nothing: [reg_back] raises before it does anything, the world is
    as before and the button is never answered. *)
Theorem reg_back_outside_the_form_raises (cb : CallbackQuery) (w : World) :
  (∀ s, s ∈ ORDER → sess_state (session_of w (msg_chat (message cb))) ≠ Some (SReg s)) →
  reg_back cb w = (Raise RuntimeError, w).
Proof.
  intros Hout. unfold reg_back, get_state. munfold.
  destruct (sess_state _) as [[r|l|m]|]; [|by destruct l|by destruct m|done].
  destruct r; try (by exfalso; eapply Hout; [|reflexivity]; set_solver).
  reflexivity.
Qed.

Lemma reg_back_run cb w cur prev :
  sess_state (session_of w (msg_chat (message cb))) = Some (SReg cur) →
  PREV_get cur = Some prev →
  tg_faults w = [] →
  ∃ w', reg_back cb w = (Ret tt, w')
        ∧ sess_state (session_of w' (msg_chat (message cb))) = Some (SReg prev)
        ∧ (∀ k, k ≠ BOT_MSG_KEY →
             sess_data (session_of w' (msg_chat (message cb))) !! k
             = sess_data (session_of w (msg_chat (message cb))) !! k)
        ∧ tg_faults w' = [].
Proof.
  intros Hst Eprev Hf. unfold reg_back, get_state. munfold. rewrite Hst.
  assert (cur ≠ Reg.CONFIRM) as Hc by (by intros ->).
  rewrite (current_step_reg _ _ Hc), Eprev.
  unfold msg_delete, delete_message. rewrite tg_run by done.
  unfold get_data, update_data, set_state, prompt. munfold.
  rewrite pop_then_merge.
  assert (∃ p, PROMPTS prev = Some p) as [p ->].
  { destruct cur; inversion Eprev; subst; eauto. }
  cbn.
  match goal with
  | |- context [_send ?o ?t ?k ?w0] =>
      destruct (send_healthy o t k w0) as (w1 & -> & (Hs & Hd & _) & Hf1 & _); [done|]
  end.
  unfold cb_answer. rewrite tg_run by done.
  eexists. split; [reflexivity|]. autorewrite with world.
  cbn in Hs, Hd. split; [|split; [|done]].
  - rewrite Hs. by autorewrite with world.
  - intros k Hk. rewrite (Hd k Hk). by autorewrite with world.
Qed.

(** X6. Back after an answer returns to the step just answered.  With a
    transport that works, a text entered in one of the first four states
    followed by the Back button leaves the conversation in the state the
    text was entered in, with the text stored under that state's key and
    every other field as before. *)
Theorem back_returns_to_the_answered_step (m : Message) (cb : CallbackQuery)
    (w : World) (i : nat) (cur nxt : Reg.t) (t : string) :
  let chat := msg_chat (message cb) in
  msg_chat m = chat →
  sess_state (session_of w chat) = Some (SReg cur) →
  ORDER !! i = Some cur →
  ORDER !! S i = Some nxt →
  text m = Some t →
  tg_faults w = [] →
  ∃ w', (reg_steps m;; reg_back cb) w = (Ret tt, w')
        ∧ sess_state (session_of w' chat) = Some (SReg cur)
        ∧ sess_data (session_of w' chat) !! field_key cur = Some (VStr (normalized cur t))
        ∧ ∀ k, k ≠ BOT_MSG_KEY → k ≠ field_key cur →
               sess_data (session_of w' chat) !! k = sess_data (session_of w chat) !! k.
Proof.
  intros chat Hm Hst Hi Hn Ht Hf.
  destruct (reg_steps_advance_in chat m w i cur nxt t Hm Hst Hi Hn Ht Hf)
    as (w1 & R1 & S1 & D1 & K1 & F1 & _).
  assert (PREV_get nxt = Some cur) as Hprev.
  { rewrite <- (PREV_get_predecessor nxt i Hn). exact Hi. }
  destruct (reg_back_run cb w1 nxt cur S1 Hprev F1) as (w2 & R2 & S2 & D2 & _).
  exists w2. fold chat in S2, D2. split; [munfold; by rewrite R1, R2|].
  split; [done|]. split.
  - rewrite D2; [done|]. by destruct cur.
  - intros k Hk Hk'. rewrite D2 by done. by apply K1.
Qed.

End registration_paths.

(** ** The student menu and the ends of the poll *)

Section student_menu.
Context `{PyRuntime}.
Import CommonHandlers.

(** X7. [/start] answers by registration and touches nothing else.  In
    every world [cmd_start] leaves the FSM storage (so a form being filled
    stays as it is) and the students table alone.  With a transport that
    works it deletes the command and sends the main menu if the chat has a
    row and the invitation to register if not; a delete that fails with
    [TelegramBadRequest] or [TelegramNotFound] is passed over and the reply
    is sent all the same. *)
Theorem cmd_start_answers_by_registration (m : Message) (w : World) :
  let chat := msg_chat m in
  let w' := snd (cmd_start m w) in
  fsm w' = fsm w
  ∧ students w' = students w
  ∧ (tg_faults w = [] →
     fst (cmd_start m w) = Ret tt
     ∧ trace w' = trace w ++ [Tg (DeleteMessage chat (message_id m)) Done;
                              Tg (start_reply chat w) (SentAs (next_msg_id w))])
  ∧ (∀ e, tg_faults w = [Some e] →
          e = TelegramBadRequest ∨ e = TelegramNotFound →
          fst (cmd_start m w) = Ret tt
          ∧ trace w' = trace w ++ [Tg (DeleteMessage chat (message_id m)) (Raised e);
                                   Tg (start_reply chat w) (SentAs (next_msg_id w))]).
Proof.
  intros chat w'. subst w'.
  assert (∀ X (f : World → X), past_tg f → leaves f (cmd_start m)) as Hl.
  { intros X f Hf. unfold cmd_start, msg_delete, delete_message, msg_answer,
      StudentRepository.get_by_chat.
    apply leaves_bind.
    { apply leaves_try_except; [by apply leaves_tg|]. intros []; try done; apply leaves_mret. }
    intros _. apply leaves_bind; [apply leaves_gets|].
    intros [r|]; (apply leaves_bind; [by apply leaves_send_message|]);
      intros; apply leaves_ret. }
  split; [by apply Hl|]. split; [by apply Hl|].
  unfold cmd_start, msg_delete, delete_message, msg_answer,
    StudentRepository.get_by_chat, start_reply, row_of, tg, send_message.
  fold chat. split.
  - intros Hf. munfold. rewrite Hf. cbn.
    destruct (List.find _ _); cbn; by rewrite <- app_assoc.
  - intros e Hf He. munfold. rewrite Hf. cbn.
    destruct He as [-> | ->]; cbn;
      destruct (List.find _ _); cbn; by rewrite <- app_assoc.
Qed.

(** X8. The poll has no last round of its own.  However many times the
    server answers "pending" (or hangs up), the poll goes on: after [n] such
    answers, [n] rounds have been made, each a request and a sleep of 15
    seconds, the placeholder has not been edited and the loop is still
    going. *)
Theorem poll_keeps_polling_while_pending (t : PollTask) (ps rest : list HttpOutcome)
    (w : World) :
  http_script w = ps ++ rest →
  Forall pending ps →
  poll (length ps) t w = (Ret Polling, add_trace (rounds t ps) rest w)
  ∧ List.filter is_edit (rounds t ps) = []
  ∧ List.filter is_sleep (rounds t ps) = repeat (Sleep 15) (length ps).
Proof.
  intros Hs Hp. split.
  - rewrite <- (Nat.add_0_r (length ps)). by rewrite (poll_pendings t ps 0 w rest).
  - by destruct (rounds_counts t ps) as (_ & ? & ?).
Qed.

Lemma poll_no_result fuel t w o rest :
  http_script w = o :: rest →
  tg_faults w = [] →
  APIClient.grade_result o = None ∨ APIClient.grade_result o = Some ∅ →
  poll (S fuel) t w
  = (Ret Finished,
     add_trace [Http (grade_request t) o; edited t server_error_text] rest w).
Proof.
  intros Hs Hf Hr. cbn [poll]. unfold APIClient.grade_lab. munfold.
  rewrite (http_run _ _ _ _ Hs).
  destruct Hr as [-> | ->]; [|rewrite bool_decide_eq_true_2 by done];
    unfold edit_wait_msg; rewrite tg_run by done;
    (f_equal; unfold add_trace, edited, with_tg, with_http; cbn; f_equal; [done|];
     by rewrite <- app_assoc).
Qed.

(** X9. A request that fails ends the poll on "server error".  When the
    grading request fails for a reason other than the server hanging up, or
    is answered 200 with no body to decode or with an empty JSON object, the
    poll edits the placeholder once to the server-error text and finishes;
    nothing is retried. *)
Theorem poll_ends_on_server_error (fuel : nat) (t : PollTask) (w : World)
    (o : HttpOutcome) (rest : list HttpOutcome) :
  http_script w = o :: rest →
  tg_faults w = [] →
  o = ClientFailure
  ∨ (∃ cookie raw, o = Response 200 cookie BEmpty raw)
  ∨ (∃ cookie raw, o = Response 200 cookie (BDict ∅) raw) →
  poll (S fuel) t w
  = (Ret Finished,
     add_trace [Http (grade_request t) o; edited t server_error_text] rest w).
Proof.
  intros Hs Hf Ho. apply poll_no_result; [done..|].
  destruct Ho as [-> | [(cookie & raw & ->) | (cookie & raw & ->)]]; cbn; auto.
Qed.



Lemma all_str_other (l : list JVal) (v : JVal) :
  v ∈ l → (∀ s, v ≠ JStr s) → all_str l = None.
Proof.
  intros Hin Hv. induction Hin as [v l|v x l Hin IH].
  - destruct v; cbn; try done. by destruct (Hv s).
  - cbn. rewrite (IH Hv). by destruct x.
Qed.

(** X11. A verdict that does not format is never shown.  Take a result with
    status "updated".  If its [checks] are present and are null, a boolean,
    a number, or a list with an item that is no string, joining them raises
    TypeError inside the task.  If its [checks] are absent, a string or a
    list of strings, and its [message] is present and is no string, escaping
    the message raises AttributeError inside the task.  Either way the poll
    ends on that exception after the one request, without an edit, and since
    nothing awaits the task the placeholder stays as it was sent. *)
Theorem poll_malformed_verdict_is_lost (fuel : nat) (t : PollTask) (w : World)
    (o : HttpOutcome) (rest : list HttpOutcome) (u : JDict) :
  let lost := λ e : Exn,
    poll (S fuel) t w = (Raise e, add_trace [Http (grade_request t) o] rest w)
    ∧ run_tasks (S fuel) [t] w
      = ([Raise e], add_trace [Http (grade_request t) o] rest w) in
  http_script w = o :: rest →
  APIClient.grade_result o = Some u →
  u !! "status" = Some (JStr "updated") →
  (∀ c,
     u !! "checks" = Some c →
     match c with
     | JStr _ => False
     | JList l => ∃ v, v ∈ l ∧ ∀ s, v ≠ JStr s
     | _ => True
     end →
     lost TypeError)
  ∧ (∀ m,
       u !! "message" = Some m →
       (∀ s, m ≠ JStr s) →
       match u !! "checks" with
       | None | Some (JStr _) => True
       | Some (JList l) => ∃ ss, l = JStr <$> ss
       | Some _ => False
       end →
       lost AttributeError).
Proof.
  intros lost Hs Hu Hst.
  assert (∀ e, format_result u = inl e → lost e) as Hlost.
  { intros e He.
    assert (poll (S fuel) t w
            = (Raise e, add_trace [Http (grade_request t) o] rest w)) as Hp.
    { cbn [poll]. unfold APIClient.grade_lab. munfold.
      rewrite (http_run _ _ _ _ Hs), Hu.
      rewrite bool_decide_eq_false_2 by eauto using lookup_nonempty.
      rewrite Hst, He. cbn. reflexivity. }
    split; [done|]. cbn [run_tasks]. by rewrite Hp. }
  split.
  - intros c Hc Hbad. apply Hlost. unfold format_result.
    rewrite (get_or_default u "checks"), Hc.
    destruct c as [|b|z|s|l]; cbn; try done.
    destruct Hbad as (v & Hin & Hv). by rewrite (all_str_other l v).
  - intros m Hm Hns Hchk. apply Hlost. unfold format_result.
    assert (escape_json m = inl AttributeError) as He.
    { destruct m; try done. by destruct (Hns s). }
    cbv zeta. rewrite (get_or_default u "checks"), (get_or_default u "message"), Hm.
    cbn [from_option]. unfold Datatypes.id. rewrite He.
    destruct (u !! "checks") as [[|b|z|s|l]|]; cbn; try done.
    destruct Hchk as (ss & ->). by rewrite all_str_strings.
Qed.

Lemma alert_only text w :
  ∃ r, cb_answer text true w
       = (r, with_tg (tail (tg_faults w)) (next_msg_id w)
               (Tg (AnswerCallback text true)
                  (match head (tg_faults w) with
                   | Some (Some e) => Raised e
                   | _ => Done
                   end)) w).
Proof. unfold cb_answer, tg. destruct (tg_faults w) as [|[e|] fs]; eauto. Qed.

(** X12. A refused registration leaves the row without the course.  The
    student of the chat has no reference to the selected course and the
    server does not register him (no usable answer, or a status other than
    "registered" and "already_registered").  Then [course_selected] makes
    two requests, for the courses and for the registration, and no other;
    the students table is as before; and all it does in the chat is at most
    one alert. *)
Theorem refused_registration_keeps_the_row (cb : CallbackQuery) (w : World)
    (prefix course_id : string) (course : CourseDTO) (student : Student) :
  let chat := msg_chat (message cb) in
  let w' := snd (course_selected cb w) in
  split_once (data cb) = Some (prefix, course_id) →
  selected course_id (outcome_at 0 w) = Some course →
  row_of chat w = Some student →
  has_course student course = false →
  refused (APIClient.register_result (outcome_at 1 w)) →
  students w' = students w
  ∧ http_script w' = tail (tail (http_script w))
  ∧ ∃ evs,
      trace w'
      = trace w
        ++ [Http GetCourses (outcome_at 0 w);
            Http (PostRegister course_id (group_code student) (register_payload student))
              (outcome_at 1 w)]
        ++ evs
      ∧ Forall is_alert evs ∧ (length evs ≤ 1)%nat.
Proof.
  intros chat w' Hd Hc Hs Hh Hr. subst w'.
  unfold course_selected. rewrite Hd. munfold.
  unfold APIClient.get_courses, APIClient.register_student. munfold.
  rewrite http_at. fold (selected course_id (outcome_at 0 w)). rewrite Hc.
  unfold StudentRepository.get_by_chat. munfold. cbn [students with_http].
  fold chat. unfold row_of in Hs. rewrite Hs, Hh.
  rewrite http_at, outcome_at_with_http.
  assert (∀ text w0,
            students (snd (cb_answer text true w0)) = students w0
            ∧ http_script (snd (cb_answer text true w0)) = http_script w0
            ∧ ∃ evs, trace (snd (cb_answer text true w0)) = trace w0 ++ evs
                     ∧ Forall is_alert evs ∧ (length evs ≤ 1)%nat) as Halert.
  { intros text w0. destruct (alert_only text w0) as (r & ->). cbn.
    do 2 (split; [done|]). eexists [_]. split; [done|].
    split; [|done]. constructor; [|done]. by eexists _, _. }
  assert (∀ w0,
            trace w0 = (trace w ++ [Http GetCourses (outcome_at 0 w)])
                       ++ [Http (PostRegister course_id (group_code student)
                                   (register_payload student)) (outcome_at 1 w)] →
            ∀ evs, trace w0 ++ evs
                   = trace w
                     ++ [Http GetCourses (outcome_at 0 w);
                         Http (PostRegister course_id (group_code student)
                                 (register_payload student)) (outcome_at 1 w)]
                     ++ evs) as Htr.
  { intros w0 -> evs. by rewrite <- !app_assoc. }
  destruct (APIClient.register_result (outcome_at 1 w)) as [r|] eqn:Er.
  - destruct Hr as [-> | Hst].
    + rewrite bool_decide_eq_true_2 by done.
      match goal with
      | |- context [cb_answer ?x true ?w0] =>
          destruct (Halert x w0) as (E1 & E2 & evs & E3 & E4 & E5)
      end.
      rewrite E1, E2, E3. do 2 (split; [done|]). exists evs.
      split; [by apply Htr|done].
    + destruct (bool_decide (r = ∅)).
      * match goal with
        | |- context [cb_answer ?x true ?w0] =>
            destruct (Halert x w0) as (E1 & E2 & evs & E3 & E4 & E5)
        end.
        rewrite E1, E2, E3. do 2 (split; [done|]). exists evs.
        split; [by apply Htr|done].
      * rewrite Hst. cbn [negb]. unfold answer_json.
        destruct (get_or r "message" _) as [|b|z|s|l];
          try (do 2 (split; [done|]); exists []; cbn;
               split; [by rewrite <- app_assoc|by split; [constructor|lia]]);
          match goal with
          | |- context [cb_answer ?x true ?w0] =>
              destruct (Halert x w0) as (E1 & E2 & evs & E3 & E4 & E5)
          end;
          rewrite E1, E2, E3; (do 2 (split; [done|])); exists evs;
          (split; [by apply Htr|done]).
  - match goal with
    | |- context [cb_answer ?x true ?w0] =>
        destruct (Halert x w0) as (E1 & E2 & evs & E3 & E4 & E5)
    end.
    rewrite E1, E2, E3. do 2 (split; [done|]). exists evs.
    split; [by apply Htr|done].
Qed.

(** X13. No poll without a row.  If the chat has no row in the students
    table, a lab button gets the alert that asks to register and nothing
    else: no message is deleted or sent, no task is created, no request is
    made. *)
Theorem lab_selected_needs_registration (cb : CallbackQuery) (w : World)
    (prefix ids : string) (pair : string * string) :
  let chat := msg_chat (message cb) in
  let w' := snd (lab_selected cb w) in
  split_once (data cb) = Some (prefix, ids) →
  split_once ids = Some pair →
  row_of chat w = None →
  tasks w' = tasks w
  ∧ http_script w' = http_script w
  ∧ fsm w' = fsm w
  ∧ ∃ r, trace w'
         = trace w ++ [Tg (AnswerCallback (Some "⚠️ Сначала зарегистрируйся") true) r].
Proof.
  intros chat w' Hd1 Hd2 Hs. subst w'.
  unfold lab_selected. rewrite Hd1, Hd2. munfold. cbn.
  unfold StudentRepository.get_by_chat. munfold. fold chat.
  unfold row_of in Hs. rewrite Hs.
  destruct (alert_only (Some "⚠️ Сначала зарегистрируйся") w) as (r & ->). cbn.
  eauto.
Qed.

(** X14. The Fall semester runs over the new year.  From August to
    December the semester is the Fall of the year, and the January that
    follows still belongs to it; the months from February to July are the
    Spring of their year. *)
Theorem fall_semester_spans_the_new_year (y m : Z) :
  8 ≤ m ≤ 12 →
  Semester.current_semester y m = "Fall " +:+ pretty y
  ∧ Semester.current_semester (y + 1) 1 = Semester.current_semester y m
  ∧ ∀ m', 2 ≤ m' ≤ 7 →
          Semester.current_semester (y + 1) m' = "Spring " +:+ pretty (y + 1).
Proof.
  intros Hm. unfold Semester.current_semester.
  assert (((2 <=? m) && (m <=? 7)) = false) as ->.
  { apply andb_false_iff. right. apply Z.leb_gt. lia. }
  assert ((m =? 1) = false) as -> by (apply Z.eqb_neq; lia).
  split; [done|]. split.
  - cbn. by replace (y + 1 - 1) with y by lia.
  - intros m' Hm'.
    assert (((2 <=? m') && (m' <=? 7)) = true) as ->; [|done].
    apply andb_true_iff. split; apply Z.leb_le; lia.
Qed.

(** X15. Without the course or without a row, one request and one alert.
    If no course of the server's list has the id of the button, or one has
    but the chat has no row in the students table, [course_selected] asks
    for the list of courses and nothing else, writes nothing, and answers
    with the alert of the case; the course is looked up first. *)
Theorem course_selected_stops_early (cb : CallbackQuery) (w : World)
    (prefix course_id : string) :
  let chat := msg_chat (message cb) in
  let w' := snd (course_selected cb w) in
  let text := match selected course_id (outcome_at 0 w) with
              | None => "❌ Курс не найден"
              | Some _ => "⚠️ Необходимо зарегистрироваться"
              end in
  split_once (data cb) = Some (prefix, course_id) →
  selected course_id (outcome_at 0 w) = None ∨ row_of chat w = None →
  students w' = students w
  ∧ fsm w' = fsm w
  ∧ http_script w' = tail (http_script w)
  ∧ ∃ r, trace w'
         = trace w ++ [Http GetCourses (outcome_at 0 w);
                       Tg (AnswerCallback (Some text) true) r].
Proof.
  intros chat w' text Hd Hno. subst w' text.
  unfold course_selected. rewrite Hd. munfold.
  unfold APIClient.get_courses. munfold.
  rewrite http_at. fold (selected course_id (outcome_at 0 w)).
  destruct (selected course_id (outcome_at 0 w)) as [course|] eqn:Ec.
  - destruct Hno as [|Hno]; [done|].
    unfold StudentRepository.get_by_chat. munfold. cbn [students with_http].
    fold chat. unfold row_of in Hno. rewrite Hno.
    match goal with
    | |- context [cb_answer ?x true ?w0] => destruct (alert_only x w0) as (r & ->)
    end.
    cbn. do 3 (split; [done|]). rewrite <- app_assoc. eauto.
  - match goal with
    | |- context [cb_answer ?x true ?w0] => destruct (alert_only x w0) as (r & ->)
    end.
    cbn. do 3 (split; [done|]). rewrite <- app_assoc. eauto.
Qed.

End student_menu.

(** ** The admin menu *)

Section admin_menu.
Context `{PyRuntime}.
Import AdminHandlers.

Lemma blind_ret {A} (a : A) : blind (ret a).
Proof. by intros t w. Qed.

Lemma blind_mret {A} (a : A) : blind (mret a).
Proof. by intros t w. Qed.

Lemma blind_raise {A} e : blind (@raise A e).
Proof. by intros t w. Qed.

Lemma blind_bind {A B} (m : M A) (k : A → M B) :
  blind m → (∀ a, blind (k a)) → blind (m ≫= k).
Proof.
  intros Hm Hk t w. munfold. rewrite Hm.
  destruct (m w) as [[a|e] w1]; cbn; [|done]. apply Hk.
Qed.

Lemma blind_try_except {A} (m : M A) h :
  blind m →
  (∀ e, match h e with Some k => blind k | None => True end) →
  blind (try_except m h).
Proof.
  intros Hm Hh t w. unfold try_except. rewrite Hm.
  destruct (m w) as [[a|e] w1]; cbn; [done|].
  specialize (Hh e). destruct (h e) as [k|]; [apply Hh|done].
Qed.

Lemma blind_tg c : blind (tg c).
Proof. intros t w. unfold tg. cbn. by destruct (tg_faults w) as [|[e|] fs]. Qed.

Lemma blind_send_message chat text kb mode : blind (send_message chat text kb mode).
Proof.
  intros t w. unfold send_message. cbn. by destruct (tg_faults w) as [|[e|] fs].
Qed.

Lemma blind_get_data chat : blind (get_data chat).
Proof. by intros t w. Qed.

Lemma blind_update_data chat d : blind (update_data chat d).
Proof. by intros t w. Qed.

Lemma blind_set_state chat s : blind (set_state chat s).
Proof. by intros t w. Qed.

Lemma blind_admin_send obj text kb : blind (_send obj text kb).
Proof.
  unfold _send, _cleanup_prev, delete_message.
  apply blind_try_except.
  - apply blind_bind.
    + apply blind_bind; [apply blind_get_data|]. intros d.
      destruct (StudentHandlers.stored_msg_id d) as [[s|m|l]|]; try apply blind_mret.
      apply blind_try_except; [apply blind_tg|]. intros e. apply blind_mret.
    + intros _. apply blind_bind; [apply blind_send_message|].
      intros m. apply blind_update_data.
  - intros e. apply blind_try_except.
    + apply blind_bind; [apply blind_send_message|]. intros; apply blind_mret.
    + intros e'. apply blind_mret.
Qed.

Lemma blind_show_students cb group : blind (show_students cb group).
Proof.
  unfold show_students.
  apply blind_bind; [by intros t w|]. intros rows.
  apply blind_bind; [apply blind_update_data|]. intros _.
  apply blind_bind; [apply blind_set_state|]. intros _.
  apply blind_admin_send.
Qed.

Lemma blind_py_index {A} (l : list A) i : blind (py_index l i).
Proof.
  unfold py_index. destruct (_ || _); [apply blind_raise|].
  destruct (l !! _); [apply blind_ret|apply blind_raise].
Qed.

(** X16. Student data is listed and deleted without a look at the session.
    The handlers that list the groups, open a group or go back to it, delete
    a student, delete a group and go back to the main panel never read the
    session table: under any other table, a missing one or one whose token has
    expired included, each returns the same and does the same to the rest of
    the world, and each leaves the table it runs under as it is. *)
Theorem student_data_handlers_skip_the_guard (h : CallbackQuery → M unit)
    (cb : CallbackQuery) (t : option (list (string * Z))) (w : World) :
  h ∈ unguarded →
  h cb (with_admin_sessions t w)
  = (fst (h cb w), with_admin_sessions t (snd (h cb w)))
  ∧ admin_sessions (snd (h cb w)) = admin_sessions w.
Proof.
  intros Hh.
  assert (blind (h cb)) as Hb.
  { unfold unguarded in Hh.
    repeat (apply elem_of_cons in Hh as [->|Hh]); [..|by apply elem_of_nil in Hh].
    - unfold back_groups.
      apply blind_bind; [by intros ? ?|]. intros rows.
      apply blind_bind; [apply blind_set_state|]. intros _.
      apply blind_bind; [apply blind_admin_send|]. intros _. apply blind_tg.
    - unfold admin_group_open.
      apply blind_bind; [apply blind_show_students|]. intros _. apply blind_tg.
    - unfold back_students.
      apply blind_bind; [apply blind_show_students|]. intros _. apply blind_tg.
    - unfold del_student, bag_str, bag_int.
      apply blind_bind; [apply blind_get_data|]. intros d.
      destruct (d !! "cur_group") as [g|]; [|apply blind_tg].
      destruct (d !! "del_student_idx") as [i|]; [|apply blind_tg].
      apply blind_bind; [destruct g; first [apply blind_ret|apply blind_raise]|].
      intros group. apply blind_bind; [by intros ? ?|]. intros rows.
      apply blind_bind; [destruct i; first [apply blind_ret|apply blind_raise]|].
      intros idx. apply blind_bind; [|intros _; apply blind_tg].
      destruct (idx <? _); [|apply blind_tg].
      apply blind_bind; [apply blind_py_index|]. intros target.
      apply blind_bind; [by intros ? ?|]. intros _. apply blind_show_students.
    - unfold del_group.
      apply blind_bind; [by intros ? ?|]. intros _.
      apply blind_bind; [apply blind_set_state|]. intros _.
      apply blind_bind; [by intros ? ?|]. intros rows.
      apply blind_bind; [apply blind_admin_send|]. intros _. apply blind_tg.
    - unfold back_to_main, show_main.
      apply blind_bind; [|intros _; apply blind_tg].
      apply blind_bind; [apply blind_set_state|]. intros _. apply blind_admin_send. }
  split; [apply Hb|].
  specialize (Hb (admin_sessions w) w).
  replace (with_admin_sessions (admin_sessions w) w) with w in Hb by (by destruct w).
  rewrite Hb at 1. reflexivity.
Qed.

Lemma admin_send_frame obj text kb w :
  ∃ w', _send obj text kb w = (Ret tt, w')
        ∧ same_but_rendering (chat_of obj) w w'.
Proof.
  assert (Hfallback : ∀ w1, same_but_rendering (chat_of obj) w w1 →
    ∃ w', try_except
            (send_message (chat_of obj) text (Some kb) Html;; ret tt)
            (λ _, Some (ret tt)) w1 = (Ret tt, w')
          ∧ same_but_rendering (chat_of obj) w w').
  { intros w1 Hw1. munfold.
    destruct (send_message_shape (chat_of obj) text (Some kb) Html w1)
      as (r & f & n & ev & ->).
    destruct r; eauto using same_but_rendering_with_tg. }
  assert (Hsend : ∀ w1, same_but_rendering (chat_of obj) w w1 →
    ∃ w', try_except
            (m ← send_message (chat_of obj) text (Some kb) HtmlNoPreview;
             update_data (chat_of obj) {[ BOT_MSG_KEY := VInt m ]})
            (λ _, Some
               (try_except
                  (send_message (chat_of obj) text (Some kb) Html;; ret tt)
                  (λ _, Some (ret tt)))) w1 = (Ret tt, w')
          ∧ same_but_rendering (chat_of obj) w w').
  { intros w1 Hw1. unfold try_except at 1. unfold update_data. munfold.
    destruct (send_message_shape (chat_of obj) text (Some kb) HtmlNoPreview w1)
      as (r & f & n & ev & ->).
    destruct r as [m|e].
    - eexists. split; [reflexivity|].
      by apply same_but_rendering_stored, same_but_rendering_with_tg.
    - apply Hfallback. by apply same_but_rendering_with_tg. }
  unfold _send, _cleanup_prev, get_data.
  destruct (StudentHandlers.stored_msg_id (sess_data (session_of w (chat_of obj))))
    as [[s|m|l]|] eqn:E.
  - destruct (Hsend _ (same_but_rendering_refl (chat_of obj) w)) as (w' & Hw' & Hfr).
    exists w'. split; [|done]. rewrite <- Hw'.
    unfold try_except. munfold. by rewrite E.
  - unfold delete_message.
    destruct (tg_shape (DeleteMessage (chat_of obj) m) w) as (r & f & ev & Etg).
    specialize (Hsend _ (same_but_rendering_with_tg _ f (next_msg_id w) ev _ _
                           (same_but_rendering_refl (chat_of obj) w))).
    destruct Hsend as (w' & Hw' & Hfr). exists w'. split; [|done].
    rewrite <- Hw'. unfold try_except. munfold. rewrite E. cbn. rewrite Etg.
    by destruct r as [[]|e].
  - destruct (Hsend _ (same_but_rendering_refl (chat_of obj) w)) as (w' & Hw' & Hfr).
    exists w'. split; [|done]. rewrite <- Hw'.
    unfold try_except. munfold. by rewrite E.
  - destruct (Hsend _ (same_but_rendering_refl (chat_of obj) w)) as (w' & Hw' & Hfr).
    exists w'. split; [|done]. rewrite <- Hw'.
    unfold try_except. munfold. by rewrite E.
Qed.

(** X17. Rendering never raises.  Both [_send] helpers, of the wizard and of
    the admin menu, return in every world, whatever the transport does to
    the delete and to the two sends, and what they change for the chat is
    at most the stored message id, the transport and the trace: the state,
    every other key of the bag, the tables and the clock are as before. *)
Theorem send_never_raises (obj : TgObj) (text : string) (kb : Keyboard) (w : World) :
  (∃ w', StudentHandlers._send obj text kb w = (Ret tt, w')
         ∧ same_but_rendering (StudentHandlers.chat_of obj) w w')
  ∧ (∃ w', _send obj text kb w = (Ret tt, w')
           ∧ same_but_rendering (chat_of obj) w w').
Proof. split; [apply send_frame|apply admin_send_frame]. Qed.

(** X18. The guard without a token.  For the four handlers that call the
    guard on a button press: when the session table is empty, all that
    happens is the alert that asks to log in again, and the FSM storage, the
    students table and the server are left alone; when the table does not
    exist yet (nobody has logged in since the database was created), the
    read of the token raises [OperationalError] and nothing is done. *)
Theorem guard_without_token (h : CallbackQuery → M unit) (cb : CallbackQuery)
    (w : World) :
  h ∈ guarded →
  (admin_sessions w = Some [] →
   let w' := snd (h cb w) in
   fsm w' = fsm w
   ∧ students w' = students w
   ∧ http_script w' = http_script w
   ∧ admin_sessions w' = Some []
   ∧ ∃ r, trace w' = trace w ++ [Tg (AnswerCallback (Some relogin_text) true) r])
  ∧ (admin_sessions w = None → h cb w = (Raise OperationalError, w)).
Proof.
  intros Hh. unfold guarded in Hh.
  repeat (apply elem_of_cons in Hh as [->|Hh]); [..|by apply elem_of_nil in Hh];
    unfold admin_groups, admin_courses, back_courses, show_courses, add_course_start,
      _ensure_admin, AdminSessionRepo.get_cookie, cb_message_chat_id;
    (split; intros Ha; munfold; rewrite Ha; cbn; [|reflexivity]);
    destruct (alert_only (Some relogin_text) w) as (r & ->);
    destruct r as [[]|e]; cbn; eauto 10.
Qed.

(** X19. A token is good for an hour.  After [save_cookie] at clock [t0],
    the guard lets a button press through exactly while the clock is before
    [t0] + 3600 seconds, and then changes nothing; from that instant on it
    does not return [True] and empties the table. *)
Theorem token_is_good_for_an_hour (cb : CallbackQuery) (w0 w : World)
    (rows : list (string * Z)) (cookie : string) :
  admin_sessions w0 = Some rows →
  admin_sessions w = admin_sessions (snd (AdminSessionRepo.save_cookie cookie w0)) →
  (clock w < clock w0 + 3600 * 1000000 →
   _ensure_admin (OfCallback cb) w = (Ret true, w))
  ∧ (clock w0 + 3600 * 1000000 ≤ clock w →
     fst (_ensure_admin (OfCallback cb) w) ≠ Ret true
     ∧ admin_sessions (snd (_ensure_admin (OfCallback cb) w)) = Some []).
Proof.
  intros Hrows Hw.
  assert (admin_sessions w = Some [(cookie, clock w0 + 3600 * 1000000)]) as Ha.
  { rewrite Hw. unfold AdminSessionRepo.save_cookie, AdminSessionRepo.save_cookie_ttl,
      utcnow. mrun. unfold AdminSessionRepo.execute. rewrite Hrows. reflexivity. }
  split.
  - intros Hlt. unfold _ensure_admin, AdminSessionRepo.get_cookie, utcnow.
    munfold. rewrite Ha. cbn.
    by rewrite (proj2 (Z.leb_gt _ _) Hlt).
  - intros Hle. rewrite (ensure_admin_expired _ _ _ _ _ Ha Hle).
    unfold tg. cbn. by destruct (tg_faults w) as [|[e|] fs].
Qed.

(** X20. A logout that does not reach the server keeps the token.  If the
    logout request fails (the server hangs up or the client fails
    otherwise), [admin_logout] raises before it purges: the session table
    still holds the token, the menu message is not deleted and the button is
    not answered. *)
Theorem failed_logout_keeps_the_token (cb : CallbackQuery) (w : World)
    (cookie : string) (expires : Z) (rows : list (string * Z))
    (o : HttpOutcome) (rest : list HttpOutcome) :
  admin_sessions w = Some ((cookie, expires) :: rows) →
  http_script w = o :: rest →
  o = ServerDisconnected ∨ o = ClientFailure →
  admin_logout cb w
  = (Raise ClientError, with_http rest (Http (PostAdminLogout cookie) o) w).
Proof.
  intros Ha Hs Ho. unfold admin_logout, AdminSessionRepo.get_cookie, AdminAPI.logout.
  munfold. rewrite Ha. cbn. rewrite (http_run _ _ _ _ Hs).
  by destruct Ho as [-> | ->].
Qed.

(** X21. Cancel outside a confirmation ends the conversation.  In any state
    but CONFIRM (during the login, in a menu, or with no state) the cancel
    button empties the session of the chat, whatever the transport does,
    and touches neither the session table, so the admin stays logged in,
    nor the students table nor the server. *)
Theorem admin_cancel_outside_confirm_clears (cb : CallbackQuery) (w : World) :
  let chat := msg_chat (message cb) in
  let w' := snd (admin_cancel cb w) in
  sess_state (session_of w chat) ≠ Some (SMenu AdminMenu.CONFIRM) →
  session_of w' chat = empty_session
  ∧ admin_sessions w' = admin_sessions w
  ∧ students w' = students w
  ∧ http_script w' = http_script w.
Proof.
  intros chat w' Hst. subst w'. unfold admin_cancel, get_state. munfold. fold chat.
  rewrite bool_decide_eq_false_2 by done.
  unfold clear, msg_delete, delete_message, cb_answer. munfold.
  match goal with
  | |- context [tg ?c ?w0] => destruct (tg_shape c w0) as (r & fs & ev & ->)
  end.
  destruct r as [[]|e]; cbn; autorewrite with world; [|done].
  match goal with
  | |- context [tg ?c ?w0] => destruct (tg_shape c w0) as (r & fs' & ev' & ->)
  end.
  cbn. by autorewrite with world.
Qed.

(** X22. A deleted course is never confirmed.  When the server answers the
    delete request with 200, [do_course_del] goes on to list the courses
    through the gateway whose HTTP session has been closed, which raises:
    the delete request is all that happened, the conversation keeps its
    state, no list is rendered and the button is not answered. *)
Theorem course_delete_ends_on_a_closed_session (cb : CallbackQuery) (w : World)
    (cookie : string) (expires : Z) (rows : list (string * Z))
    (c : option string) (body : Body) (raw : string) (rest : list HttpOutcome) :
  admin_sessions w = Some ((cookie, expires) :: rows) →
  http_script w = Response 200 c body raw :: rest →
  do_course_del cb w
  = (Raise RuntimeError,
     with_http rest
       (Http (DeleteCourse cookie (after_prefix "adm_course_del_yes_" (data cb)))
          (Response 200 c body raw)) w).
Proof.
  intros Ha Hs. unfold do_course_del, AdminSessionRepo.get_cookie,
    AdminAPI.delete_course. munfold. rewrite Ha. cbn.
  by rewrite (http_run _ _ _ _ Hs).
Qed.

(** X23. An uploaded course is never confirmed either.  With a token that
    has not expired, a file that downloads and an upload the server answers
    with 200, [upload_new_course] raises on the closed HTTP session: the
    file was fetched and uploaded, but the conversation keeps its state, no
    list is rendered and the message with the file is not deleted. *)
Theorem course_upload_ends_on_a_closed_session (msg : Message) (w : World)
    (cookie : string) (expires : Z) (rows : list (string * Z)) (doc : Document)
    (c1 c2 : option string) (b1 b2 : Body) (r1 r2 : string)
    (rest : list HttpOutcome) :
  admin_sessions w = Some ((cookie, expires) :: rows) →
  clock w < expires →
  document msg = Some doc →
  tg_faults w = [] →
  http_script w = Response 200 c1 b1 r1 :: Response 200 c2 b2 r2 :: rest →
  ∃ w', upload_new_course msg w = (Raise RuntimeError, w')
        ∧ fsm w' = fsm w
        ∧ trace w'
          = trace w ++ [Tg (GetFile (file_id doc)) Done;
                        Http (GetTelegramFile (file_path doc)) (Response 200 c1 b1 r1);
                        Http (PostCourseUpload cookie (file_name doc))
                          (Response 200 c2 b2 r2)].
Proof.
  intros Ha Hc Hd Hf Hs. unfold upload_new_course, _ensure_admin,
    AdminSessionRepo.get_cookie, utcnow, AdminAPI.upload_course. munfold.
  rewrite Ha. cbn. rewrite (proj2 (Z.leb_gt _ _) Hc). cbn. rewrite Ha, Hd. cbn.
  rewrite tg_run by done. cbn.
  eexists. split; [|split].
  - unfold http. cbn. rewrite Hs. cbn. reflexivity.
  - reflexivity.
  - cbn. by rewrite <- !app_assoc.
Qed.

(** X24. The upload handler cannot go through the guard without a token
    that holds.  It hands the guard the message itself, and the guard's log
    line for a missing or expired token reads the chat through the
    [message] attribute of a callback: when the table is empty or its token
    has expired, the handler raises [AttributeError] before anything is
    purged, answered or sent. *)
Theorem upload_guard_raises_on_a_message (msg : Message) (w : World) :
  admin_sessions w = Some []
  ∨ (∃ cookie expires rows,
       admin_sessions w = Some ((cookie, expires) :: rows) ∧ expires ≤ clock w) →
  upload_new_course msg w = (Raise AttributeError, w).
Proof.
  intros [Ha | (cookie & expires & rows & Ha & He)].
  - unfold upload_new_course, _ensure_admin, AdminSessionRepo.get_cookie.
    munfold. by rewrite Ha.
  - by eapply upload_new_course_guard_raises.
Qed.

Lemma str_le_total : Total str_le.
Proof.
  intros a b. unfold str_le.
  destruct (String.leb_total a b) as [E|E]; rewrite E; [by left|by right].
Qed.

Lemma elem_of_group_codes rows g :
  g ∈ group_codes rows ↔ ∃ r, r ∈ rows ∧ group_code r = g.
Proof.
  unfold group_codes, sorted.
  rewrite merge_sort_Permutation, elem_of_remove_dups, list_elem_of_fmap.
  split; intros (r & ? & ?); eauto.
Qed.

(** X25. The list of groups names every group once, in order.  The codes
    on the groups keyboard are sorted, no code comes twice, and a code is
    listed exactly when some row of the table has it. *)
Theorem group_codes_lists_each_group_once (rows : list Student) :
  Sorted str_le (group_codes rows)
  ∧ NoDup (group_codes rows)
  ∧ ∀ g, g ∈ group_codes rows ↔ ∃ r, r ∈ rows ∧ group_code r = g.
Proof.
  split; [|split].
  - unfold group_codes, sorted. apply (Sorted_merge_sort str_le (Total0 := str_le_total)).
  - unfold group_codes, sorted. rewrite merge_sort_Permutation.
    apply NoDup_remove_dups.
  - apply elem_of_group_codes.
Qed.

Lemma elem_of_filter_rows (p : Student → bool) rows r :
  r ∈ List.filter p rows ↔ r ∈ rows ∧ p r = true.
Proof. rewrite !list_elem_of_In. apply List.filter_In. Qed.

(** X26. Deleting a group removes its rows and nothing else.  In every
    world and whatever the transport does, after [del_group] the students
    table is the table before without the rows of the group named in the
    button, in the same order; the group is no longer among the codes the
    keyboard lists; and the conversation is in GROUPS. *)
Theorem del_group_removes_the_group (cb : CallbackQuery) (w : World) :
  let chat := msg_chat (message cb) in
  let group := str_remove "adm_del_group_yes_" (data cb) in
  let w' := snd (del_group cb w) in
  students w'
  = List.filter (λ r, negb (bool_decide (group_code r = group))) (students w)
  ∧ (∀ r, r ∈ students w' ↔ r ∈ students w ∧ group_code r ≠ group)
  ∧ (group ∉ group_codes (students w'))
  ∧ sess_state (session_of w' chat) = Some (SMenu AdminMenu.GROUPS).
Proof.
  intros chat group w'.
  assert (students w'
          = List.filter (λ r, negb (bool_decide (group_code r = group))) (students w)
          ∧ sess_state (session_of w' chat) = Some (SMenu AdminMenu.GROUPS)) as [Hs Hst].
  { subst w'. unfold del_group, StudentRepository.delete_group, set_state,
      StudentRepository.all. munfold. fold chat group.
    match goal with
    | |- context [_send ?o ?t ?k ?w0] =>
        destruct (admin_send_frame o t k w0) as (w1 & -> & Hs1 & _ & Hr1 & _)
    end.
    cbn in Hs1, Hr1. fold chat in Hs1. autorewrite with world in Hs1. cbn in Hs1.
    unfold cb_answer.
    destruct (tg_shape (AnswerCallback None false) w1) as (r & fs & ev & ->).
    destruct r; cbn; by autorewrite with world. }
  assert (∀ r, r ∈ students w' ↔ r ∈ students w ∧ group_code r ≠ group) as Hin.
  { intros r. rewrite Hs, elem_of_filter_rows, negb_true_iff, bool_decide_eq_false.
    done. }
  split; [done|]. split; [done|]. split; [|done].
  rewrite elem_of_group_codes. intros (r & Hr & Hg). by apply Hin in Hr as [_ ?].
Qed.

(** X27. A student is deleted by position in the table.  With a group and
    an index in the bag, [del_student] takes the rows of the group in the
    order of the table and deletes by its id the row at the index; the list
    of names in the bag is not consulted.  Afterwards the conversation is in
    STUDENTS and the bag holds the names of the rows left in the group.  An
    index past the last row deletes nothing. *)
Theorem del_student_deletes_by_table_position (cb : CallbackQuery) (w : World)
    (group : string) (i : nat) :
  let chat := msg_chat (message cb) in
  let rows := List.filter (λ r, bool_decide (group_code r = group)) (students w) in
  let w' := snd (del_student cb w) in
  sess_data (session_of w chat) !! "cur_group" = Some (VStr group) →
  sess_data (session_of w chat) !! "del_student_idx" = Some (VInt (Z.of_nat i)) →
  (∀ target, rows !! i = Some target →
     students w'
     = List.filter (λ r, negb (bool_decide (id r = id target))) (students w)
     ∧ sess_state (session_of w' chat) = Some (SMenu AdminMenu.STUDENTS)
     ∧ sess_data (session_of w' chat) !! "students"
       = Some (VStrs (sorted (fio <$> List.filter
                                         (λ r, bool_decide (group_code r = group))
                                         (students w')))))
  ∧ ((length rows ≤ i)%nat → students w' = students w).
Proof.
  intros chat rows w' Hg Hi. subst w'.
  unfold del_student, get_data, bag_str, bag_int, StudentRepository.by_group.
  munfold. fold chat. rewrite Hg, Hi. cbn. fold rows. split.
  - intros target Ht.
    pose proof (lookup_lt_Some _ _ _ Ht) as Hlt.
    assert ((Z.of_nat i <? Z.of_nat (length rows)) = true) as E1
      by (apply Z.ltb_lt; lia).
    assert ((Z.of_nat i <? 0) = false) as E2 by (apply Z.ltb_ge; lia).
    assert ((Z.of_nat (length rows) <=? Z.of_nat i) = false) as E3
      by (apply Z.leb_gt; lia).
    rewrite E1. unfold py_index. cbv zeta. rewrite !E2, E3. cbn [orb].
    rewrite Nat2Z.id, Ht. munfold.
    unfold StudentRepository.delete_student, show_students,
      StudentRepository.by_group, update_data, set_state. munfold.
    cbn [students with_students].
    match goal with
    | |- context [_send ?o ?t ?k ?w0] =>
        destruct (admin_send_frame o t k w0) as (w1 & -> & Hs1 & Hd1 & Hr1 & _)
    end.
    cbn in Hs1, Hd1, Hr1. fold chat in Hs1, Hd1.
    autorewrite with world in Hs1, Hd1. cbn in Hs1, Hd1.
    assert (sess_data (session_of w1 chat) !! "students"
            = Some (VStrs (sorted (fio <$> List.filter
                                      (λ r, bool_decide (group_code r = group))
                                      (students w1))))) as Hd.
    { rewrite Hd1 by done. rewrite Hr1.
      apply lookup_union_Some_l. rewrite lookup_insert_ne by done.
      apply lookup_insert_eq. }
    unfold cb_answer.
    destruct (tg_shape (AnswerCallback None false) w1) as (r & fs & ev & ->).
    destruct r; cbn; autorewrite with world; rewrite <- Hr1 at 1; done.
  - intros Hle.
    assert ((Z.of_nat i <? Z.of_nat (length rows)) = false) as E1
      by (apply Z.ltb_ge; lia).
    rewrite E1.
    unfold cb_answer.
    match goal with
    | |- context [tg ?c ?w0] => destruct (tg_shape c w0) as (r & fs & ev & ->)
    end.
    destruct r as [[]|e]; cbn; [|done].
    match goal with
    | |- context [tg ?c ?w0] => destruct (tg_shape c w0) as (r & fs' & ev' & ->)
    end.
    done.
Qed.

Lemma admin_entry_run msg w :
  tg_faults w = [] →
  ∃ w', admin_entry msg w = (Ret tt, w')
        ∧ sess_state (session_of w' (msg_chat msg)) = Some (SLogin AdminLogin.LOGIN)
        ∧ (∀ k, k ≠ BOT_MSG_KEY → sess_data (session_of w' (msg_chat msg)) !! k = None)
        ∧ tg_faults w' = []
        ∧ http_script w' = http_script w
        ∧ admin_sessions w' = admin_sessions w
        ∧ clock w' = clock w.
Proof.
  intros Hf. unfold admin_entry, msg_delete, delete_message, clear, set_state.
  munfold. rewrite tg_run by done. mrun.
  rewrite admin_send_run by done. eexists. split; [reflexivity|].
  rewrite state_rendered. autorewrite with world. cbn. split; [done|].
  split; [|done]. intros k Hk. rewrite data_rendered by done.
  by autorewrite with world.
Qed.

Lemma admin_login_step_run msg w t :
  text msg = Some t →
  tg_faults w = [] →
  ∃ w', admin_login_step msg w = (Ret tt, w')
        ∧ sess_state (session_of w' (msg_chat msg)) = Some (SLogin AdminLogin.PASSWORD)
        ∧ sess_data (session_of w' (msg_chat msg)) !! "login" = Some (VStr (str_strip t))
        ∧ tg_faults w' = []
        ∧ http_script w' = http_script w
        ∧ admin_sessions w' = admin_sessions w
        ∧ clock w' = clock w.
Proof.
  intros Ht Hf. unfold admin_login_step, msg_delete, delete_message, stripped_text,
    update_data, set_state.
  munfold. rewrite tg_run by done. rewrite Ht. mrun.
  rewrite admin_send_run by done. eexists. split; [reflexivity|].
  rewrite state_rendered, data_rendered by done. autorewrite with world. cbn.
  split; [done|]. split; [|done]. apply lookup_union_Some_l, lookup_insert_eq.
Qed.

Lemma admin_password_step_run msg w login pwd o rest cookie :
  sess_data (session_of w (msg_chat msg)) !! "login" = Some login →
  text msg = Some pwd →
  tg_faults w = [] →
  http_script w = o :: rest →
  AdminAPI.login_result o = inr cookie →
  ∃ w', admin_password_step msg w = (Ret tt, w')
        ∧ Http (PostAdminLogin login (str_strip pwd)) o ∈ trace w'
        ∧ http_script w' = rest
        ∧ sess_state (session_of w' (msg_chat msg))
          = (if accepted cookie then Some (SMenu AdminMenu.MAIN)
             else sess_state (session_of w (msg_chat msg)))
        ∧ admin_sessions w'
          = (if accepted cookie
             then Some [(default "" cookie, clock w + 3600 * 1000000)]
             else admin_sessions w).
Proof.
  intros Hl Ht Hf Hs Ho.
  unfold admin_password_step, msg_delete, delete_message, get_data, getitem,
    stripped_text, AdminAPI.login.
  munfold. rewrite tg_run by done. mrun. rewrite Hl, Ht. mrun.
  erewrite http_run by (cbn; exact Hs). rewrite Ho. mrun.
  assert (∀ (tr : list Event) ev (evs : list Event),
            ev ∈ ((tr ++ [ev]) ++ evs)) as Hin.
  { intros tr ev evs. apply elem_of_app. left. apply elem_of_app. right.
    by apply list_elem_of_singleton. }
  assert (Hrej : accepted cookie = false →
            ∃ w', _send (OfMessage msg) bad_credentials_text login_back_kb
                    (with_http rest (Http (PostAdminLogin login (str_strip pwd)) o)
                       (with_tg [] (next_msg_id w)
                          (Tg (DeleteMessage (msg_chat msg) (message_id msg)) Done) w))
                  = (Ret tt, w')
                  ∧ Http (PostAdminLogin login (str_strip pwd)) o ∈ trace w'
                  ∧ http_script w' = rest
                  ∧ sess_state (session_of w' (msg_chat msg))
                    = (if accepted cookie then Some (SMenu AdminMenu.MAIN)
                       else sess_state (session_of w (msg_chat msg)))
                  ∧ admin_sessions w'
                    = (if accepted cookie
                       then Some [(default "" cookie, clock w + 3600 * 1000000)]
                       else admin_sessions w)).
  { intros ->. rewrite admin_send_run by done. eexists. split; [reflexivity|].
    rewrite state_rendered. unfold rendered. cbn. autorewrite with world.
    split; [apply Hin|done]. }
  destruct cookie as [c|]; [destruct (String.eqb c "") eqn:Ec|].
  - apply Hrej. cbn. by rewrite Ec.
  - unfold AdminSessionRepo.ensure_table, AdminSessionRepo.save_cookie,
      AdminSessionRepo.save_cookie_ttl, AdminSessionRepo.execute, utcnow, set_state.
    mrun. unfold accepted. rewrite Ec. cbn [negb default].
    destruct (admin_sessions w) as [rows|] eqn:Ea; mrun;
      (rewrite admin_send_run by done; eexists; split; [reflexivity|];
       rewrite state_rendered; unfold rendered; cbn; autorewrite with world;
       (split; [apply Hin|done])).
  - by apply Hrej.
Qed.

(** X28. The login conversation sends what was typed.  With a transport
    that works, [/admin] followed by two texts makes exactly one request:
    a login with the first text stripped as the login and the second text
    stripped as the password.  If it brings a non-empty cookie the
    conversation ends in MAIN with that cookie as the only token, good for
    3600 seconds; if not it stays in PASSWORD and the session table is as
    before. *)
Theorem login_conversation_sends_what_was_typed (m0 m1 m2 : Message) (w : World)
    (t1 t2 : string) (o : HttpOutcome) (rest : list HttpOutcome)
    (cookie : option string) :
  let chat := msg_chat m2 in
  msg_chat m0 = chat →
  msg_chat m1 = chat →
  text m1 = Some t1 →
  text m2 = Some t2 →
  tg_faults w = [] →
  http_script w = o :: rest →
  AdminAPI.login_result o = inr cookie →
  ∃ w', (admin_entry m0;; admin_login_step m1;; admin_password_step m2) w = (Ret tt, w')
        ∧ Http (PostAdminLogin (VStr (str_strip t1)) (str_strip t2)) o ∈ trace w'
        ∧ http_script w' = rest
        ∧ sess_state (session_of w' chat)
          = Some (if accepted cookie then SMenu AdminMenu.MAIN
                  else SLogin AdminLogin.PASSWORD)
        ∧ admin_sessions w'
          = (if accepted cookie
             then Some [(default "" cookie, clock w + 3600 * 1000000)]
             else admin_sessions w).
Proof.
  intros chat E0 E1 T1 T2 Hf Hs Ho.
  destruct (admin_entry_run m0 w Hf) as (w1 & R1 & _ & _ & F1 & S1 & A1 & C1).
  destruct (admin_login_step_run m1 w1 t1 T1 F1) as (w2 & R2 & St2 & D2 & F2 & S2 & A2 & C2).
  rewrite E1 in St2, D2.
  assert (http_script w2 = o :: rest) as Hs2 by congruence.
  destruct (admin_password_step_run m2 w2 _ t2 o rest cookie D2 T2 F2 Hs2 Ho)
    as (w3 & R3 & Hin & S3 & St3 & A3).
  exists w3. split; [munfold; by rewrite R1, R2, R3|].
  split; [done|]. split; [done|]. fold chat in St3. rewrite St3, A3, St2, A2, A1, C2, C1.
  by destruct (accepted cookie).
Qed.

(** X29. A text in EDIT goes back to the courses without the guard.  A
    message that is no document, sent while a course file is awaited, moves
    the conversation to COURSES before the token is read.  With an empty
    session table the admin panel is rendered all the same, in state
    COURSES; with a token, expired or not, the list of courses is requested
    with it and the session table is left as it is. *)
Theorem cancel_upload_skips_the_guard (msg : Message) (w : World) :
  let chat := msg_chat msg in
  tg_faults w = [] →
  (admin_sessions w = Some [] →
   ∃ w', cancel_course_upload msg w = (Ret tt, w')
         ∧ sess_state (session_of w' chat) = Some (SMenu AdminMenu.COURSES)
         ∧ last (trace w')
           = Some (Tg (SendMessage chat panel_text (Some admin_main_kb) HtmlNoPreview)
                     (SentAs (next_msg_id w))))
  ∧ (∀ cookie expires rows,
       admin_sessions w = Some ((cookie, expires) :: rows) →
       let w' := snd (cancel_course_upload msg w) in
       admin_sessions w' = admin_sessions w
       ∧ sess_state (session_of w' chat) = Some (SMenu AdminMenu.COURSES)
       ∧ Http (GetAdminCourses (AdminAPI.cookie_jar cookie)) (outcome_at 0 w)
         ∈ trace w').
Proof.
  intros chat Hf. split.
  - intros Ha. unfold cancel_course_upload, msg_delete, delete_message, set_state,
      AdminSessionRepo.get_cookie. munfold. rewrite tg_run by done. mrun.
    rewrite Ha. cbn. rewrite admin_send_run by done.
    eexists. split; [reflexivity|]. rewrite state_rendered, last_rendered.
    by autorewrite with world.
  - intros cookie expires rows Ha w'. subst w'.
    unfold cancel_course_upload, msg_delete, delete_message, set_state,
      AdminSessionRepo.get_cookie, AdminAPI.list_courses. munfold.
    rewrite tg_run by done. mrun. rewrite Ha. cbn. rewrite http_at.
    change (outcome_at 0 (with_fsm ?f (with_tg ?a ?b ?c w))) with (outcome_at 0 w).
    assert (∀ (tr : list Event) ev (evs : list Event),
              ev ∈ ((tr ++ [ev]) ++ evs)) as Hin.
    { intros tr ev evs. apply elem_of_app. left. apply elem_of_app. right.
      by apply list_elem_of_singleton. }
    assert (∀ (tr : list Event) ev, ev ∈ (tr ++ [ev])) as Hin'.
    { intros tr ev. apply elem_of_app. right. by apply list_elem_of_singleton. }
    destruct (outcome_at 0 w) as [status c body raw| |];
      try (cbn; autorewrite with world; by eauto).
    destruct body; try (cbn; autorewrite with world; by eauto).
    unfold courses_kb. destruct (courses_kb_rows l) as [e|rs];
      [cbn; autorewrite with world; by eauto|].
    munfold. rewrite admin_send_run by done. cbn [snd].
    rewrite state_rendered. unfold rendered. cbn. autorewrite with world.
    split; [done|]. split; [done|]. apply Hin.
Qed.

(** X30. A group code comes back whole from its button.  The data of a
    group button is the prefix and the code; the handlers that open a group
    and go back to it take what follows the second, or the third,
    underscore, so a code that has underscores of its own is recovered in
    full and the rows listed are those of the group the button names. *)
Theorem group_buttons_round_trip (cb : CallbackQuery) (g : string) :
  drop_fields 2 ("adm_group_" +:+ g) = g
  ∧ drop_fields 3 ("adm_back_students_" +:+ g) = g
  ∧ (data cb = "adm_group_" +:+ g →
     admin_group_open cb = (show_students cb g;; cb_answer None false))
  ∧ (data cb = "adm_back_students_" +:+ g →
     back_students cb = (show_students cb g;; cb_answer None false)).
Proof.
  split; [reflexivity|]. split; [reflexivity|].
  split; intros E; unfold admin_group_open, back_students; by rewrite E.
Qed.

End admin_menu.

(** ** The statements on concrete conversations *)

Section examples.
Import Examples.
#[local] Existing Instance AsciiRuntime.runtime.

(** C1 as stated does not hold: after a rejected password the state is
    still PASSWORD, not LOGIN. *)
Lemma failed_login_not_back_to_LOGIN :
  AdminAPI.login_result unauthorized = inr None
  ∧ sess_state (session_of world_password 7) = Some (SLogin AdminLogin.PASSWORD)
  ∧ sess_state
      (session_of (snd (AdminHandlers.admin_password_step msg_guess world_password)) 7)
    = Some (SLogin AdminLogin.PASSWORD)
  ∧ sess_state
      (session_of (snd (AdminHandlers.admin_password_step msg_guess world_password)) 7)
    ≠ Some (SLogin AdminLogin.LOGIN).
Proof.
  split; [reflexivity|]. split; [reflexivity|].
  split; [vm_compute; reflexivity|vm_compute; discriminate].
Qed.

Lemma admin_password_step_outcome_witness :
  sess_state (session_of world_password 7) = Some (SLogin AdminLogin.PASSWORD)
  ∧ ∃ w', AdminHandlers.admin_password_step msg_guess world_password = (Ret tt, w')
          ∧ login_rejected msg_guess world_password w'.
Proof.
  split; [reflexivity|].
  apply (admin_password_step_outcome msg_guess world_password
           (VStr "admin") "guess" unauthorized [] None); reflexivity.
Defined.

(** C2 as stated does not hold: deleting a course under an expired token
    sends the request and leaves the token where it is. *)
Lemma course_delete_ignores_expiry :
  let w' := snd (AdminHandlers.do_course_del cb_course_del world_expired) in
  admin_sessions world_expired = Some [("tok", 100)]
  ∧ 100 ≤ clock world_expired
  ∧ admin_sessions w' = Some [("tok", 100)]
  ∧ trace w'
    = [Http (DeleteCourse "tok" "7") forbidden;
       Tg (AnswerCallback (Some "❌ Ошибка удаления курса") true) Done;
       Tg (AnswerCallback None false) Done].
Proof.
  cbn zeta. split; [reflexivity|]. split; [vm_compute; discriminate|].
  split; vm_compute; reflexivity.
Qed.

Lemma expired_token_aborts_witness :
  admin_sessions world_expired = Some [("tok", 100)]
  ∧ 100 ≤ clock world_expired
  ∧ admin_sessions (snd (AdminHandlers.admin_groups cb_groups world_expired))
    = Some [].
Proof.
  split; [reflexivity|]. split; [vm_compute; discriminate|].
  apply (expired_token_aborts AdminHandlers.admin_groups cb_groups
           world_expired "tok" 100 []);
    [unfold guarded; left|reflexivity|vm_compute; discriminate].
Defined.

Lemma disconnect_polls_again_witness :
  http_script (with_script [ServerDisconnected] fresh) = [ServerDisconnected]
  ∧ CommonHandlers.poll 1 task7 (with_script [ServerDisconnected] fresh)
    = CommonHandlers.poll 0 task7
        (waited task7 ServerDisconnected [] (with_script [ServerDisconnected] fresh))
  ∧ CommonHandlers.poll 1 task7 (with_script [ok (BDict pending_result)] fresh)
    = CommonHandlers.poll 0 task7
        (waited task7 (ok (BDict pending_result)) []
           (with_script [ok (BDict pending_result)] fresh)).
Proof.
  split; [reflexivity|].
  apply (disconnect_polls_again 0 task7 (with_script [ServerDisconnected] fresh)
           (with_script [ok (BDict pending_result)] fresh) [] None pending_result "");
    reflexivity.
Defined.




Lemma course_selection_idempotent_witness :
  CommonHandlers.has_course (ivanov [algo]) algo_dto = true
  ∧ students (snd (CommonHandlers.course_selected cb_course world_enrolled))
    = [ivanov [algo]].
Proof.
  split; [reflexivity|].
  apply (course_selection_idempotent cb_course world_enrolled "course" "5" algo_dto
           (ivanov [algo])); reflexivity.
Defined.

Lemma reg_back_lands_on_predecessor_witness :
  sess_state (session_of (snd (StudentHandlers.reg_back cb_back (world_wizard Reg.NAME))) 7)
  = Some (SReg Reg.SURNAME)
  ∧ sess_data (session_of (snd (StudentHandlers.reg_back cb_back (world_wizard Reg.NAME))) 7)
      !! "Reg:SURNAME"
    = Some (VStr "Ivanov")
  ∧ fsm (snd (StudentHandlers.reg_back cb_back (world_wizard Reg.SURNAME)))
    = fsm (world_wizard Reg.SURNAME).
Proof.
  destruct (reg_back_lands_on_predecessor cb_back (world_wizard Reg.NAME) Reg.NAME
              eq_refl) as (_ & _ & Hback).
  destruct (Hback (or_introl eq_refl)) as [Hstate Hdata].
  split; [exact Hstate|]. split.
  - rewrite Hdata by discriminate. reflexivity.
  - exact (proj2 (proj2 (reg_back_lands_on_predecessor cb_back
                           (world_wizard Reg.SURNAME) Reg.SURNAME eq_refl))).
Defined.

Lemma form_summary_and_patronymic_witness :
  let w := world_wizard Reg.SURNAME in
  let filled :=
    (StudentHandlers.reg_steps (message_in 7 50 (Some " ivanov "));;
     StudentHandlers.reg_steps (message_in 7 51 (Some "ivan"));;
     StudentHandlers.reg_steps (message_in 7 52 (Some "-"));;
     StudentHandlers.reg_steps (message_in 7 53 (Some "4231 "));;
     StudentHandlers.reg_steps (message_in 7 54 (Some "ivanov"))) w in
  StudentHandlers.normalize_fio (str_strip " ivanov ") = "Ivanov"
  ∧ StudentHandlers.normalize_fio (str_strip "-") = "-"
  ∧ fst filled = Ret tt
  ∧ sess_state (session_of (snd filled) 7) = Some (SReg Reg.CONFIRM)
  ∧ (∃ sent,
       last (trace (snd filled))
       = Some (Tg (SendMessage 7
                     ("<b>Ivanov Ivan -</b>" +:+ nl +:+ "Группа: 4231" +:+ nl
                      +:+ "GitHub: ivanov")
                     (Some confirm_kb) Plain) (SentAs sent)))
  ∧ (patronymic <$> students (snd (StudentHandlers.reg_confirm (cb_confirm 7) (snd filled))))
    = [None].
Proof.
  cbn zeta. split; [reflexivity|]. split; [reflexivity|].
  destruct (form_summary_and_patronymic
              (message_in 7 50 (Some " ivanov ")) (message_in 7 51 (Some "ivan"))
              (message_in 7 52 (Some "-")) (message_in 7 53 (Some "4231 "))
              (message_in 7 54 (Some "ivanov")) (cb_confirm 7)
              (world_wizard Reg.SURNAME) " ivanov " "ivan" "-" "4231 " "ivanov")
    as [(w5 & sent & Hrun & Hstate & Hsummary & Hrows & _) _]; try reflexivity.
  rewrite Hrun. cbn [fst snd]. split; [reflexivity|]. split; [exact Hstate|].
  split; [exists sent; exact Hsummary|].
  rewrite Hrows; reflexivity.
Defined.

Lemma admin_sessions_at_most_one_token_witness :
  (AdminSessionRepo.tokens None ≤ 1)%nat
  ∧ Forall (λ t, (AdminSessionRepo.tokens t ≤ 1)%nat)
      (AdminSessionRepo.history
         [AdminSessionRepo.CallEnsureTable; AdminSessionRepo.CallSaveCookie "a" 0;
          AdminSessionRepo.CallSaveCookie "b" 5; AdminSessionRepo.CallClear]
         None).
Proof.
  split; [cbn; lia|].
  apply (admin_sessions_at_most_one_token
           [AdminSessionRepo.CallEnsureTable; AdminSessionRepo.CallSaveCookie "a" 0;
            AdminSessionRepo.CallSaveCookie "b" 5; AdminSessionRepo.CallClear]
           None [] "c" 0).
  cbn. lia.
Defined.

Lemma course_reference_kept_on_abort_witness :
  let w' := snd (CommonHandlers.course_selected cb_course world_unenrolled) in
  CommonHandlers.has_course (ivanov []) algo_dto = false
  ∧ ("4231" ∉ APIClient.strings_result (outcome_at 2 world_unenrolled))
  ∧ List.find (λ r, Z.eqb (chat_id r) 7) (students w')
    = Some (with_course (ivanov []) algo 0)
  ∧ ∃ r, last (trace w')
         = Some (Tg (AnswerCallback (Some "⚠️ Этот курс не для твоей группы") true) r).
Proof.
  cbn zeta.
  assert ("4231" ∉ APIClient.strings_result (outcome_at 2 world_unenrolled)) as Hg.
  { intros Hin. apply list_elem_of_singleton in Hin. discriminate. }
  split; [reflexivity|]. split; [exact Hg|].
  destruct (course_reference_kept_on_abort cb_course world_unenrolled "course" "5"
              algo_dto (ivanov []) registered_result) as (Hrow & Hwrong & _);
    try reflexivity.
  - intros r r' Hr Hr' _. apply list_elem_of_singleton in Hr, Hr'. by subst.
  - by left.
  - split; [exact Hrow|exact (Hwrong Hg)].
Defined.

Lemma registered_chat_cannot_register_again_witness :
  List.find (λ r, Z.eqb (chat_id r) 7) (students world_registered_again)
  = Some (ivanov [])
  ∧ students (snd (StudentHandlers.reg_confirm (cb_confirm 7) world_registered_again))
    = [ivanov []]
  ∧ last (trace (snd (StudentHandlers.reg_confirm (cb_confirm 7) world_registered_again)))
    = Some (Tg (AnswerCallback None false) Done).
Proof.
  destruct (registered_chat_cannot_register_again (cb_confirm 7)
              world_registered_again (ivanov []) eq_refl) as [Hrows Htold].
  split; [reflexivity|]. split; [exact Hrows|].
  rewrite (Htold "Petrov" "Petr" "-" "4231" "petrov");
    [reflexivity|repeat split; reflexivity|reflexivity].
Defined.

Lemma reg_back_outside_the_form_raises_witness :
  sess_state (session_of (world_wizard Reg.CONFIRM) 7) = Some (SReg Reg.CONFIRM)
  ∧ StudentHandlers.reg_back cb_back (world_wizard Reg.CONFIRM)
    = (Raise RuntimeError, world_wizard Reg.CONFIRM).
Proof.
  split; [reflexivity|].
  apply (reg_back_outside_the_form_raises cb_back (world_wizard Reg.CONFIRM)).
  intros s Hs E. vm_compute in E. injection E as <-.
  unfold StudentHandlers.ORDER in Hs.
  repeat (apply elem_of_cons in Hs as [Hs|Hs]; [discriminate|]).
  by apply elem_of_nil in Hs.
Defined.

Lemma back_returns_to_the_answered_step_witness :
  ∃ w', (StudentHandlers.reg_steps (message_in 7 51 (Some "ivan"));;
         StudentHandlers.reg_back cb_back) (world_wizard Reg.NAME)
        = (Ret tt, w')
        ∧ sess_state (session_of w' 7) = Some (SReg Reg.NAME)
        ∧ sess_data (session_of w' 7) !! "Reg:NAME" = Some (VStr "Ivan").
Proof.
  destruct (back_returns_to_the_answered_step (message_in 7 51 (Some "ivan")) cb_back
              (world_wizard Reg.NAME) 1 Reg.NAME Reg.PATRONYMIC "ivan")
    as (w' & Hrun & Hstate & Hdata & _); try reflexivity.
  exists w'. split; [exact Hrun|]. split; [exact Hstate|exact Hdata].
Defined.

Lemma cmd_start_answers_by_registration_witness :
  tg_faults (world_student [] []) = []
  ∧ trace (snd (CommonHandlers.cmd_start msg_start (world_student [] [])))
    = [Tg (DeleteMessage 7 60) Done;
       Tg (SendMessage 7 CommonHandlers.menu_text (Some main_menu_kb) Plain) (SentAs 1)]
  ∧ trace (snd (CommonHandlers.cmd_start msg_start fresh))
    = [Tg (DeleteMessage 7 60) Done;
       Tg (SendMessage 7 CommonHandlers.welcome_text (Some start_kb) Plain) (SentAs 1)].
Proof.
  split; [reflexivity|]. split.
  - exact (proj2 (proj1 (proj2 (proj2 (cmd_start_answers_by_registration msg_start
                                         (world_student [] [])))) eq_refl)).
  - exact (proj2 (proj1 (proj2 (proj2 (cmd_start_answers_by_registration msg_start
                                         fresh))) eq_refl)).
Defined.

Lemma poll_keeps_polling_while_pending_witness :
  let w := with_script [ServerDisconnected; ok (BDict pending_result)] fresh in
  CommonHandlers.poll 2 task7 w
  = (Ret Polling,
     add_trace (rounds task7 [ServerDisconnected; ok (BDict pending_result)]) [] w).
Proof.
  cbn zeta.
  refine (proj1 (poll_keeps_polling_while_pending task7
                   [ServerDisconnected; ok (BDict pending_result)] []
                   (with_script [ServerDisconnected; ok (BDict pending_result)] fresh)
                   eq_refl _)).
  repeat constructor.
  - exists {[ "status" := JStr "pending";
              "message" := JStr APIClient.pending_message ]}.
    split; reflexivity.
  - exists pending_result. split; reflexivity.
Defined.

Lemma poll_ends_on_server_error_witness :
  CommonHandlers.poll 1 task7 (with_script [ClientFailure] fresh)
  = (Ret Finished,
     add_trace [Http (grade_request task7) ClientFailure;
                edited task7 CommonHandlers.server_error_text] []
       (with_script [ClientFailure] fresh)).
Proof.
  apply (poll_ends_on_server_error 0 task7 (with_script [ClientFailure] fresh)
           ClientFailure []); [reflexivity|reflexivity|by left].
Defined.


Lemma poll_malformed_verdict_is_lost_witness :
  CommonHandlers.run_tasks 1 [task7]
    (with_script [ok (BDict verdict_without_message)] fresh)
  = ([Raise AttributeError],
     add_trace [Http (grade_request task7) (ok (BDict verdict_without_message))] []
       (with_script [ok (BDict verdict_without_message)] fresh))
  ∧ CommonHandlers.run_tasks 1 [task7]
      (with_script [ok (BDict verdict_without_checks)] fresh)
    = ([Raise TypeError],
       add_trace [Http (grade_request task7) (ok (BDict verdict_without_checks))] []
         (with_script [ok (BDict verdict_without_checks)] fresh)).
Proof.
  split.
  - apply (proj2 (poll_malformed_verdict_is_lost 0 task7
                    (with_script [ok (BDict verdict_without_message)] fresh)
                    (ok (BDict verdict_without_message)) [] verdict_without_message
                    eq_refl eq_refl eq_refl) JNull); [reflexivity|discriminate|exact I].
  - apply (proj1 (poll_malformed_verdict_is_lost 0 task7
                    (with_script [ok (BDict verdict_without_checks)] fresh)
                    (ok (BDict verdict_without_checks)) [] verdict_without_checks
                    eq_refl eq_refl eq_refl) JNull); [reflexivity|exact I].
Defined.

Lemma refused_registration_keeps_the_row_witness :
  let w := world_student [] [ok (BCourses [algo_dto]); ok (BDict no_such_group)] in
  refused (APIClient.register_result (outcome_at 1 w))
  ∧ students (snd (CommonHandlers.course_selected cb_course w)) = [ivanov []]
  ∧ http_script (snd (CommonHandlers.course_selected cb_course w)) = [].
Proof.
  cbn zeta.
  assert (refused (APIClient.register_result
                     (outcome_at 1 (world_student []
                                      [ok (BCourses [algo_dto]); ok (BDict no_such_group)]))))
    as Hr by (right; reflexivity).
  split; [exact Hr|].
  destruct (refused_registration_keeps_the_row cb_course
              (world_student [] [ok (BCourses [algo_dto]); ok (BDict no_such_group)])
              "course" "5" algo_dto (ivanov []) eq_refl eq_refl eq_refl eq_refl Hr)
    as (Hrows & Hscript & _).
  split; [exact Hrows|exact Hscript].
Defined.

Lemma lab_selected_needs_registration_witness :
  row_of 7 fresh = None
  ∧ tasks (snd (CommonHandlers.lab_selected cb_lab fresh)) = []
  ∧ ∃ r, trace (snd (CommonHandlers.lab_selected cb_lab fresh))
         = [Tg (AnswerCallback (Some "⚠️ Сначала зарегистрируйся") true) r].
Proof.
  split; [reflexivity|].
  destruct (lab_selected_needs_registration cb_lab fresh "lab" "5_lab1" ("5", "lab1")
              eq_refl eq_refl eq_refl) as (Htasks & _ & _ & Htrace).
  split; [exact Htasks|exact Htrace].
Defined.

Lemma fall_semester_spans_the_new_year_witness :
  Semester.current_semester 2025 9 = "Fall 2025"
  ∧ Semester.current_semester 2026 1 = "Fall 2025"
  ∧ Semester.current_semester 2026 2 = "Spring 2026".
Proof.
  assert (8 ≤ 9 ≤ 12) as Hm by lia.
  assert (2 ≤ 2 ≤ 7) as Hm' by lia.
  destruct (fall_semester_spans_the_new_year 2025 9 Hm) as (Hfall & Hjan & Hspring).
  split; [exact Hfall|]. split; [exact (eq_trans Hjan Hfall)|exact (Hspring 2 Hm')].
Defined.

Lemma course_selected_stops_early_witness :
  let w := with_script [ok (BCourses [])] fresh in
  selected "5" (outcome_at 0 w) = None
  ∧ ∃ r, trace (snd (CommonHandlers.course_selected cb_course w))
         = [Http GetCourses (ok (BCourses []));
            Tg (AnswerCallback (Some "❌ Курс не найден") true) r].
Proof.
  cbn zeta. split; [reflexivity|].
  exact (proj2 (proj2 (proj2 (course_selected_stops_early cb_course
                                (with_script [ok (BCourses [])] fresh)
                                "course" "5" eq_refl (or_introl eq_refl))))).
Defined.

Lemma student_data_handlers_skip_the_guard_witness :
  AdminHandlers.del_group cb_del_group (with_admin_sessions None world_two_students)
  = (fst (AdminHandlers.del_group cb_del_group world_two_students),
     with_admin_sessions None
       (snd (AdminHandlers.del_group cb_del_group world_two_students)))
  ∧ students (snd (AdminHandlers.del_group cb_del_group
                     (with_admin_sessions None world_two_students))) = [].
Proof.
  assert (AdminHandlers.del_group ∈ unguarded) as Hh by (unfold unguarded; do 4 right; left).
  destruct (student_data_handlers_skip_the_guard AdminHandlers.del_group cb_del_group
              None world_two_students Hh) as [Hblind _].
  split; [exact Hblind|reflexivity].
Defined.

Lemma guard_without_token_witness :
  let w := with_admin_sessions (Some []) fresh in
  (∃ r, trace (snd (AdminHandlers.admin_groups cb_groups w))
        = [Tg (AnswerCallback (Some AdminHandlers.relogin_text) true) r])
  ∧ AdminHandlers.admin_groups cb_groups fresh = (Raise OperationalError, fresh).
Proof.
  cbn zeta.
  assert (AdminHandlers.admin_groups ∈ guarded) as Hh by (unfold guarded; left).
  split.
  - exact (proj2 (proj2 (proj2 (proj2
             (proj1 (guard_without_token AdminHandlers.admin_groups cb_groups
                       (with_admin_sessions (Some []) fresh) Hh) eq_refl))))).
  - exact (proj2 (guard_without_token AdminHandlers.admin_groups cb_groups fresh Hh)
             eq_refl).
Defined.

Lemma token_is_good_for_an_hour_witness :
  let w0 := with_admin_sessions (Some []) fresh in
  let w1 := snd (AdminSessionRepo.save_cookie "tok" w0) in
  AdminHandlers._ensure_admin (OfCallback cb_groups) (at_time 3599999999 w1)
  = (Ret true, at_time 3599999999 w1)
  ∧ admin_sessions (snd (AdminHandlers._ensure_admin (OfCallback cb_groups)
                           (at_time 3600000000 w1))) = Some [].
Proof.
  cbn zeta. split.
  - refine (proj1 (token_is_good_for_an_hour cb_groups
                     (with_admin_sessions (Some []) fresh)
                     (at_time 3599999999
                        (snd (AdminSessionRepo.save_cookie "tok"
                                (with_admin_sessions (Some []) fresh))))
                     [] "tok" eq_refl eq_refl) _).
    reflexivity.
  - refine (proj2 (proj2 (token_is_good_for_an_hour cb_groups
                            (with_admin_sessions (Some []) fresh)
                            (at_time 3600000000
                               (snd (AdminSessionRepo.save_cookie "tok"
                                       (with_admin_sessions (Some []) fresh))))
                            [] "tok" eq_refl eq_refl) _)).
    vm_compute. discriminate.
Defined.

Lemma failed_logout_keeps_the_token_witness :
  let w := world_admin AdminMenu.MAIN ∅ [ServerDisconnected] in
  AdminHandlers.admin_logout cb_logout w
  = (Raise ClientError, with_http [] (Http (PostAdminLogout "tok") ServerDisconnected) w)
  ∧ admin_sessions (snd (AdminHandlers.admin_logout cb_logout w)) = Some [("tok", 1000)].
Proof.
  cbn zeta.
  pose proof (failed_logout_keeps_the_token cb_logout
                (world_admin AdminMenu.MAIN ∅ [ServerDisconnected])
                "tok" 1000 [] ServerDisconnected [] eq_refl eq_refl (or_introl eq_refl))
    as Hrun.
  split; [exact Hrun|]. rewrite Hrun. reflexivity.
Defined.

Lemma admin_cancel_outside_confirm_clears_witness :
  sess_state (session_of world_password 7) = Some (SLogin AdminLogin.PASSWORD)
  ∧ session_of (snd (AdminHandlers.admin_cancel cb_cancel world_password)) 7
    = empty_session.
Proof.
  split; [reflexivity|].
  refine (proj1 (admin_cancel_outside_confirm_clears cb_cancel world_password _)).
  vm_compute. discriminate.
Defined.

Lemma course_delete_ends_on_a_closed_session_witness :
  let w := world_admin AdminMenu.CONFIRM ∅ [ok BEmpty] in
  AdminHandlers.do_course_del cb_course_del w
  = (Raise RuntimeError, with_http [] (Http (DeleteCourse "tok" "7") (ok BEmpty)) w).
Proof.
  cbn zeta.
  exact (course_delete_ends_on_a_closed_session cb_course_del
           (world_admin AdminMenu.CONFIRM ∅ [ok BEmpty]) "tok" 1000 [] None BEmpty ""
           [] eq_refl eq_refl).
Defined.

Lemma course_upload_ends_on_a_closed_session_witness :
  let w := world_admin AdminMenu.EDIT ∅ [ok BEmpty; ok BEmpty] in
  fst (AdminHandlers.upload_new_course msg_file w) = Raise RuntimeError
  ∧ sess_state (session_of (snd (AdminHandlers.upload_new_course msg_file w)) 7)
    = Some (SMenu AdminMenu.EDIT).
Proof.
  cbn zeta.
  assert (clock (world_admin AdminMenu.EDIT ∅ [ok BEmpty; ok BEmpty]) < 1000) as Hc
    by (vm_compute; reflexivity).
  destruct (course_upload_ends_on_a_closed_session msg_file
              (world_admin AdminMenu.EDIT ∅ [ok BEmpty; ok BEmpty]) "tok" 1000 []
              course_file None None BEmpty BEmpty "" "" [] eq_refl Hc eq_refl eq_refl
              eq_refl) as (w' & Hrun & Hfsm & _).
  rewrite Hrun. cbn [fst snd]. split; [reflexivity|].
  unfold session_of. rewrite Hfsm. reflexivity.
Defined.

Lemma upload_guard_raises_on_a_message_witness :
  admin_sessions world_expired = Some [("tok", 100)]
  ∧ AdminHandlers.upload_new_course msg_file world_expired
    = (Raise AttributeError, world_expired).
Proof.
  split; [reflexivity|].
  apply (upload_guard_raises_on_a_message msg_file world_expired).
  right. exists "tok", 100, []. split; [reflexivity|vm_compute; discriminate].
Defined.

Lemma del_student_deletes_by_table_position_witness :
  sess_data (session_of world_two_students 7) !! "students"
  = Some (VStrs ["Abramov Abram"; "Petrov Petr"])
  ∧ sess_data (session_of world_two_students 7) !! "del_student_idx" = Some (VInt 0)
  ∧ students (snd (AdminHandlers.del_student cb_del_student world_two_students))
    = [abramov].
Proof.
  split; [reflexivity|]. split; [reflexivity|].
  exact (proj1 (proj1 (del_student_deletes_by_table_position cb_del_student
                         world_two_students "4231" 0 eq_refl eq_refl)
                  petrov eq_refl)).
Defined.

Lemma login_conversation_sends_what_was_typed_witness :
  ∃ w', (AdminHandlers.admin_entry (message_in 7 60 (Some "/admin"));;
         AdminHandlers.admin_login_step (message_in 7 61 (Some " root "));;
         AdminHandlers.admin_password_step (message_in 7 62 (Some "secret ")))
          (with_script [login_ok] fresh)
        = (Ret tt, w')
        ∧ Http (PostAdminLogin (VStr "root") "secret") login_ok ∈ trace w'
        ∧ sess_state (session_of w' 7) = Some (SMenu AdminMenu.MAIN)
        ∧ admin_sessions w' = Some [("tok", 3600000000)].
Proof.
  destruct (login_conversation_sends_what_was_typed
              (message_in 7 60 (Some "/admin")) (message_in 7 61 (Some " root "))
              (message_in 7 62 (Some "secret ")) (with_script [login_ok] fresh)
              " root " "secret " login_ok [] (Some "tok"))
    as (w' & Hrun & Hreq & _ & Hstate & Htoken); try reflexivity.
  exists w'. split; [exact Hrun|]. split; [exact Hreq|]. split; [exact Hstate|exact Htoken].
Defined.

Lemma cancel_upload_skips_the_guard_witness :
  let w := with_admin_sessions (Some []) (world_admin AdminMenu.EDIT ∅ []) in
  ∃ w', AdminHandlers.cancel_course_upload (message_in 7 62 (Some "no")) w = (Ret tt, w')
        ∧ sess_state (session_of w' 7) = Some (SMenu AdminMenu.COURSES)
        ∧ last (trace w')
          = Some (Tg (SendMessage 7 AdminHandlers.panel_text (Some admin_main_kb)
                        HtmlNoPreview) (SentAs 1)).
Proof.
  cbn zeta.
  exact (proj1 (cancel_upload_skips_the_guard (message_in 7 62 (Some "no"))
                  (with_admin_sessions (Some []) (world_admin AdminMenu.EDIT ∅ []))
                  eq_refl) eq_refl).
Defined.

End examples.
